(** * telegram-auto-checkin: configuration merge, task executor and scheduler

    A shallow embedding of the Go packages [config], [executor] and
    [scheduler] of the repository, followed by the properties proved about
    them.

    Conventions of the embedding:
    - a Go [int] is a [Z] (the code only compares these values with zero and
      copies them, it never computes with them);
    - a Go [string] is a [string] (a sequence of bytes);
    - a [*bool] is an [option bool], a [*Config] an [option Config.t];
    - a Go map used as an index is a [gmap], a map used as a set a [gset];
    - a value of type [error] is a value of the inductive type [error]; a
      [nil] error is [None];
    - a [zerolog.Logger] is the path of context fields it was built with, a
      logging call appends a [LogEvent] to the log of the state. *)

From Stdlib Require Import ZArith Lia.
From stdpp Require Import base option strings pretty list gmap.

Open Scope Z_scope.

(** ** Data model: [config] *)

Module LogConfig.
Record t := mk {
  Dir : string;
  Level : string;
  Format : string;
}.
Definition zero : t := mk "" "" "".
End LogConfig.

Module TaskConfig.
Record t := mk {
  Name : string;
  Target : string;
  Method : string;
  Payload : string;
  Schedule : string;
  Enabled : option bool;
  RunOnStart : bool;
  ReplyWaitSeconds : Z;
  ReplyHistoryLimit : Z;
}.

(** The zero value [config.TaskConfig{}]. *)
Definition zero : t := mk "" "" "" "" "" None false 0 0.

Definition set_Target (v : string) (c : t) : t :=
  mk (Name c) v (Method c) (Payload c) (Schedule c) (Enabled c)
     (RunOnStart c) (ReplyWaitSeconds c) (ReplyHistoryLimit c).
Definition set_Method (v : string) (c : t) : t :=
  mk (Name c) (Target c) v (Payload c) (Schedule c) (Enabled c)
     (RunOnStart c) (ReplyWaitSeconds c) (ReplyHistoryLimit c).
Definition set_Payload (v : string) (c : t) : t :=
  mk (Name c) (Target c) (Method c) v (Schedule c) (Enabled c)
     (RunOnStart c) (ReplyWaitSeconds c) (ReplyHistoryLimit c).
Definition set_Schedule (v : string) (c : t) : t :=
  mk (Name c) (Target c) (Method c) (Payload c) v (Enabled c)
     (RunOnStart c) (ReplyWaitSeconds c) (ReplyHistoryLimit c).
Definition set_Enabled (v : option bool) (c : t) : t :=
  mk (Name c) (Target c) (Method c) (Payload c) (Schedule c) v
     (RunOnStart c) (ReplyWaitSeconds c) (ReplyHistoryLimit c).
Definition set_RunOnStart (v : bool) (c : t) : t :=
  mk (Name c) (Target c) (Method c) (Payload c) (Schedule c) (Enabled c)
     v (ReplyWaitSeconds c) (ReplyHistoryLimit c).
End TaskConfig.

Module AccountConfig.
Record t := mk {
  Name : string;
  Phone : string;
  Password : string;
  AppID : Z;
  AppHash : string;
  WorkerCount : Z;
  TaskQueueSize : Z;
  ReplyWaitSeconds : Z;
  ReplyHistoryLimit : Z;
  Tasks : list TaskConfig.t;
}.

(** The zero value of the struct ([var o AccountConfig]). *)
Definition zero : t := mk "" "" "" 0 "" 0 0 0 0 [].

Definition set_Name (v : string) (c : t) : t :=
  mk v (Phone c) (Password c) (AppID c) (AppHash c) (WorkerCount c)
     (TaskQueueSize c) (ReplyWaitSeconds c) (ReplyHistoryLimit c) (Tasks c).
Definition set_Phone (v : string) (c : t) : t :=
  mk (Name c) v (Password c) (AppID c) (AppHash c) (WorkerCount c)
     (TaskQueueSize c) (ReplyWaitSeconds c) (ReplyHistoryLimit c) (Tasks c).
Definition set_Password (v : string) (c : t) : t :=
  mk (Name c) (Phone c) v (AppID c) (AppHash c) (WorkerCount c)
     (TaskQueueSize c) (ReplyWaitSeconds c) (ReplyHistoryLimit c) (Tasks c).
Definition set_AppID (v : Z) (c : t) : t :=
  mk (Name c) (Phone c) (Password c) v (AppHash c) (WorkerCount c)
     (TaskQueueSize c) (ReplyWaitSeconds c) (ReplyHistoryLimit c) (Tasks c).
Definition set_AppHash (v : string) (c : t) : t :=
  mk (Name c) (Phone c) (Password c) (AppID c) v (WorkerCount c)
     (TaskQueueSize c) (ReplyWaitSeconds c) (ReplyHistoryLimit c) (Tasks c).
Definition set_Tasks (v : list TaskConfig.t) (c : t) : t :=
  mk (Name c) (Phone c) (Password c) (AppID c) (AppHash c) (WorkerCount c)
     (TaskQueueSize c) (ReplyWaitSeconds c) (ReplyHistoryLimit c) v.
End AccountConfig.

Module Config.
Record t := mk {
  Accounts : list AccountConfig.t;
  Proxy : string;
  AppID : Z;
  AppHash : string;
  ReplyWaitSeconds : Z;
  ReplyHistoryLimit : Z;
  Log : LogConfig.t;
  Language : string;
}.

Definition set_Accounts (v : list AccountConfig.t) (c : t) : t :=
  mk v (Proxy c) (AppID c) (AppHash c) (ReplyWaitSeconds c)
     (ReplyHistoryLimit c) (Log c) (Language c).
Definition set_Proxy (v : string) (c : t) : t :=
  mk (Accounts c) v (AppID c) (AppHash c) (ReplyWaitSeconds c)
     (ReplyHistoryLimit c) (Log c) (Language c).
Definition set_AppID (v : Z) (c : t) : t :=
  mk (Accounts c) (Proxy c) v (AppHash c) (ReplyWaitSeconds c)
     (ReplyHistoryLimit c) (Log c) (Language c).
Definition set_AppHash (v : string) (c : t) : t :=
  mk (Accounts c) (Proxy c) (AppID c) v (ReplyWaitSeconds c)
     (ReplyHistoryLimit c) (Log c) (Language c).
End Config.

(** ** Errors

    One constructor per [fmt.Errorf] of the packages; [External] stands for
    an error handed back by a collaborator (the cron engine, the Telegram
    client, the file system). *)
#[warnings="-register-all"]
Inductive error : Type :=
  | AccountsLengthMismatch (base override : nat)
      (* "accounts length mismatch: base=%d override=%d" *)
  | UnknownMethod (method : string)        (* "unknown method %q" *)
  | MissingAppConfig                       (* "missing app_id or app_hash" *)
  | FailedToSubmit (taskName : string)     (* "failed to submit task: %s" *)
  | ContextCanceled                        (* ctx.Err() *)
  | Joined (errs : list error)             (* errors.Join(errs...) *)
  | External (msg : string).

(** A Go result pair [(T, error)]. *)
Inductive result (A : Type) : Type :=
  | Ok (a : A)
  | Err (e : error).
Arguments Ok {A} a.
Arguments Err {A} e.

(** [s != ""] and [n != 0] as booleans. *)
Definition nonEmpty (s : string) : bool := bool_decide (s ≠ "").
Definition nonZero (n : Z) : bool := bool_decide (n ≠ 0).

(** ** Package [config]: merging two configurations *)

Module config.

Definition mergeTask (base override : TaskConfig.t) : TaskConfig.t :=
  let merged := base in
  let merged := if nonEmpty (TaskConfig.Target override)
                then TaskConfig.set_Target (TaskConfig.Target override) merged
                else merged in
  let merged := if nonEmpty (TaskConfig.Method override)
                then TaskConfig.set_Method (TaskConfig.Method override) merged
                else merged in
  let merged := if nonEmpty (TaskConfig.Payload override)
                then TaskConfig.set_Payload (TaskConfig.Payload override) merged
                else merged in
  let merged := if nonEmpty (TaskConfig.Schedule override)
                then TaskConfig.set_Schedule (TaskConfig.Schedule override) merged
                else merged in
  let merged := match TaskConfig.Enabled override with
                | Some _ => TaskConfig.set_Enabled (TaskConfig.Enabled override) merged
                | None => merged
                end in
  let merged := if TaskConfig.RunOnStart override
                then TaskConfig.set_RunOnStart true merged
                else merged in
  merged.

(** The [for i := 0; i < maxLen; i++] loop of [mergeTasks]: [b] and [o]
    start as zero values and are read from the slices when the index is
    in range; the [switch] picks what is appended. *)
Definition mergeTasks (base override : list TaskConfig.t) : list TaskConfig.t :=
  let maxLen := Nat.max (length base) (length override) in
  foldl (fun merged i =>
           let hasBase := bool_decide (i < length base)%nat in
           let hasOverride := bool_decide (i < length override)%nat in
           let b := if hasBase then default TaskConfig.zero (base !! i)
                    else TaskConfig.zero in
           let o := if hasOverride then default TaskConfig.zero (override !! i)
                    else TaskConfig.zero in
           if hasBase && hasOverride then merged ++ [mergeTask b o]
           else if hasBase then merged ++ [b]
           else merged ++ [o])
        [] (seq 0 maxLen).

Definition mergeAccount (base override : AccountConfig.t) : AccountConfig.t :=
  let merged := base in
  let merged := if nonEmpty (AccountConfig.Name override)
                then AccountConfig.set_Name (AccountConfig.Name override) merged
                else merged in
  let merged := if nonEmpty (AccountConfig.Phone override)
                then AccountConfig.set_Phone (AccountConfig.Phone override) merged
                else merged in
  let merged := if nonEmpty (AccountConfig.Password override)
                then AccountConfig.set_Password (AccountConfig.Password override) merged
                else merged in
  let merged := if nonZero (AccountConfig.AppID override)
                then AccountConfig.set_AppID (AccountConfig.AppID override) merged
                else merged in
  let merged := if nonEmpty (AccountConfig.AppHash override)
                then AccountConfig.set_AppHash (AccountConfig.AppHash override) merged
                else merged in
  let merged := if bool_decide (0 < length (AccountConfig.Tasks override))%nat
                then AccountConfig.set_Tasks
                       (mergeTasks (AccountConfig.Tasks base)
                                   (AccountConfig.Tasks override)) merged
                else merged in
  merged.

Definition mergeAccountsByIndex (base override : list AccountConfig.t)
  : list AccountConfig.t :=
  let maxLen := Nat.max (length base) (length override) in
  foldl (fun merged i =>
           let hasBase := bool_decide (i < length base)%nat in
           let hasOverride := bool_decide (i < length override)%nat in
           let b := if hasBase then default AccountConfig.zero (base !! i)
                    else AccountConfig.zero in
           let o := if hasOverride then default AccountConfig.zero (override !! i)
                    else AccountConfig.zero in
           if hasBase && hasOverride then merged ++ [mergeAccount b o]
           else if hasBase then merged ++ [b]
           else merged ++ [o])
        [] (seq 0 maxLen).

(** [strings.TrimSpace] belongs to the Go standard library; the functions
    that call it take it as a parameter, and what is proved about them
    holds for every such function. *)
Section WithTrimSpace.
Variable TrimSpace : string -> string.

Definition allAccountsNamed (accounts : list AccountConfig.t) : bool :=
  if bool_decide (length accounts = 0%nat) then false
  else forallb (fun acc => nonEmpty (TrimSpace (AccountConfig.Name acc)))
               accounts.

(** First loop of [mergeAccountsByName]: the index of the overrides by
    trimmed name; a later account replaces an earlier one of the same
    key. *)
Definition overrideIndex (override : list AccountConfig.t)
  : gmap string AccountConfig.t :=
  foldl (fun idx acc => <[TrimSpace (AccountConfig.Name acc) := acc]> idx)
        ∅ override.

(** Second loop: one output per base account, and the set [seen] of the
    keys that met an override. *)
Definition mergeBaseLoop (idx : gmap string AccountConfig.t)
           (base : list AccountConfig.t)
  : list AccountConfig.t * gset string :=
  foldl (fun '(merged, seen) acc =>
           let key := TrimSpace (AccountConfig.Name acc) in
           match idx !! key with
           | Some over => (merged ++ [mergeAccount acc over], {[key]} ∪ seen)
           | None => (merged ++ [acc], seen)
           end)
        ([], ∅) base.

(** Third loop: the overrides whose key was not seen are appended. *)
Definition appendUnseenLoop (seen : gset string)
           (merged override : list AccountConfig.t)
  : list AccountConfig.t :=
  foldl (fun merged acc =>
           let key := TrimSpace (AccountConfig.Name acc) in
           if bool_decide (key ∈ seen) then merged else merged ++ [acc])
        merged override.

Definition mergeAccountsByName (base override : list AccountConfig.t)
  : list AccountConfig.t :=
  let idx := overrideIndex override in
  let '(merged, seen) := mergeBaseLoop idx base in
  appendUnseenLoop seen merged override.

Definition mergeAccounts (base override : list AccountConfig.t)
  : result (list AccountConfig.t) :=
  if bool_decide (length override = 0%nat) then Ok base
  else if allAccountsNamed base && allAccountsNamed override
       then Ok (mergeAccountsByName base override)
  else if bool_decide (length base ≠ length override)
       then Err (AccountsLengthMismatch (length base) (length override))
  else Ok (mergeAccountsByIndex base override).

Definition MergeConfig (base override : option Config.t)
  : result (option Config.t) :=
  match base, override with
  | None, _ => Ok override
  | Some _, None => Ok base
  | Some base, Some override =>
      let merged := base in
      let merged := if nonEmpty (Config.Proxy override)
                    then Config.set_Proxy (Config.Proxy override) merged
                    else merged in
      let merged := if nonZero (Config.AppID override)
                    then Config.set_AppID (Config.AppID override) merged
                    else merged in
      let merged := if nonEmpty (Config.AppHash override)
                    then Config.set_AppHash (Config.AppHash override) merged
                    else merged in
      if bool_decide (0 < length (Config.Accounts override))%nat then
        match mergeAccounts (Config.Accounts base) (Config.Accounts override) with
        | Err err => Err err
        | Ok accounts => Ok (Some (Config.set_Accounts accounts merged))
        end
      else Ok (Some merged)
  end.
End WithTrimSpace.

(** The byte-wise fast path of [strings.TrimSpace]: the six ASCII white
    space bytes are removed at both ends. It is the Go function on every
    string made of ASCII bytes, and is what the examples run with. *)
Definition asciiSpace (c : Ascii.ascii) : bool :=
  let n := Ascii.nat_of_ascii c in
  (Nat.eqb n 9 || Nat.eqb n 10 || Nat.eqb n 11 || Nat.eqb n 12
   || Nat.eqb n 13 || Nat.eqb n 32)%bool.

Fixpoint trimLeftASCII (s : string) : string :=
  match s with
  | String c rest => if asciiSpace c then trimLeftASCII rest else s
  | EmptyString => EmptyString
  end.

Definition TrimSpaceASCII (s : string) : string :=
  String.rev (trimLeftASCII (String.rev (trimLeftASCII s))).

End config.

(** ** Logging ([zerolog])

    A logger is where it writes and the context fields it was given with
    [With()]; an event is what one [Msg] call hands to its logger. The log
    of a state lists the events in the order of the calls, before any level
    filter of the sink. *)
Inductive Level : Type := DebugLevel | InfoLevel | WarnLevel | ErrorLevel.

Inductive FieldValue : Type :=
  | StrField (s : string)
  | IntField (n : Z)
  | ErrField (e : error).

Inductive Sink : Type :=
  | MainLog
  | TaskLogFile (logDir accountName taskName triggerType : string).

Record Logger := mkLogger {
  sink : Sink;
  context : list (string * FieldValue);
}.

Record LogEvent := mkEvent {
  ev_logger : Logger;
  ev_level : Level;
  ev_fields : list (string * FieldValue);
  ev_msg : string;
}.

(** [l.With().<field>(k, v).Logger()] *)
Definition With (k : string) (v : FieldValue) (l : Logger) : Logger :=
  mkLogger (sink l) (context l ++ [(k, v)]).

Module logger.
(** [CreateTaskLogger]: the directory and the file are made by the
    operating system, whose answer is the parameter [fs] ([None] when
    both calls succeed); the time stamp of the file name is left out of
    the sink. *)
Definition CreateTaskLogger (fs : string -> string -> string -> string -> option error)
           (logDir accountName taskName triggerType format : string)
  : result Logger :=
  let logDir := if nonEmpty logDir then logDir else "./log" in
  match fs logDir accountName taskName triggerType with
  | Some err => Err err
  | None =>
      Ok (mkLogger (TaskLogFile logDir accountName taskName triggerType)
                   [("account", StrField accountName);
                    ("task", StrField taskName);
                    ("trigger", StrField triggerType)])
  end.
(** [sanitizeFilename]: a [strings.NewReplacer] whose old strings are all
    single bytes works byte by byte. Ten bytes (slash, backslash, colon,
    star, question mark, double quote, the two angle brackets, bar and
    space) become an underscore, the at sign and the plus sign are
    dropped, every other byte is kept. *)
Definition toUnderscore (c : Ascii.ascii) : bool :=
  bool_decide (Ascii.nat_of_ascii c ∈ [47; 92; 58; 42; 63; 34; 60; 62; 124; 32]%nat).

Definition dropped (c : Ascii.ascii) : bool :=
  bool_decide (Ascii.nat_of_ascii c ∈ [64; 43]%nat).

Definition replaceByte (c : Ascii.ascii) : string :=
  if toUnderscore c then "_"
  else if dropped c then ""
  else String c "".

Fixpoint sanitizeFilename (name : string) : string :=
  match name with
  | EmptyString => EmptyString
  | String c rest => replaceByte c +:+ sanitizeFilename rest
  end.
End logger.

(** ** Package [executor] *)

Module executor.

(** The two operations of the [taskClient] interface the executor calls.
    The client is the Telegram session: its answer to a call may depend on
    the calls made before. *)
Inductive ClientCall : Type :=
  | CheckInMessageInRunWithLogger (target message : string) (taskLogger : Logger)
  | CheckInButtonInRunWithLogger (target buttonText : string) (taskLogger : Logger).

Definition taskClient : Type := list ClientCall -> ClientCall -> option error.

Record TaskRequest := mkRequest {
  Task : TaskConfig.t;
  Logger_ : Logger;
  TriggerType : string;
  WorkerID : Z;
}.

Definition set_WorkerID (id : Z) (req : TaskRequest) : TaskRequest :=
  mkRequest (Task req) (Logger_ req) (TriggerType req) id.

(** A buffered channel [chan TaskRequest]: the queued values, oldest
    first, the capacity given to [make], and whether [close] was called. *)
Record chan := mkChan {
  buffer : list TaskRequest;
  capacity : Z;
  closed : bool;
}.

(** [make(chan TaskRequest, size)]. The Go runtime does not accept every
    size: [runtime.makechan] panics with "makechan: size out of range" when
    the size is negative or when [size] requests take more bytes than it
    allocates at once. [chanLimit] is the largest capacity it accepts for a
    channel of requests; it depends on the platform and on the size of a
    request. [make] is the channel the call returns when the size is
    accepted, [makechan] the call with its refusal ([None] is the panic). *)
Definition make (size : Z) : chan := mkChan [] size false.

Definition makechan (chanLimit size : Z) : option chan :=
  if bool_decide (0 ≤ size ≤ chanLimit) then Some (make size) else None.

(** On the 64-bit platforms the runtime allocates less than 2^48 bytes at
    once ([runtime.maxAlloc]) and a request takes more than one byte, so
    the largest capacity of a channel of requests is below this number. *)
Definition maxAlloc : Z := 2 ^ 48.

Record TaskExecutor := mkExecutor {
  client : taskClient;
  taskQueue : chan;
  workerCount : Z;
  cancelled : bool;           (* [e.ctx] is done, i.e. [e.cancel] ran *)
  log : Logger;
  logDir : string;
  logFormat : string;
  accountName : string;
}.

Definition set_taskQueue (q : chan) (e : TaskExecutor) : TaskExecutor :=
  mkExecutor (client e) q (workerCount e) (cancelled e) (log e)
             (logDir e) (logFormat e) (accountName e).
Definition set_cancelled (b : bool) (e : TaskExecutor) : TaskExecutor :=
  mkExecutor (client e) (taskQueue e) (workerCount e) b (log e)
             (logDir e) (logFormat e) (accountName e).

(** [NewTaskExecutor]: the executor the call returns. Whether it returns
    is the matter of [make], see [NewTaskExecutor_call] below. *)
Definition NewTaskExecutor (client : taskClient) (workerCount queueSize : Z)
           (log : Logger) (logDir logFormat accountName : string)
  : TaskExecutor :=
  let workerCount := if bool_decide (workerCount ≤ 0) then 4 else workerCount in
  let queueSize := if bool_decide (queueSize ≤ 0) then 100 else queueSize in
  let logFormat := if nonEmpty logFormat then logFormat else "text" in
  mkExecutor client (make queueSize) workerCount false log
             logDir logFormat accountName.

(** The call of [NewTaskExecutor] at run time, on a runtime that accepts
    channels of requests up to the capacity [chanLimit]: the same
    statements, with the panic of [make] ([None]). Where it returns, it
    returns the executor of [NewTaskExecutor]. *)
Definition NewTaskExecutor_call (chanLimit : Z) (client : taskClient)
           (workerCount queueSize : Z) (log : Logger)
           (logDir logFormat accountName : string)
  : option TaskExecutor :=
  let workerCount := if bool_decide (workerCount ≤ 0) then 4 else workerCount in
  let queueSize := if bool_decide (queueSize ≤ 0) then 100 else queueSize in
  let logFormat := if nonEmpty logFormat then logFormat else "text" in
  match makechan chanLimit queueSize with
  | None => None
  | Some q =>
      Some (mkExecutor client q workerCount false log logDir logFormat accountName)
  end.

Definition QueueLen (e : TaskExecutor) : Z :=
  Z.of_nat (length (buffer (taskQueue e))).

(** The state the executor's methods act on: the executor itself, the
    events logged and the calls made on the client. *)
Record State := mkState {
  exec : TaskExecutor;
  logged : list LogEvent;
  called : list ClientCall;
}.

Definition emit (l : Logger) (lv : Level) (fields : list (string * FieldValue))
           (msg : string) (st : State) : State :=
  mkState (exec st) (logged st ++ [mkEvent l lv fields msg]) (called st).

Definition set_exec (e : TaskExecutor) (st : State) : State :=
  mkState e (logged st) (called st).

(** A method either returns, with its value and the state it leaves, or
    panics (a send on a closed channel), or waits: a [select] without a
    [default] branch none of whose cases is ready blocks its caller. *)
Inductive Outcome (A : Type) : Type :=
  | Returned (a : A) (st : State)
  | Panicked (reason : string)
  | Blocked.
Arguments Returned {A} a st.
Arguments Panicked {A} reason.
Arguments Blocked {A}.

(** [select { case e.taskQueue <- req: ...; default: ... }]. The send is
    taken when the buffer has room, the [default] branch otherwise (a
    receiver only waits on an empty buffer, which has room as the capacity
    is at least 1); a send on a closed channel panics. *)
Definition SubmitTask (task : TaskConfig.t) (logger : Logger)
           (triggerType : string) (st : State) : Outcome bool :=
  let q := taskQueue (exec st) in
  if closed q then Panicked "send on closed channel"
  else if bool_decide (Z.of_nat (length (buffer q)) < capacity q) then
    let req := mkRequest task logger triggerType 0 in
    Returned true
      (set_exec (set_taskQueue (mkChan (buffer q ++ [req]) (capacity q) (closed q))
                               (exec st)) st)
  else
    Returned false
      (emit logger WarnLevel [("task", StrField (TaskConfig.Name task))]
            "⚠️ Task queue is full, dropping task" st).

(** Submissions one after the other, nothing being taken from the queue
    in between; the answers are listed in order. *)
Fixpoint submitAll (reqs : list (TaskConfig.t * Logger * string)) (st : State)
  : Outcome (list bool) :=
  match reqs with
  | [] => Returned [] st
  | (task, logger, triggerType) :: rest =>
      match SubmitTask task logger triggerType st with
      | Panicked r => Panicked r
      | Blocked => Blocked
      | Returned b st =>
          match submitAll rest st with
          | Panicked r => Panicked r
          | Blocked => Blocked
          | Returned bs st => Returned (b :: bs) st
          end
      end
  end.

(** [select { case <-ctx.Done(): return false; case e.taskQueue <- req:
    return true }], with [ctxDone] telling whether [ctx] is done. A case is
    ready when [ctx] is done, respectively when the buffer has room or the
    queue is closed (the send then panics); [select] takes any ready case,
    so the outcome is a relation, and it waits when none is ready. *)
Inductive SubmitTaskBlocking (ctxDone : bool) (task : TaskConfig.t) (logger : Logger)
          (triggerType : string) (st : State) : Outcome bool -> Prop :=
  | blocking_ctx_done :
      ctxDone = true ->
      SubmitTaskBlocking ctxDone task logger triggerType st (Returned false st)
  | blocking_closed :
      closed (taskQueue (exec st)) = true ->
      SubmitTaskBlocking ctxDone task logger triggerType st
                         (Panicked "send on closed channel")
  | blocking_sent :
      closed (taskQueue (exec st)) = false ->
      Z.of_nat (length (buffer (taskQueue (exec st)))) < capacity (taskQueue (exec st)) ->
      SubmitTaskBlocking ctxDone task logger triggerType st
        (Returned true
           (set_exec (set_taskQueue
                        (mkChan (buffer (taskQueue (exec st))
                                 ++ [mkRequest task logger triggerType 0])
                                (capacity (taskQueue (exec st)))
                                (closed (taskQueue (exec st))))
                        (exec st)) st))
  | blocking_waits :
      ctxDone = false ->
      closed (taskQueue (exec st)) = false ->
      capacity (taskQueue (exec st)) ≤ Z.of_nat (length (buffer (taskQueue (exec st)))) ->
      SubmitTaskBlocking ctxDone task logger triggerType st Blocked.

(** [Start], as far as its own goroutine goes: the event. The workers it
    launches with [go e.worker(ctx, i)] run beside it: each logs "Worker
    started" ([workerStarted]) and then takes the turns of [worker_turn]
    below, at a pace of its own. *)
Definition Start (st : State) : State :=
  emit (log (exec st)) DebugLevel
       [("worker_count", IntField (workerCount (exec st)))]
       "Starting task executor" st.

(** [Stop], as far as the executor's own fields and its own goroutine go:
    cancel, close the queue, log. Before the event [Stop] waits for the
    workers ([e.wg.Wait()]); the requests they still take from the queue
    and the events they log while they leave are not part of this
    function, they are turns of [worker_turn]. *)
Definition Stop (st : State) : State :=
  let e := exec st in
  let q := taskQueue e in
  let e := set_taskQueue (mkChan (buffer q) (capacity q) true)
                         (set_cancelled true e) in
  emit (log e) DebugLevel [] "Task executor stopped" (set_exec e st).

Definition executeTaskWithLogger (task : TaskConfig.t) (taskLogger : Logger)
           (st : State) : option error * State :=
  if bool_decide (TaskConfig.Method task = "message") then
    let call := CheckInMessageInRunWithLogger
                  (TaskConfig.Target task) (TaskConfig.Payload task) taskLogger in
    (client (exec st) (called st) call,
     mkState (exec st) (logged st) (called st ++ [call]))
  else if bool_decide (TaskConfig.Method task = "button") then
    let call := CheckInButtonInRunWithLogger
                  (TaskConfig.Target task) (TaskConfig.Payload task) taskLogger in
    (client (exec st) (called st) call,
     mkState (exec st) (logged st) (called st ++ [call]))
  else (Some (UnknownMethod (TaskConfig.Method task)), st).

(** The three wordings the executor picks from by trigger type. *)
Definition startMsg (triggerType : string) : string :=
  if bool_decide (triggerType = "run_on_start") then "Executing startup task..."
  else if bool_decide (triggerType = "scheduled") then "Executing scheduled task..."
  else "Executing task...".

Definition failMsg (triggerType : string) : string :=
  if bool_decide (triggerType = "run_on_start") then "Startup task failed"
  else if bool_decide (triggerType = "scheduled") then "Scheduled task failed"
  else "Task failed".

Section WithFileSystem.
Variable fs : string -> string -> string -> string -> option error.

(** The method [(e *TaskExecutor) executeTask]: it returns nothing, the
    error of the dispatch ends in the two logs. *)
Definition executeTask (req : TaskRequest) (st : State) : State :=
  let e := exec st in
  let taskName := if nonEmpty (TaskConfig.Name (Task req))
                  then TaskConfig.Name (Task req)
                  else TaskConfig.Target (Task req) in
  let '(taskLogger, st) :=
    match logger.CreateTaskLogger fs (logDir e) (accountName e) taskName
                                  (TriggerType req) (logFormat e) with
    | Err err =>
        (Logger_ req,
         emit (log e) ErrorLevel
              [("error", ErrField err); ("task", StrField taskName)]
              "Failed to create task log file, using main log" st)
    | Ok l => (l, st)
    end in
  let taskLog :=
    With "target" (StrField (TaskConfig.Target (Task req)))
      (With "task" (StrField taskName)
        (With "thread_name" (StrField taskName)
          (With "thread_id" (IntField (WorkerID req)) taskLogger))) in
  let ids := [("thread_id", IntField (WorkerID req));
              ("thread_name", StrField taskName);
              ("task", StrField taskName)] in
  let st := emit taskLog InfoLevel [] (startMsg (TriggerType req)) st in
  let st := emit (Logger_ req) DebugLevel ids (startMsg (TriggerType req)) st in
  match executeTaskWithLogger (Task req) taskLog st with
  | (Some err, st) =>
      let st := emit taskLog ErrorLevel
                     [("error", ErrField err);
                      ("payload", StrField (TaskConfig.Payload (Task req)))]
                     (failMsg (TriggerType req)) st in
      emit (Logger_ req) ErrorLevel
           (("error", ErrField err) :: ids
            ++ [("payload", StrField (TaskConfig.Payload (Task req)))])
           (failMsg (TriggerType req)) st
  | (None, st) =>
      let st := emit taskLog InfoLevel [] "Task completed successfully" st in
      emit (Logger_ req) InfoLevel ids "Task completed successfully" st
  end.

(** One turn of the [for { select { ... } }] of [worker]: the worker
    [id] either leaves the loop (the outer context is done, the
    executor is cancelled, or the queue is closed and empty) or receives
    the oldest request and executes it. When several cases are ready
    [select] may take any of them, so the turn is a relation. *)
Inductive WorkerStatus : Type := Looping | Exited.

Definition workerLog (id : Z) (st : State) : Logger :=
  With "worker_id" (IntField id) (log (exec st)).

(** The first statements of [worker], before its loop. *)
Definition workerStarted (id : Z) (st : State) : State :=
  emit (workerLog id st) DebugLevel [] "Worker started" st.

Inductive worker_turn (ctxDone : bool) (id : Z)
  : State -> WorkerStatus -> State -> Prop :=
  | turn_ctx_done st :
      ctxDone = true ->
      worker_turn ctxDone id st Exited
        (emit (workerLog id st) DebugLevel [] "Worker exiting" st)
  | turn_cancelled st :
      cancelled (exec st) = true ->
      worker_turn ctxDone id st Exited
        (emit (workerLog id st) DebugLevel [] "Worker exiting" st)
  | turn_closed st :
      buffer (taskQueue (exec st)) = [] ->
      closed (taskQueue (exec st)) = true ->
      worker_turn ctxDone id st Exited
        (emit (workerLog id st) DebugLevel [] "Worker exiting" st)
  | turn_receive st req rest :
      buffer (taskQueue (exec st)) = req :: rest ->
      worker_turn ctxDone id st Looping
        (executeTask (set_WorkerID id req)
           (set_exec (set_taskQueue
                        (mkChan rest (capacity (taskQueue (exec st)))
                                (closed (taskQueue (exec st))))
                        (exec st)) st)).
End WithFileSystem.

End executor.


(** ** Package [scheduler] *)

Module scheduler.

Definition isTaskEnabled (task : TaskConfig.t) : bool :=
  match TaskConfig.Enabled task with
  | None => true
  | Some b => b
  end.

Definition formatAccountLabel (acc : AccountConfig.t) (sessionName : string) : string :=
  if nonEmpty (AccountConfig.Name acc) && nonEmpty (AccountConfig.Phone acc)
  then AccountConfig.Name acc +:+ "(" +:+ AccountConfig.Phone acc +:+ ")"
  else if nonEmpty (AccountConfig.Name acc) then AccountConfig.Name acc
  else if nonEmpty (AccountConfig.Phone acc) then AccountConfig.Phone acc
  else if nonEmpty sessionName then sessionName
  else "unknown_account".

Definition resolveAppConfig (cfg : Config.t) (acc : AccountConfig.t)
  : result (Z * string) :=
  let appID := AccountConfig.AppID acc in
  let appHash := AccountConfig.AppHash acc in
  let appID := if bool_decide (appID = 0) then Config.AppID cfg else appID in
  let appHash := if bool_decide (appHash = "") then Config.AppHash cfg else appHash in
  if bool_decide (appID = 0) || bool_decide (appHash = "")
  then Err MissingAppConfig
  else Ok (appID, appHash).

(** Priority: task > account > global > default. The two results are
    assigned in the order of the source: defaults first, then each level
    overwrites when its value is positive. *)
Definition resolveReplyConfig (cfg : Config.t) (acc : AccountConfig.t)
           (task : TaskConfig.t) : Z * Z :=
  let replyWaitSeconds := 3 in
  let replyHistoryLimit := 10 in
  let replyWaitSeconds := if bool_decide (Config.ReplyWaitSeconds cfg > 0)
                          then Config.ReplyWaitSeconds cfg else replyWaitSeconds in
  let replyHistoryLimit := if bool_decide (Config.ReplyHistoryLimit cfg > 0)
                           then Config.ReplyHistoryLimit cfg else replyHistoryLimit in
  let replyWaitSeconds := if bool_decide (AccountConfig.ReplyWaitSeconds acc > 0)
                          then AccountConfig.ReplyWaitSeconds acc else replyWaitSeconds in
  let replyHistoryLimit := if bool_decide (AccountConfig.ReplyHistoryLimit acc > 0)
                           then AccountConfig.ReplyHistoryLimit acc else replyHistoryLimit in
  let replyWaitSeconds := if bool_decide (TaskConfig.ReplyWaitSeconds task > 0)
                          then TaskConfig.ReplyWaitSeconds task else replyWaitSeconds in
  let replyHistoryLimit := if bool_decide (TaskConfig.ReplyHistoryLimit task > 0)
                           then TaskConfig.ReplyHistoryLimit task else replyHistoryLimit in
  (replyWaitSeconds, replyHistoryLimit).

(** The override chain in the words of the specification, for one field:
    the task value if positive, else the account value, else the global
    value, else the default. *)
Definition overrideChain (task account global default : Z) : Z :=
  if bool_decide (task > 0) then task
  else if bool_decide (account > 0) then account
  else if bool_decide (global > 0) then global
  else default.

(** *** The orchestration and what it acts on

    The scheduler, the executors and the sessions are shared objects; the
    state below holds them. An executor is named by the position at which
    it was constructed. *)

(** What [s.AddTask(t.Schedule, func() {...})] leaves in the cron engine:
    the expression and what the closure captured. *)
Record ScheduleEntry := mkEntry {
  entry_spec : string;
  entry_task : TaskConfig.t;
  entry_exec : nat;
  entry_log : Logger;
}.

(** One call of [exec.SubmitTask] or [exec.SubmitTaskBlocking] and its
    answer. *)
Record Submission := mkSubmission {
  sub_exec : nat;
  sub_task : TaskConfig.t;
  sub_logger : Logger;
  sub_trigger : string;
  sub_blocking : bool;
  sub_accepted : bool;
}.

Record World := mkWorld {
  logged : list LogEvent;                    (* events, in order *)
  executors : list executor.TaskExecutor;    (* executors constructed *)
  submitted : list Submission;               (* submissions, in order *)
  entries : list ScheduleEntry;              (* the entries of [s.cron] *)
  started : bool;                            (* [s.Start()] was called *)
  tape : list bool;                          (* see [ask] *)
}.

Definition initWorld (tape : list bool) : World :=
  mkWorld [] [] [] [] false tape.

Definition emit (l : Logger) (lv : Level) (fields : list (string * FieldValue))
           (msg : string) (w : World) : World :=
  mkWorld (logged w ++ [mkEvent l lv fields msg]) (executors w) (submitted w)
          (entries w) (started w) (tape w).

(** What runs beside this code (the workers that empty a queue, the signal
    that cancels the context) decides some answers: whether [ctx] is done
    when it is looked at, whether a submission finds room. Each such answer
    is read from the tape, [false] once it is used up. *)
Definition ask (w : World) : bool * World :=
  match tape w with
  | [] => (false, w)
  | b :: rest =>
      (b, mkWorld (logged w) (executors w) (submitted w) (entries w) (started w) rest)
  end.

(** The collaborators whose answers depend on their arguments. *)
Record Env := mkEnv {
  cronParse : string -> option error;
    (* the parser behind [cron.AddFunc]; [None] when the expression is accepted *)
  factory : Z -> string -> string -> Z -> Z -> option error;
    (* the [clientFactory]; [None] when it hands out a client *)
  clientOf : string -> executor.taskClient;
    (* the client of a session file *)
  clientRun : string -> option error;
    (* [client.Run]: [Some err] when it fails before calling its function *)
  AuthInRun : string -> string -> option error;
}.

(** Runs a method of the executor [e] on the log of the world. *)
Definition onExecutor (e : nat) (f : executor.State -> executor.State) (w : World)
  : World :=
  match executors w !! e with
  | None => w
  | Some ex =>
      let st := f (executor.mkState ex (logged w) []) in
      mkWorld (executor.logged st) (<[e := executor.exec st]> (executors w))
              (submitted w) (entries w) (started w) (tape w)
  end.

Definition newExecutor (ex : executor.TaskExecutor) (w : World) : nat * World :=
  (length (executors w),
   mkWorld (logged w) (executors w ++ [ex]) (submitted w) (entries w)
           (started w) (tape w)).

Definition record (s : Submission) (w : World) : World :=
  mkWorld (logged w) (executors w) (submitted w ++ [s]) (entries w)
          (started w) (tape w).

(** [exec.SubmitTask] seen from the caller: the answer comes from the tape,
    a refusal leaves the executor's warning in the log. *)
Definition SubmitTask (e : nat) (task : TaskConfig.t) (logger : Logger)
           (triggerType : string) (w : World) : bool * World :=
  let '(accepted, w) := ask w in
  let w := record (mkSubmission e task logger triggerType false accepted) w in
  if accepted then (true, w)
  else (false, emit logger WarnLevel [("task", StrField (TaskConfig.Name task))]
                    "⚠️ Task queue is full, dropping task" w).

(** [exec.SubmitTaskBlocking]: [true] when the request was queued, [false]
    when the context was done first. *)
Definition SubmitTaskBlocking (e : nat) (task : TaskConfig.t) (logger : Logger)
           (triggerType : string) (w : World) : bool * World :=
  let '(accepted, w) := ask w in
  (accepted, record (mkSubmission e task logger triggerType true accepted) w).

(** [s.AddTask(schedule, task)]: the entry is kept when the expression
    parses. *)
Definition AddTask (env : Env) (schedule : string) (entry : ScheduleEntry)
           (w : World) : option error * World :=
  match cronParse env schedule with
  | Some err => (Some err, w)
  | None =>
      (None, mkWorld (logged w) (executors w) (submitted w)
                     (entries w ++ [entry]) (started w) (tape w))
  end.

(** The closure of a schedule entry, when the cron engine fires it: nothing
    when the context is done, a submission to the executor it captured
    otherwise. The send of that submission panics when the executor has
    been stopped in the meantime (its queue is closed): [None]. *)
Definition fire (en : ScheduleEntry) (w : World) : option World :=
  let '(done, w) := ask w in
  if done then Some w
  else
    match executors w !! entry_exec en with
    | None => None
    | Some ex =>
        if executor.closed (executor.taskQueue ex) then None
        else Some (snd (SubmitTask (entry_exec en) (entry_task en) (entry_log en)
                                   "scheduled" w))
    end.

(** The first loop over [acc.Tasks] in [RunTasks]. *)
Definition scanTasks (tasks : list TaskConfig.t) : bool * bool :=
  foldl (fun '(hasImmediateTasks, hasScheduledTasks) task =>
           if negb (isTaskEnabled task) then (hasImmediateTasks, hasScheduledTasks)
           else
             (if TaskConfig.RunOnStart task then true else hasImmediateTasks,
              if nonEmpty (TaskConfig.Schedule task) then true else hasScheduledTasks))
        (false, false) tasks.

(** "Execute run_on_start tasks". *)
Definition submitRunOnStart (e : nat) (accLog : Logger)
           (tasks : list TaskConfig.t) (w : World) : World :=
  foldl (fun w task =>
           if isTaskEnabled task && TaskConfig.RunOnStart task
           then snd (SubmitTask e task accLog "run_on_start" w)
           else w)
        w tasks.

(** "Add scheduled tasks to scheduler": the loop leaves the function with
    the error of the first expression that [AddTask] refuses. *)
Fixpoint addScheduledTasks (env : Env) (e : nat) (accLog : Logger)
         (tasks : list TaskConfig.t) (w : World) : option error * World :=
  match tasks with
  | [] => (None, w)
  | task :: rest =>
      if negb (isTaskEnabled task) || bool_decide (TaskConfig.Schedule task = "")
      then addScheduledTasks env e accLog rest w
      else
        let t := task in
        let taskName := if nonEmpty (TaskConfig.Name t) then TaskConfig.Name t
                        else TaskConfig.Target t in
        match AddTask env (TaskConfig.Schedule t)
                      (mkEntry (TaskConfig.Schedule t) t e accLog) w with
        | (Some err, w) =>
            (Some err,
             emit accLog ErrorLevel
                  [("error", ErrField err);
                   ("schedule", StrField (TaskConfig.Schedule t))]
                  "Failed to add scheduled task" w)
        | (None, w) =>
            addScheduledTasks env e accLog rest
              (emit accLog DebugLevel
                    [("schedule", StrField (TaskConfig.Schedule t));
                     ("task", StrField taskName);
                     ("target", StrField (TaskConfig.Target t))]
                    "📅 Scheduled task added" w)
        end
  end.

(** How the function given to [client.Run] stands once it has nothing more
    to do: it has returned an error, or it waits on [<-ctx.Done()]. *)
Inductive Session : Type :=
  | SessionFailed (err : error)
  | SessionServing.

Definition sessionName_of (acc : AccountConfig.t) : string :=
  if nonEmpty (AccountConfig.Phone acc) then AccountConfig.Phone acc
  else "session_" +:+ pretty (AccountConfig.AppID acc).

Definition accLog_of (log : Logger) (accountLabel sessionName : string) : Logger :=
  With "session" (StrField sessionName) (With "account" (StrField accountLabel) log).

(** "Create task executor": the two defaults, [NewTaskExecutor], [Start],
    for a queue size the runtime accepts (with a larger one the call
    panics, see [executor.NewTaskExecutor_call], and the session ends
    there). *)
Definition createExecutor (env : Env) (cfg : Config.t) (acc : AccountConfig.t)
           (sessionFile : string) (accLog : Logger) (accountLabel : string)
           (w : World) : nat * World :=
  let workerCount := AccountConfig.WorkerCount acc in
  let workerCount := if bool_decide (workerCount ≤ 0) then 4 else workerCount in
  let queueSize := AccountConfig.TaskQueueSize acc in
  let queueSize := if bool_decide (queueSize ≤ 0) then 100 else queueSize in
  let '(exec, w) :=
    newExecutor (executor.NewTaskExecutor (clientOf env sessionFile)
                   workerCount queueSize accLog
                   (LogConfig.Dir (Config.Log cfg))
                   (LogConfig.Format (Config.Log cfg)) accountLabel) w in
  (exec, onExecutor exec executor.Start w).

(** The function [RunTasks] gives to [client.Run], up to the point where it
    returns or waits for the context. [defer exec.Stop()] runs on return. *)
Definition daemonSession (env : Env) (cfg : Config.t) (acc : AccountConfig.t)
           (sessionFile : string) (accLog : Logger) (accountLabel : string)
           (hasImmediateTasks hasScheduledTasks : bool) (w : World)
  : Session * World :=
  match AuthInRun env (AccountConfig.Phone acc) (AccountConfig.Password acc) with
  | Some err =>
      (SessionFailed err,
       emit accLog ErrorLevel [("error", ErrField err)]
            "Account authentication failed" w)
  | None =>
      let '(exec, w) := createExecutor env cfg acc sessionFile accLog accountLabel w in
      let w := if hasImmediateTasks
               then submitRunOnStart exec accLog (AccountConfig.Tasks acc) w
               else w in
      if hasScheduledTasks then
        match addScheduledTasks env exec accLog (AccountConfig.Tasks acc) w with
        | (Some err, w) => (SessionFailed err, onExecutor exec executor.Stop w)
        | (None, w) => (SessionServing, w)
        end
      else (SessionServing, w)
  end.

(** The body of the loop over [cfg.Accounts] in [RunTasks]. The sessions
    are started with [go]; here each runs, in the order of the accounts, to
    the point where it returns or waits. This is one of the orders Go
    allows: what a session does keeps its own order, but where its events
    and submissions stand among those of the other sessions and of
    [RunTasks] itself is not fixed by the program. *)
Definition runAccount (env : Env) (cfg : Config.t) (log : Logger)
           (acc : AccountConfig.t) (hasAnyScheduled : bool) (w : World)
  : bool * World :=
  let sessionName := sessionName_of acc in
  let sessionFile := sessionName +:+ ".session" in
  let accountLabel := formatAccountLabel acc sessionName in
  let accLog := accLog_of log accountLabel sessionName in
  let '(hasImmediateTasks, hasScheduledTasks) := scanTasks (AccountConfig.Tasks acc) in
  if negb hasImmediateTasks && negb hasScheduledTasks then
    (hasAnyScheduled,
     emit accLog InfoLevel [] "No runnable tasks configured, skipping account" w)
  else
    match resolveAppConfig cfg acc with
    | Err err =>
        (hasAnyScheduled,
         emit accLog ErrorLevel [("error", ErrField err)]
              "Account configuration incomplete" w)
    | Ok (appID, appHash) =>
        let '(replyWaitSeconds, replyHistoryLimit) :=
          resolveReplyConfig cfg acc TaskConfig.zero in
        match factory env appID appHash sessionFile replyWaitSeconds replyHistoryLimit with
        | Some err =>
            (hasAnyScheduled,
             emit accLog ErrorLevel [("error", ErrField err)]
                  "Failed to create client" w)
        | None =>
            let hasAnyScheduled := if hasScheduledTasks then true else hasAnyScheduled in
            match clientRun env sessionFile with
            | Some _ => (hasAnyScheduled, w)
            | None =>
                (hasAnyScheduled,
                 snd (daemonSession env cfg acc sessionFile accLog accountLabel
                                    hasImmediateTasks hasScheduledTasks w))
            end
        end
    end.

Definition RunTasks (env : Env) (cfg : Config.t) (log : Logger) (w : World)
  : option error * World :=
  let '(hasAnyScheduled, w) :=
    foldl (fun '(hasAnyScheduled, w) acc => runAccount env cfg log acc hasAnyScheduled w)
          (false, w) (Config.Accounts cfg) in
  if negb hasAnyScheduled then
    (None, emit log InfoLevel [] "No scheduled tasks, scheduler not started" w)
  else
    let w := mkWorld (logged w) (executors w) (submitted w) (entries w) true (tape w) in
    (None, emit log InfoLevel [] "Scheduler started" w).

(** "Submit all tasks to executor" of [runTasksOnce]. *)
Definition submitAllBlocking (e : nat) (accLog : Logger)
           (tasks : list TaskConfig.t) (w : World) : list error * World :=
  foldl (fun '(taskErrors, w) task =>
           if negb (isTaskEnabled task) then (taskErrors, w)
           else
             match SubmitTaskBlocking e task accLog "once" w with
             | (true, w) => (taskErrors, w)
             | (false, w) =>
                 (taskErrors ++ [FailedToSubmit (TaskConfig.Name task)], w)
             end)
        ([], w) tasks.

(** The function [runTasksOnce] gives to [client.Run]; it returns its error
    and what it appended to [allErrs]. *)
Definition onceSession (env : Env) (cfg : Config.t) (acc : AccountConfig.t)
           (sessionFile : string) (accLog : Logger) (accountLabel : string)
           (enabledTaskCount : Z) (w : World)
  : option error * list error * World :=
  match AuthInRun env (AccountConfig.Phone acc) (AccountConfig.Password acc) with
  | Some err =>
      (Some err, [],
       emit accLog ErrorLevel [("error", ErrField err)]
            "Account authentication failed" w)
  | None =>
      let '(exec, w) := createExecutor env cfg acc sessionFile accLog accountLabel w in
      let '(taskErrors, w) := submitAllBlocking exec accLog (AccountConfig.Tasks acc) w in
      let w :=
        if bool_decide (0 < length taskErrors)%nat then
          emit accLog WarnLevel
               [("failed_count", IntField (Z.of_nat (length taskErrors)));
                ("total_count", IntField enabledTaskCount)]
               "Some tasks failed" w
        else
          emit accLog InfoLevel [("total_count", IntField enabledTaskCount)]
               "All tasks completed" w in
      (None, taskErrors, onExecutor exec executor.Stop w)
  end.

(** [errors.Join]. *)
Definition errorsJoin (errs : list error) : option error :=
  match errs with
  | [] => None
  | _ => Some (Joined errs)
  end.

Fixpoint runTasksOnceLoop (env : Env) (cfg : Config.t) (log : Logger)
         (accounts : list AccountConfig.t) (allErrs : list error) (w : World)
  : option error * World :=
  match accounts with
  | [] => (errorsJoin allErrs, w)
  | acc :: rest =>
      let '(done, w) := ask w in
      if done then (Some ContextCanceled, w)
      else
        let sessionName := sessionName_of acc in
        let sessionFile := sessionName +:+ ".session" in
        let accountLabel := formatAccountLabel acc sessionName in
        let accLog := accLog_of log accountLabel sessionName in
        let enabledTaskCount :=
          foldl (fun n task => if isTaskEnabled task then n + 1 else n)
                0 (AccountConfig.Tasks acc) in
        if bool_decide (enabledTaskCount = 0) then
          runTasksOnceLoop env cfg log rest allErrs
            (emit accLog InfoLevel [] "No enabled tasks, skipping" w)
        else
          let w := emit accLog InfoLevel [("task_count", IntField enabledTaskCount)]
                        "Starting tasks" w in
          match resolveAppConfig cfg acc with
          | Err err =>
              runTasksOnceLoop env cfg log rest (allErrs ++ [err])
                (emit accLog ErrorLevel [("error", ErrField err)]
                      "Account configuration incomplete" w)
          | Ok (appID, appHash) =>
              let '(replyWaitSeconds, replyHistoryLimit) :=
                resolveReplyConfig cfg acc TaskConfig.zero in
              match factory env appID appHash sessionFile
                            replyWaitSeconds replyHistoryLimit with
              | Some err =>
                  runTasksOnceLoop env cfg log rest (allErrs ++ [err])
                    (emit accLog ErrorLevel [("error", ErrField err)]
                          "Failed to create client" w)
              | None =>
                  match clientRun env sessionFile with
                  | Some err => runTasksOnceLoop env cfg log rest (allErrs ++ [err]) w
                  | None =>
                      let '(err, taskErrors, w) :=
                        onceSession env cfg acc sessionFile accLog accountLabel
                                    enabledTaskCount w in
                      let allErrs := allErrs ++ taskErrors in
                      let allErrs := match err with
                                     | Some err => allErrs ++ [err]
                                     | None => allErrs
                                     end in
                      runTasksOnceLoop env cfg log rest allErrs w
                  end
              end
          end
  end.

Definition runTasksOnce (env : Env) (cfg : Config.t) (log : Logger) (w : World)
  : option error * World :=
  runTasksOnceLoop env cfg log (Config.Accounts cfg) [] w.

End scheduler.


(** ** Definitions used to state the properties *)

(** Sparse override of one field: the override's value when [set] says it
    is set, the base value otherwise. *)
Definition sparse {A : Type} (set : A -> bool) (base override : A) : A :=
  if set override then override else base.

Definition isSet (p : option bool) : bool :=
  match p with
  | Some _ => true
  | None => false
  end.

(** The merge by name in the words of the specification: one account per
    base account, in the order of the base (merged with the override of
    the same trimmed name when there is one; the last such override when
    there are several), then the accounts that only the override has, in
    the order of the override. *)
Module byName.
Section WithTrimSpace.
Variable TrimSpace : string -> string.

Definition key (acc : AccountConfig.t) : string :=
  TrimSpace (AccountConfig.Name acc).

Definition nonBlank (acc : AccountConfig.t) : Prop := key acc ≠ "".

Definition lastWithKey (k : string) (accounts : list AccountConfig.t)
  : option AccountConfig.t :=
  last (filter (fun o => key o = k) accounts).

Definition mergedBase (base override : list AccountConfig.t)
  : list AccountConfig.t :=
  (fun b => match lastWithKey (key b) override with
            | Some o => config.mergeAccount b o
            | None => b
            end) <$> base.

Definition overrideOnly (base override : list AccountConfig.t)
  : list AccountConfig.t :=
  filter (fun o => key o ∉ (key <$> base)) override.

Definition merge (base override : list AccountConfig.t) : list AccountConfig.t :=
  mergedBase base override ++ overrideOnly base override.

(** The keys of the base accounts that the index of the overrides knows:
    the set [seen] at the end of the second loop. *)
Definition seenKeys (idx : gmap string AccountConfig.t)
           (base : list AccountConfig.t) : gset string :=
  list_to_set (filter (fun k => is_Some (idx !! k)) (key <$> base)).
End WithTrimSpace.
End byName.

(** The positional merge of two lists of the same length. *)
Definition mergePositional (base override : list AccountConfig.t)
  : list AccountConfig.t :=
  zip_with config.mergeAccount base override.

(** The requests that a list of submissions puts in the queue. *)
Definition requestsOf (subs : list (TaskConfig.t * Logger * string))
  : list executor.TaskRequest :=
  (fun '(task, logger, triggerType) => executor.mkRequest task logger triggerType 0)
    <$> subs.

(** The queue of [st] with [reqs] behind what it holds. *)
Definition enqueued (reqs : list executor.TaskRequest) (st : executor.State)
  : executor.State :=
  let q := executor.taskQueue (executor.exec st) in
  executor.set_exec
    (executor.set_taskQueue
       (executor.mkChan (executor.buffer q ++ reqs) (executor.capacity q)
                        (executor.closed q))
       (executor.exec st)) st.

(** The warning [SubmitTask] logs for a task it drops. *)
Definition queueFullWarning (task : TaskConfig.t) (logger : Logger) : LogEvent :=
  mkEvent logger WarnLevel [("task", StrField (TaskConfig.Name task))]
          "⚠️ Task queue is full, dropping task".

(** What the worker hands to [executeTask] when it receives [req], the
    oldest request, with [rest] left in the queue. *)
Definition received (rest : list executor.TaskRequest) (st : executor.State)
  : executor.State :=
  let q := executor.taskQueue (executor.exec st) in
  executor.set_exec
    (executor.set_taskQueue
       (executor.mkChan rest (executor.capacity q) (executor.closed q))
       (executor.exec st)) st.

(** The name a request is logged under. *)
Definition taskNameOf (req : executor.TaskRequest) : string :=
  if nonEmpty (TaskConfig.Name (executor.Task req))
  then TaskConfig.Name (executor.Task req)
  else TaskConfig.Target (executor.Task req).

(** The failure event that [executeTask] writes to the logger of the
    request (the account log) for the error [err]. *)
Definition taskFailedEvent (req : executor.TaskRequest) (err : error) : LogEvent :=
  mkEvent (executor.Logger_ req) ErrorLevel
          [("error", ErrField err);
           ("thread_id", IntField (executor.WorkerID req));
           ("thread_name", StrField (taskNameOf req));
           ("task", StrField (taskNameOf req));
           ("payload", StrField (TaskConfig.Payload (executor.Task req)))]
          (executor.failMsg (executor.TriggerType req)).

(** Every submission and every schedule entry of the world is of an
    enabled task. *)
Definition enabledOnly (w : scheduler.World) : Prop :=
  Forall (fun s => scheduler.isTaskEnabled (scheduler.sub_task s) = true)
         (scheduler.submitted w)
  /\ Forall (fun en => scheduler.isTaskEnabled (scheduler.entry_task en) = true)
            (scheduler.entries w).

(** The cron engine firing entries one after the other, as long as no
    firing panics. *)
Fixpoint fireAll (fired : list scheduler.ScheduleEntry) (w : scheduler.World)
  : option scheduler.World :=
  match fired with
  | [] => Some w
  | en :: rest =>
      match scheduler.fire en w with
      | Some w => fireAll rest w
      | None => None
      end
  end.

(** The tasks of a list that the registration loop hands to [AddTask]. *)
Definition scheduledTasks (tasks : list TaskConfig.t) : list TaskConfig.t :=
  filter (fun t => scheduler.isTaskEnabled t = true /\ TaskConfig.Schedule t ≠ "")
         tasks.

Definition entriesFor (e : nat) (accLog : Logger) (tasks : list TaskConfig.t)
  : list scheduler.ScheduleEntry :=
  (fun t => scheduler.mkEntry (TaskConfig.Schedule t) t e accLog)
    <$> scheduledTasks tasks.

(** The error event of the registration loop. *)
Definition scheduleFailedEvent (accLog : Logger) (err : error) (schedule : string)
  : LogEvent :=
  mkEvent accLog ErrorLevel
          [("error", ErrField err); ("schedule", StrField schedule)]
          "Failed to add scheduled task".

(** The positional merge of two lists that pads with the longer side. *)
Fixpoint padMerge {A : Type} (f : A -> A -> A) (base override : list A) : list A :=
  match base, override with
  | [], _ => override
  | _, [] => base
  | b :: base, o :: override => f b o :: padMerge f base override
  end.

(** The queue holds no more than its capacity. *)
Definition withinCapacity (st : executor.State) : Prop :=
  executor.QueueLen (executor.exec st)
  ≤ executor.capacity (executor.taskQueue (executor.exec st)).

(** What a call asks of the client: the operation, the target and the
    text. *)
Definition callSummary (call : executor.ClientCall) : string * string * string :=
  match call with
  | executor.CheckInMessageInRunWithLogger target message _ =>
      ("message", target, message)
  | executor.CheckInButtonInRunWithLogger target buttonText _ =>
      ("button", target, buttonText)
  end.

Definition knownMethod (req : executor.TaskRequest) : Prop :=
  TaskConfig.Method (executor.Task req) = "message"
  \/ TaskConfig.Method (executor.Task req) = "button".

Definition dispatchOf (req : executor.TaskRequest) : string * string * string :=
  (TaskConfig.Method (executor.Task req), TaskConfig.Target (executor.Task req),
   TaskConfig.Payload (executor.Task req)).

(** The success event that [executeTask] writes to the logger of the
    request. *)
Definition taskCompletedEvent (req : executor.TaskRequest) : LogEvent :=
  mkEvent (executor.Logger_ req) InfoLevel
          [("thread_id", IntField (executor.WorkerID req));
           ("thread_name", StrField (taskNameOf req));
           ("task", StrField (taskNameOf req))]
          "Task completed successfully".

(** [n] turns of the worker [id] that each receive a request, with turns
    that leave the loop left out: the worker alone takes from the queue. *)
Inductive worker_run (fs : string -> string -> string -> string -> option error)
          (id : Z) : executor.State -> nat -> executor.State -> Prop :=
  | run_done st : worker_run fs id st 0 st
  | run_turn st ctxDone st1 n st2 :
      executor.worker_turn fs ctxDone id st executor.Looping st1 ->
      worker_run fs id st1 n st2 ->
      worker_run fs id st (S n) st2.

(** A byte that [sanitizeFilename] leaves where it is. *)
Definition keptByte (c : Ascii.ascii) : Prop :=
  logger.toUnderscore c = false /\ logger.dropped c = false.

#[global] Instance knownMethod_dec (req : executor.TaskRequest) :
  Decision (knownMethod req) :=
  or_dec (decide (TaskConfig.Method (executor.Task req) = "message"))
         (decide (TaskConfig.Method (executor.Task req) = "button")).

(** The logger [executeTask] derives from the task logger [taskLogger]. *)
Definition taskLogOf (req : executor.TaskRequest) (taskLogger : Logger) : Logger :=
  With "target" (StrField (TaskConfig.Target (executor.Task req)))
    (With "task" (StrField (taskNameOf req))
      (With "thread_name" (StrField (taskNameOf req))
        (With "thread_id" (IntField (executor.WorkerID req)) taskLogger))).

(** The logger a call hands to the client. *)
Definition callLogger (call : executor.ClientCall) : Logger :=
  match call with
  | executor.CheckInMessageInRunWithLogger _ _ taskLogger => taskLogger
  | executor.CheckInButtonInRunWithLogger _ _ taskLogger => taskLogger
  end.

(** The event [executeTask] writes to the log of the executor when the
    log file of the task cannot be created. *)
Definition logFileFailedEvent (e : executor.TaskExecutor) (req : executor.TaskRequest)
           (err : error) : LogEvent :=
  mkEvent (executor.log e) ErrorLevel
          [("error", ErrField err); ("task", StrField (taskNameOf req))]
          "Failed to create task log file, using main log".

(** The tasks of a list that the run-on-start loop submits. *)
Definition runOnStartTasks (tasks : list TaskConfig.t) : list TaskConfig.t :=
  filter (fun t => scheduler.isTaskEnabled t = true /\ TaskConfig.RunOnStart t = true)
         tasks.

Definition enabledTasks (tasks : list TaskConfig.t) : list TaskConfig.t :=
  filter (fun t => scheduler.isTaskEnabled t = true) tasks.

(** The submissions [news] are one per task of [tasks], in order, to the
    executor [e], with the trigger and the kind of call given. *)
Definition submissionsOf (e : nat) (trigger : string) (blocking : bool)
           (tasks : list TaskConfig.t) (news : list scheduler.Submission) : Prop :=
  scheduler.sub_task <$> news = tasks
  /\ Forall (fun s => scheduler.sub_exec s = e
                      /\ scheduler.sub_trigger s = trigger
                      /\ scheduler.sub_blocking s = blocking) news.

(** The errors [runTasksOnce] collects for the submissions that were
    refused. *)
Definition submitErrors (news : list scheduler.Submission) : list error :=
  (fun s => FailedToSubmit (TaskConfig.Name (scheduler.sub_task s)))
    <$> filter (fun s => scheduler.sub_accepted s = false) news.

(** The enabled tasks of a list of accounts, account after account. *)
Definition enabledTasksOf (accounts : list AccountConfig.t) : list TaskConfig.t :=
  concat ((fun acc => enabledTasks (AccountConfig.Tasks acc)) <$> accounts).

(** A file system on which no task log file can be created. *)
Definition fsFull : string -> string -> string -> string -> option error :=
  fun _ _ _ _ => Some (External "no space left on device").

(** Sample values for the examples. *)
Definition silentClient : executor.taskClient := fun _ _ => None.
(** A file system on which every task log file can be created. *)
Definition fsOk : string -> string -> string -> string -> option error :=
  fun _ _ _ _ => None.

(** A parser for the examples: of the expressions they use it refuses
    "not-a-cron", as the cron engine does, and accepts the others. *)
Definition sampleParse (schedule : string) : option error :=
  if bool_decide (schedule = "not-a-cron")
  then Some (External "expected exactly 5 fields")
  else None.

(** Collaborators that never fail, with [sampleParse] as the parser. *)
Definition sampleEnv : scheduler.Env :=
  scheduler.mkEnv sampleParse (fun _ _ _ _ _ => None) (fun _ => silentClient)
                  (fun _ => None) (fun _ _ => None).

Definition taskWith (name method schedule : string) (enabled : option bool)
           (runOnStart : bool) : TaskConfig.t :=
  TaskConfig.mk name "@bot" method "/checkin" schedule enabled runOnStart 0 0.


Definition mainLogger : Logger := mkLogger MainLog [].

Definition taskNamed (name : string) : TaskConfig.t :=
  TaskConfig.mk name "" "" "" "" None false 0 0.

Definition accountNamed (name : string) : AccountConfig.t :=
  AccountConfig.mk name "" "" 0 "" 0 0 0 0 [].

Definition configOf (accounts : list AccountConfig.t) (proxy : string) : Config.t :=
  Config.mk accounts proxy 0 "" 0 0 LogConfig.zero "".

(** ** Properties of [resolveReplyConfig] *)

Example resolveReplyConfig_defaults :
  scheduler.resolveReplyConfig (configOf [] "") (accountNamed "a") (taskNamed "t")
  = (3, 10).
Proof. reflexivity. Qed.

Example resolveReplyConfig_mixed :
  scheduler.resolveReplyConfig
    (Config.mk [] "" 0 "" 7 20 LogConfig.zero "")
    (AccountConfig.mk "a" "" "" 0 "" 0 0 0 30 [])
    (TaskConfig.mk "t" "" "" "" "" None false 5 (-1))
  = (5, 30).
Proof. reflexivity. Qed.

(** C1. For every global, account and task configuration,
    [resolveReplyConfig] returns, for the wait seconds and for the history
    limit independently, the task value when it is positive, else the
    account value when it is positive, else the global value when it is
    positive, else the default (3 for the wait, 10 for the history). *)
Theorem resolveReplyConfig_override_chain
  (cfg : Config.t) (acc : AccountConfig.t) (task : TaskConfig.t) :
  scheduler.resolveReplyConfig cfg acc task
  = (scheduler.overrideChain (TaskConfig.ReplyWaitSeconds task)
       (AccountConfig.ReplyWaitSeconds acc) (Config.ReplyWaitSeconds cfg) 3,
     scheduler.overrideChain (TaskConfig.ReplyHistoryLimit task)
       (AccountConfig.ReplyHistoryLimit acc) (Config.ReplyHistoryLimit cfg) 10).
Proof.
  unfold scheduler.resolveReplyConfig, scheduler.overrideChain.
  repeat case_bool_decide; reflexivity.
Qed.

(** ** Properties of the merge of configurations *)

Lemma mergeTask_fields (b o : TaskConfig.t) :
  config.mergeTask b o
  = TaskConfig.mk
      (TaskConfig.Name b)
      (sparse nonEmpty (TaskConfig.Target b) (TaskConfig.Target o))
      (sparse nonEmpty (TaskConfig.Method b) (TaskConfig.Method o))
      (sparse nonEmpty (TaskConfig.Payload b) (TaskConfig.Payload o))
      (sparse nonEmpty (TaskConfig.Schedule b) (TaskConfig.Schedule o))
      (sparse isSet (TaskConfig.Enabled b) (TaskConfig.Enabled o))
      (sparse id (TaskConfig.RunOnStart b) (TaskConfig.RunOnStart o))
      (TaskConfig.ReplyWaitSeconds b)
      (TaskConfig.ReplyHistoryLimit b).
Proof.
  destruct b, o; unfold config.mergeTask, sparse, isSet, id; simpl.
  repeat match goal with
         | |- context [nonEmpty ?s] => destruct (nonEmpty s)
         | |- context [match ?e with Some _ => _ | None => _ end] => destruct e
         | |- context [if ?e then _ else _] => destruct e
         end; reflexivity.
Qed.

Lemma mergeAccount_fields (b o : AccountConfig.t) :
  config.mergeAccount b o
  = AccountConfig.mk
      (sparse nonEmpty (AccountConfig.Name b) (AccountConfig.Name o))
      (sparse nonEmpty (AccountConfig.Phone b) (AccountConfig.Phone o))
      (sparse nonEmpty (AccountConfig.Password b) (AccountConfig.Password o))
      (sparse nonZero (AccountConfig.AppID b) (AccountConfig.AppID o))
      (sparse nonEmpty (AccountConfig.AppHash b) (AccountConfig.AppHash o))
      (AccountConfig.WorkerCount b)
      (AccountConfig.TaskQueueSize b)
      (AccountConfig.ReplyWaitSeconds b)
      (AccountConfig.ReplyHistoryLimit b)
      (if bool_decide (0 < length (AccountConfig.Tasks o))%nat
       then config.mergeTasks (AccountConfig.Tasks b) (AccountConfig.Tasks o)
       else AccountConfig.Tasks b).
Proof.
  destruct b, o; unfold config.mergeAccount, sparse; simpl.
  repeat match goal with
         | |- context [nonEmpty ?s] => destruct (nonEmpty s)
         | |- context [nonZero ?s] => destruct (nonZero s)
         | |- context [bool_decide ?P] => destruct (bool_decide P)
         end; reflexivity.
Qed.

(** C9. The merge of two tasks is monotone in the run-on-start flag: when
    the base task has [RunOnStart] set, so has the merged task, whatever
    the override says. *)
Theorem mergeTask_RunOnStart_monotone (base override : TaskConfig.t) :
  TaskConfig.RunOnStart base = true ->
  TaskConfig.RunOnStart (config.mergeTask base override) = true.
Proof.
  intros Hb. rewrite mergeTask_fields; simpl.
  unfold sparse, id. rewrite Hb. destruct (TaskConfig.RunOnStart override); reflexivity.
Qed.

Lemma mergeTask_RunOnStart_monotone_witness :
  let base := TaskConfig.mk "t" "bot" "message" "/checkin" "" None true 0 0 in
  let override := TaskConfig.mk "" "" "" "" "@every 1h" (Some true) false 0 0 in
  TaskConfig.RunOnStart base = true
  /\ TaskConfig.RunOnStart (config.mergeTask base override) = true.
Proof.
  split; [reflexivity | apply mergeTask_RunOnStart_monotone; reflexivity].
Defined.

(** C10. A nil argument is an identity of [MergeConfig]: for every
    configuration [c] (a pointer, possibly nil itself), [MergeConfig(nil, c)]
    and [MergeConfig(c, nil)] both return [c] and no error. *)
Theorem MergeConfig_nil_identity (TrimSpace : string -> string) (c : option Config.t) :
  config.MergeConfig TrimSpace None c = Ok c
  /\ config.MergeConfig TrimSpace c None = Ok c.
Proof.
  split; [reflexivity |]. destruct c; reflexivity.
Qed.

Lemma MergeConfig_fields (TrimSpace : string -> string) (b o m : Config.t) :
  config.MergeConfig TrimSpace (Some b) (Some o) = Ok (Some m) ->
  Config.Proxy m = sparse nonEmpty (Config.Proxy b) (Config.Proxy o)
  /\ Config.AppID m = sparse nonZero (Config.AppID b) (Config.AppID o)
  /\ Config.AppHash m = sparse nonEmpty (Config.AppHash b) (Config.AppHash o)
  /\ Config.ReplyWaitSeconds m = Config.ReplyWaitSeconds b
  /\ Config.ReplyHistoryLimit m = Config.ReplyHistoryLimit b
  /\ Config.Log m = Config.Log b
  /\ Config.Language m = Config.Language b.
Proof.
  unfold config.MergeConfig, sparse. intros H.
  destruct b, o; simpl in *.
  repeat match type of H with
         | context [nonEmpty ?s] => destruct (nonEmpty s)
         | context [nonZero ?s] => destruct (nonZero s)
         | context [bool_decide ?P] => destruct (bool_decide P)
         | context [config.mergeAccounts ?t ?x ?y] => destruct (config.mergeAccounts t x y)
         end; simpl in H; try discriminate;
    injection H as <-; simpl; repeat split; reflexivity.
Qed.

(** C5, as the code has it. The merge is a sparse override on these scalar
    fields: [Target], [Method], [Payload], [Schedule], [Enabled] and
    [RunOnStart] of a task; [Name], [Phone], [Password], [AppID] and
    [AppHash] of an account; [Proxy], [AppID] and [AppHash] of the
    configuration. On each of them the override's value wins if and only if
    it is set (a non-empty string, a non-zero number, a non-nil pointer,
    [true]), and the base value is kept otherwise. *)
Theorem merge_sparse_override_fields (TrimSpace : string -> string) :
  (forall b o : TaskConfig.t,
      let m := config.mergeTask b o in
      TaskConfig.Target m = sparse nonEmpty (TaskConfig.Target b) (TaskConfig.Target o)
      /\ TaskConfig.Method m = sparse nonEmpty (TaskConfig.Method b) (TaskConfig.Method o)
      /\ TaskConfig.Payload m = sparse nonEmpty (TaskConfig.Payload b) (TaskConfig.Payload o)
      /\ TaskConfig.Schedule m = sparse nonEmpty (TaskConfig.Schedule b) (TaskConfig.Schedule o)
      /\ TaskConfig.Enabled m = sparse isSet (TaskConfig.Enabled b) (TaskConfig.Enabled o)
      /\ TaskConfig.RunOnStart m
         = sparse id (TaskConfig.RunOnStart b) (TaskConfig.RunOnStart o))
  /\ (forall b o : AccountConfig.t,
      let m := config.mergeAccount b o in
      AccountConfig.Name m = sparse nonEmpty (AccountConfig.Name b) (AccountConfig.Name o)
      /\ AccountConfig.Phone m = sparse nonEmpty (AccountConfig.Phone b) (AccountConfig.Phone o)
      /\ AccountConfig.Password m
         = sparse nonEmpty (AccountConfig.Password b) (AccountConfig.Password o)
      /\ AccountConfig.AppID m = sparse nonZero (AccountConfig.AppID b) (AccountConfig.AppID o)
      /\ AccountConfig.AppHash m
         = sparse nonEmpty (AccountConfig.AppHash b) (AccountConfig.AppHash o))
  /\ (forall b o m : Config.t,
      config.MergeConfig TrimSpace (Some b) (Some o) = Ok (Some m) ->
      Config.Proxy m = sparse nonEmpty (Config.Proxy b) (Config.Proxy o)
      /\ Config.AppID m = sparse nonZero (Config.AppID b) (Config.AppID o)
      /\ Config.AppHash m = sparse nonEmpty (Config.AppHash b) (Config.AppHash o)).
Proof.
  split; [|split].
  - intros b o m. subst m. rewrite mergeTask_fields. simpl. repeat split; reflexivity.
  - intros b o m. subst m. rewrite mergeAccount_fields. simpl. repeat split; reflexivity.
  - intros b o m Hm.
    destruct (MergeConfig_fields TrimSpace b o m Hm) as (H1 & H2 & H3 & _).
    auto.
Qed.

(** The scalar fields the merge never assigns keep the base value whatever
    the override holds: the name of a task, the worker count and the queue
    size of an account, and the reply settings of both. (The same holds of
    the reply settings, the log settings and the language of the
    configuration, see [MergeConfig_fields].) *)
Lemma merge_keeps_other_fields :
  (forall b o : TaskConfig.t,
      let m := config.mergeTask b o in
      TaskConfig.Name m = TaskConfig.Name b
      /\ TaskConfig.ReplyWaitSeconds m = TaskConfig.ReplyWaitSeconds b
      /\ TaskConfig.ReplyHistoryLimit m = TaskConfig.ReplyHistoryLimit b)
  /\ (forall b o : AccountConfig.t,
      let m := config.mergeAccount b o in
      AccountConfig.WorkerCount m = AccountConfig.WorkerCount b
      /\ AccountConfig.TaskQueueSize m = AccountConfig.TaskQueueSize b
      /\ AccountConfig.ReplyWaitSeconds m = AccountConfig.ReplyWaitSeconds b
      /\ AccountConfig.ReplyHistoryLimit m = AccountConfig.ReplyHistoryLimit b).
Proof.
  split.
  - intros b o m. subst m. rewrite mergeTask_fields. simpl. repeat split; reflexivity.
  - intros b o m. subst m. rewrite mergeAccount_fields. simpl. repeat split; reflexivity.
Qed.

(** C5 as stated fails on the name of a task, a scalar field: the
    override holds the non-empty name "b", the merged task keeps "a". *)
Lemma mergeTask_ignores_override_name :
  nonEmpty (TaskConfig.Name (taskNamed "b")) = true
  /\ TaskConfig.Name (config.mergeTask (taskNamed "a") (taskNamed "b")) = "a"
  /\ TaskConfig.Name (config.mergeTask (taskNamed "a") (taskNamed "b"))
     <> TaskConfig.Name (taskNamed "b").
Proof.
  split; [reflexivity | split; [reflexivity | vm_compute; discriminate]].
Qed.

Lemma merge_sparse_override_fields_witness :
  let b := Config.mk [accountNamed "a"] "socks5://base" 1 "hash" 5 20
                     (LogConfig.mk "./log" "info" "text") "en" in
  let o := Config.mk [] "" 2 "" 9 0 LogConfig.zero "zh" in
  let m := Config.mk [accountNamed "a"] "socks5://base" 2 "hash" 5 20
                     (LogConfig.mk "./log" "info" "text") "en" in
  config.MergeConfig config.TrimSpaceASCII (Some b) (Some o) = Ok (Some m)
  /\ (Config.Proxy m = sparse nonEmpty (Config.Proxy b) (Config.Proxy o)
      /\ Config.AppID m = sparse nonZero (Config.AppID b) (Config.AppID o)
      /\ Config.AppHash m = sparse nonEmpty (Config.AppHash b) (Config.AppHash o)).
Proof.
  intros b o m. split; [reflexivity |].
  apply (proj2 (proj2 (merge_sparse_override_fields config.TrimSpaceASCII)) b o m).
  reflexivity.
Defined.

(** *** Account lists *)

Lemma filter_ext_elem {A : Type} (P Q : A -> Prop)
      `{!forall x, Decision (P x), !forall x, Decision (Q x)} (l : list A) :
  (forall x, x ∈ l -> P x <-> Q x) -> filter P l = filter Q l.
Proof.
  induction l as [|x l IH]; intros Hext; [done|].
  rewrite !filter_cons.
  assert (Hx := Hext x ltac:(left)).
  rewrite IH by (intros; apply Hext; by right).
  repeat case_decide; tauto.
Qed.

Section MergeByName.
Variable TrimSpace : string -> string.
Abbreviation key := (byName.key TrimSpace).

Lemma overrideIndex_snoc (l : list AccountConfig.t) (a : AccountConfig.t) :
  config.overrideIndex TrimSpace (l ++ [a])
  = <[key a := a]> (config.overrideIndex TrimSpace l).
Proof. unfold config.overrideIndex. rewrite foldl_snoc. reflexivity. Qed.

(** The index built by the first loop answers with the last override of
    the key. *)
Lemma overrideIndex_lookup (override : list AccountConfig.t) (k : string) :
  config.overrideIndex TrimSpace override !! k
  = byName.lastWithKey TrimSpace k override.
Proof.
  induction override as [|a l IH] using rev_ind.
  - reflexivity.
  - rewrite overrideIndex_snoc. unfold byName.lastWithKey in *.
    rewrite filter_app, last_app, filter_cons, filter_nil.
    destruct (decide (key a = k)) as [Heq|Hne].
    + simpl. rewrite <- Heq. apply lookup_insert_eq.
    + simpl. rewrite lookup_insert_ne by exact Hne. exact IH.
Qed.

Lemma seenKeys_nil (idx : gmap string AccountConfig.t) :
  byName.seenKeys TrimSpace idx [] = ∅.
Proof. reflexivity. Qed.

Lemma seenKeys_cons (idx : gmap string AccountConfig.t)
      (b : AccountConfig.t) (base : list AccountConfig.t) :
  byName.seenKeys TrimSpace idx (b :: base)
  = match idx !! key b with
    | Some _ => {[key b]}
    | None => ∅
    end ∪ byName.seenKeys TrimSpace idx base.
Proof.
  unfold byName.seenKeys. rewrite fmap_cons, filter_cons.
  destruct (idx !! key b) as [o|] eqn:Hb.
  - rewrite decide_True by eauto. reflexivity.
  - rewrite decide_False by (intros [? ?]; discriminate).
    by rewrite union_empty_l_L.
Qed.

(** The second loop, from any intermediate state. *)
Lemma mergeBaseLoop_from (idx : gmap string AccountConfig.t)
      (base merged : list AccountConfig.t) (seen : gset string) :
  foldl (fun '(merged, seen) acc =>
           let k := TrimSpace (AccountConfig.Name acc) in
           match idx !! k with
           | Some over => (merged ++ [config.mergeAccount acc over], {[k]} ∪ seen)
           | None => (merged ++ [acc], seen)
           end) (merged, seen) base
  = (merged ++ ((fun b => match idx !! key b with
                          | Some o => config.mergeAccount b o
                          | None => b
                          end) <$> base),
     seen ∪ byName.seenKeys TrimSpace idx base).
Proof.
  revert merged seen. induction base as [|b base IH]; intros merged seen.
  - simpl. by rewrite app_nil_r, seenKeys_nil, union_empty_r_L.
  - rewrite seenKeys_cons. simpl. unfold byName.key in *.
    destruct (idx !! TrimSpace (AccountConfig.Name b)) as [o|] eqn:Hb.
    + rewrite IH. f_equal; [by rewrite <- app_assoc |].
      rewrite (union_comm_L {[_]} seen). by rewrite union_assoc_L.
    + rewrite IH. f_equal; [by rewrite <- app_assoc |].
      by rewrite union_empty_l_L.
Qed.

Lemma appendUnseenLoop_filter (seen : gset string)
      (merged override : list AccountConfig.t) :
  config.appendUnseenLoop TrimSpace seen merged override
  = merged ++ filter (fun o => key o ∉ seen) override.
Proof.
  unfold config.appendUnseenLoop.
  revert merged. induction override as [|o l IH]; intros merged; simpl.
  - by rewrite app_nil_r.
  - rewrite IH, filter_cons. unfold byName.key.
    case_bool_decide; [rewrite decide_False by tauto; done|].
    rewrite decide_True by done. by rewrite <- app_assoc.
Qed.

(** The three loops of [mergeAccountsByName] compute the merge by name of
    the specification. *)
Lemma mergeAccountsByName_spec (base override : list AccountConfig.t) :
  config.mergeAccountsByName TrimSpace base override
  = byName.merge TrimSpace base override.
Proof.
  unfold config.mergeAccountsByName, config.mergeBaseLoop.
  rewrite mergeBaseLoop_from, appendUnseenLoop_filter. simpl.
  unfold byName.merge, byName.mergedBase, byName.overrideOnly. f_equal.
  - apply list_fmap_ext. intros i b _. by rewrite overrideIndex_lookup.
  - apply filter_ext_elem. intros o Ho.
    unfold byName.seenKeys.
    rewrite union_empty_l_L, elem_of_list_to_set, list_elem_of_filter.
    rewrite overrideIndex_lookup. unfold byName.lastWithKey.
    assert (is_Some (last (filter (fun o' => key o' = key o) override))).
    { apply last_is_Some. intros Hnil.
      assert (o ∈ filter (fun o' => key o' = key o) override) as Hf
          by (apply list_elem_of_filter; auto).
      rewrite Hnil in Hf. by apply elem_of_nil in Hf. }
    tauto.
Qed.

Lemma allAccountsNamed_true (accounts : list AccountConfig.t) :
  config.allAccountsNamed TrimSpace accounts = true
  <-> accounts ≠ [] /\ Forall (byName.nonBlank TrimSpace) accounts.
Proof.
  unfold config.allAccountsNamed.
  case_bool_decide as Hlen.
  - apply length_zero_iff_nil in Hlen. subst.
    split; [discriminate | intros [? _]; done].
  - rewrite forallb_forall, Forall_forall.
    assert (accounts ≠ []) by (intros ->; done).
    split.
    + intros H1. split; [done|]. intros a Ha. apply list_elem_of_In in Ha.
      specialize (H1 a Ha). unfold nonEmpty in H1.
      by apply bool_decide_eq_true in H1.
    + intros [_ H1] a Ha. apply list_elem_of_In in Ha.
      apply bool_decide_eq_true. by apply H1.
Qed.
End MergeByName.

(** The loop of [mergeAccountsByIndex], from any intermediate state. *)
Lemma mergeAccountsByIndex_from (base override merged : list AccountConfig.t)
      (l : list nat) :
  foldl (fun merged i =>
           let hasBase := bool_decide (i < length base)%nat in
           let hasOverride := bool_decide (i < length override)%nat in
           let b := if hasBase then default AccountConfig.zero (base !! i)
                    else AccountConfig.zero in
           let o := if hasOverride then default AccountConfig.zero (override !! i)
                    else AccountConfig.zero in
           if hasBase && hasOverride then merged ++ [config.mergeAccount b o]
           else if hasBase then merged ++ [b]
           else merged ++ [o]) merged l
  = merged ++ ((fun i => match base !! i, override !! i with
                         | Some b, Some o => config.mergeAccount b o
                         | Some b, None => b
                         | None, Some o => o
                         | None, None => AccountConfig.zero
                         end) <$> l).
Proof.
  revert merged. induction l as [|i l IH]; intros merged; simpl.
  - by rewrite app_nil_r.
  - rewrite IH.
    destruct (base !! i) as [b|] eqn:Hb; destruct (override !! i) as [o|] eqn:Ho.
    all: try apply lookup_lt_Some in Hb as Hb';
         try apply lookup_lt_Some in Ho as Ho';
         try apply lookup_ge_None in Hb as Hb';
         try apply lookup_ge_None in Ho as Ho'.
    all: repeat case_bool_decide; try lia; simpl; by rewrite <- app_assoc.
Qed.

Lemma mergeAccountsByIndex_same_length (base override : list AccountConfig.t) :
  length base = length override ->
  config.mergeAccountsByIndex base override = mergePositional base override.
Proof.
  intros Hlen. unfold config.mergeAccountsByIndex, mergePositional.
  rewrite mergeAccountsByIndex_from. simpl.
  apply list_eq. intros i. rewrite list_lookup_fmap, lookup_zip_with.
  destruct (decide (i < length base)%nat) as [Hlt|Hge].
  - rewrite lookup_seq_lt by lia. simpl.
    destruct (lookup_lt_is_Some_2 base i Hlt) as [b Hb].
    destruct (lookup_lt_is_Some_2 override i ltac:(lia)) as [o Ho].
    by rewrite Hb, Ho.
  - rewrite lookup_seq_ge by lia. simpl.
    rewrite (lookup_ge_None_2 base i) by lia. done.
Qed.

(** C3, as the code has it. For non-empty account lists [base] and
    [override]: when every account of both has a non-blank name, the merge
    is by name (one account per base account in the order of the base, then
    the override-only accounts); otherwise the merge is positional, and it
    fails with the length-mismatch error exactly when the lengths differ. *)
Theorem mergeAccounts_by_name_or_by_index (TrimSpace : string -> string)
        (base override : list AccountConfig.t) :
  base ≠ [] ->
  override ≠ [] ->
  let named := Forall (byName.nonBlank TrimSpace) base
               /\ Forall (byName.nonBlank TrimSpace) override in
  (named ->
   config.mergeAccounts TrimSpace base override
   = Ok (byName.merge TrimSpace base override))
  /\ (~ named -> length base = length override ->
      config.mergeAccounts TrimSpace base override
      = Ok (mergePositional base override))
  /\ (~ named -> length base ≠ length override ->
      config.mergeAccounts TrimSpace base override
      = Err (AccountsLengthMismatch (length base) (length override))).
Proof.
  intros Hbase Hov named. unfold config.mergeAccounts.
  rewrite bool_decide_eq_false_2
    by (intros Hl; apply length_zero_iff_nil in Hl; done).
  assert (Hnamed : config.allAccountsNamed TrimSpace base
                   && config.allAccountsNamed TrimSpace override = true <-> named).
  { rewrite andb_true_iff, !allAccountsNamed_true. unfold named. tauto. }
  destruct (config.allAccountsNamed TrimSpace base
            && config.allAccountsNamed TrimSpace override) eqn:Hb.
  - split; [|split].
    + intros _. by rewrite mergeAccountsByName_spec.
    + intros Hn. destruct Hn. by apply Hnamed.
    + intros Hn. destruct Hn. by apply Hnamed.
  - assert (~ named) by (intros Hn; apply Hnamed in Hn; discriminate).
    split; [|split].
    + intros Hn. done.
    + intros _ Hlen. rewrite bool_decide_eq_false_2 by (intros ?; done).
      by rewrite mergeAccountsByIndex_same_length.
    + intros _ Hlen. by rewrite bool_decide_eq_true_2.
Qed.

Lemma mergeAccounts_by_name_or_by_index_witness :
  let base := [AccountConfig.mk "a" "+100" "" 0 "" 0 0 0 0 [];
               AccountConfig.mk "b" "+200" "" 0 "" 0 0 0 0 []] in
  let override := [AccountConfig.mk " b " "+201" "" 7 "" 0 0 0 0 [];
                   AccountConfig.mk "c" "+300" "" 0 "" 0 0 0 0 []] in
  (base ≠ [] /\ override ≠ [])
  /\ config.mergeAccounts config.TrimSpaceASCII base override
     = Ok [AccountConfig.mk "a" "+100" "" 0 "" 0 0 0 0 [];
           AccountConfig.mk " b " "+201" "" 7 "" 0 0 0 0 [];
           AccountConfig.mk "c" "+300" "" 0 "" 0 0 0 0 []].
Proof.
  intros base override.
  assert (Hbase : base ≠ []) by discriminate.
  assert (Hov : override ≠ []) by discriminate.
  split; [split; assumption |].
  destruct (mergeAccounts_by_name_or_by_index config.TrimSpaceASCII
              base override Hbase Hov) as [Hnamed _].
  rewrite Hnamed; [vm_compute; reflexivity |].
  split; repeat constructor; vm_compute; discriminate.
Defined.

(** An empty base is never merged by name: [allAccountsNamed] answers
    [false] on an empty list, the merge is positional and the lengths
    differ. *)
Lemma mergeAccounts_empty_base (TrimSpace : string -> string)
      (override : list AccountConfig.t) :
  override ≠ [] ->
  config.mergeAccounts TrimSpace [] override
  = Err (AccountsLengthMismatch 0 (length override)).
Proof.
  intros Hov. unfold config.mergeAccounts.
  rewrite bool_decide_eq_false_2
    by (intros Hl; apply length_zero_iff_nil in Hl; done).
  simpl. rewrite bool_decide_eq_true_2; [done|].
  simpl. intros Hl. symmetry in Hl. apply length_zero_iff_nil in Hl. done.
Qed.

(** C3 as stated fails on an empty base: every account of both lists has
    a non-blank name and the override is not empty, yet the merge is not
    the merge by name (which would be the override): it is the
    length-mismatch error of the positional merge. *)
Lemma mergeAccounts_empty_base_not_by_name :
  [accountNamed "a"] ≠ []
  /\ Forall (byName.nonBlank config.TrimSpaceASCII) []
  /\ Forall (byName.nonBlank config.TrimSpaceASCII) [accountNamed "a"]
  /\ config.mergeAccounts config.TrimSpaceASCII [] [accountNamed "a"]
     = Err (AccountsLengthMismatch 0 1)
  /\ byName.merge config.TrimSpaceASCII [] [accountNamed "a"] = [accountNamed "a"].
Proof.
  split; [discriminate |].
  split; [constructor |].
  split; [repeat constructor; vm_compute; discriminate |].
  split; vm_compute; reflexivity.
Qed.

(** Unnamed accounts are merged by position, and only when the two lists
    have the same length. *)
Example mergeAccounts_unnamed_length_mismatch :
  config.mergeAccounts config.TrimSpaceASCII
    [accountNamed ""; accountNamed "b"] [accountNamed "c"]
  = Err (AccountsLengthMismatch 2 1).
Proof. vm_compute. reflexivity. Qed.

Example mergeAccounts_unnamed_same_length :
  config.mergeAccounts config.TrimSpaceASCII
    [AccountConfig.mk "" "+100" "pw" 1 "h1" 2 50 0 0 [];
     AccountConfig.mk "b" "+200" "" 0 "" 0 0 0 0 []]
    [AccountConfig.mk "x" "" "" 0 "h2" 8 10 0 0 [];
     AccountConfig.mk "  " "+201" "" 0 "" 0 0 0 0 []]
  = Ok [AccountConfig.mk "x" "+100" "pw" 1 "h2" 2 50 0 0 [];
        AccountConfig.mk "  " "+201" "" 0 "" 0 0 0 0 []].
Proof. vm_compute. reflexivity. Qed.

Example MergeConfig_propagates_mismatch :
  config.MergeConfig config.TrimSpaceASCII
    (Some (configOf [] "socks5://base"))
    (Some (configOf [accountNamed "a"] ""))
  = Err (AccountsLengthMismatch 0 1).
Proof. vm_compute. reflexivity. Qed.

(** ** Properties of the executor *)

(** The fields of the executor that [NewTaskExecutor] describes. *)
Lemma NewTaskExecutor_fields (client : executor.taskClient)
      (workerCount queueSize : Z) (log : Logger)
      (logDir logFormat accountName : string) :
  let e := executor.NewTaskExecutor client workerCount queueSize log
                                    logDir logFormat accountName in
  executor.workerCount e = (if bool_decide (workerCount ≤ 0) then 4 else workerCount)
  /\ executor.capacity (executor.taskQueue e)
     = (if bool_decide (queueSize ≤ 0) then 100 else queueSize)
  /\ 1 ≤ executor.workerCount e
  /\ 1 ≤ executor.capacity (executor.taskQueue e)
  /\ executor.buffer (executor.taskQueue e) = []
  /\ executor.closed (executor.taskQueue e) = false
  /\ executor.cancelled e = false.
Proof.
  unfold executor.NewTaskExecutor; simpl.
  repeat case_bool_decide; repeat split; try reflexivity; lia.
Qed.

(** The call returns exactly when the runtime accepts the queue size in
    use, and then it returns the executor that [NewTaskExecutor] describes. *)
Lemma NewTaskExecutor_call_returns (chanLimit : Z) (client : executor.taskClient)
      (workerCount queueSize : Z) (log : Logger)
      (logDir logFormat accountName : string) :
  executor.NewTaskExecutor_call chanLimit client workerCount queueSize log
                                logDir logFormat accountName
  = if bool_decide ((if bool_decide (queueSize ≤ 0) then 100 else queueSize)
                    ≤ chanLimit)
    then Some (executor.NewTaskExecutor client workerCount queueSize log
                                        logDir logFormat accountName)
    else None.
Proof.
  unfold executor.NewTaskExecutor_call, executor.NewTaskExecutor, executor.makechan.
  repeat case_bool_decide; try lia; reflexivity.
Qed.

(** C7, as the code has it. For every worker count, and every queue size
    that the runtime accepts as the capacity of a channel once a
    non-positive size has been replaced by 100, the call of
    [NewTaskExecutor] returns an executor: a non-positive worker count is
    replaced by 4, a non-positive queue size by 100, other values are kept,
    so that both the worker count and the capacity of the queue are at
    least 1; the queue starts open and empty. The constructor itself
    refuses nothing. *)
Theorem NewTaskExecutor_defaults (chanLimit : Z) (client : executor.taskClient)
        (workerCount queueSize : Z) (log : Logger)
        (logDir logFormat accountName : string) :
  (if bool_decide (queueSize ≤ 0) then 100 else queueSize) ≤ chanLimit ->
  exists e,
    executor.NewTaskExecutor_call chanLimit client workerCount queueSize log
                                  logDir logFormat accountName = Some e
    /\ executor.workerCount e
       = (if bool_decide (workerCount ≤ 0) then 4 else workerCount)
    /\ executor.capacity (executor.taskQueue e)
       = (if bool_decide (queueSize ≤ 0) then 100 else queueSize)
    /\ 1 ≤ executor.workerCount e
    /\ 1 ≤ executor.capacity (executor.taskQueue e)
    /\ executor.buffer (executor.taskQueue e) = []
    /\ executor.closed (executor.taskQueue e) = false
    /\ executor.cancelled e = false.
Proof.
  intros Hfits. eexists. split.
  - rewrite NewTaskExecutor_call_returns. by rewrite bool_decide_eq_true_2.
  - apply NewTaskExecutor_fields.
Qed.

Lemma NewTaskExecutor_defaults_witness :
  100 ≤ executor.maxAlloc
  /\ exists e,
      executor.NewTaskExecutor_call executor.maxAlloc silentClient 0 0
                                    mainLogger "" "" "acme"
      = Some e
      /\ executor.workerCount e = 4
      /\ executor.capacity (executor.taskQueue e) = 100.
Proof.
  assert (Hfits : 100 ≤ executor.maxAlloc) by (vm_compute; discriminate).
  split; [exact Hfits|].
  destruct (NewTaskExecutor_defaults executor.maxAlloc silentClient 0 0
              mainLogger "" "" "acme" Hfits) as (e & Hcall & Hw & Hc & _).
  exists e. split; [exact Hcall|]. split; [exact Hw | exact Hc].
Defined.

(** C7 as stated fails for a queue size the runtime refuses: with the
    largest value of a Go [int] on a 64-bit platform as the queue size,
    [make] panics and no executor is constructed, whatever the size of a
    request. *)
Lemma NewTaskExecutor_refuses_huge_queue :
  let queueSize := 9223372036854775807 in
  0 < queueSize
  /\ queueSize = 2 ^ 63 - 1
  /\ executor.NewTaskExecutor_call executor.maxAlloc silentClient 4 queueSize
                                   mainLogger "" "" "acme" = None
  /\ (forall chanLimit,
        chanLimit ≤ executor.maxAlloc ->
        executor.NewTaskExecutor_call chanLimit silentClient 4 queueSize
                                      mainLogger "" "" "acme" = None).
Proof.
  intros queueSize. split; [reflexivity|]. split; [reflexivity|].
  split; [rewrite NewTaskExecutor_call_returns; reflexivity|].
  intros chanLimit Hlimit. rewrite NewTaskExecutor_call_returns.
  assert (Hmax : executor.maxAlloc < queueSize) by reflexivity.
  rewrite (bool_decide_eq_false_2 (queueSize ≤ 0)) by (subst queueSize; lia).
  rewrite bool_decide_eq_false_2 by lia. reflexivity.
Qed.

Example NewTaskExecutor_zero_zero (client : executor.taskClient) (log : Logger) :
  let e := executor.NewTaskExecutor client 0 0 log "" "" "acme" in
  executor.workerCount e = 4 /\ executor.capacity (executor.taskQueue e) = 100.
Proof. split; reflexivity. Qed.

Lemma SubmitTask_full (task : TaskConfig.t) (logger : Logger) (triggerType : string)
      (st : executor.State) :
  executor.closed (executor.taskQueue (executor.exec st)) = false ->
  executor.capacity (executor.taskQueue (executor.exec st))
  ≤ Z.of_nat (length (executor.buffer (executor.taskQueue (executor.exec st)))) ->
  executor.SubmitTask task logger triggerType st
  = executor.Returned false
      (executor.mkState (executor.exec st)
                        (executor.logged st ++ [queueFullWarning task logger])
                        (executor.called st)).
Proof.
  intros Hopen Hfull. unfold executor.SubmitTask. rewrite Hopen.
  rewrite bool_decide_eq_false_2 by lia. reflexivity.
Qed.

Lemma SubmitTask_room (task : TaskConfig.t) (logger : Logger) (triggerType : string)
      (st : executor.State) :
  executor.closed (executor.taskQueue (executor.exec st)) = false ->
  Z.of_nat (length (executor.buffer (executor.taskQueue (executor.exec st))))
  < executor.capacity (executor.taskQueue (executor.exec st)) ->
  executor.SubmitTask task logger triggerType st
  = executor.Returned true
      (enqueued [executor.mkRequest task logger triggerType 0] st).
Proof.
  intros Hopen Hroom. unfold executor.SubmitTask, enqueued. rewrite Hopen.
  rewrite bool_decide_eq_true_2 by lia. reflexivity.
Qed.

(** Opens an executor state down to the fields of its queue. *)
Ltac open_state st :=
  destruct st as [[? [? ? ?] ? ? ? ? ? ?] ? ?]; simpl in *.

Lemma enqueued_nil (st : executor.State) : enqueued [] st = st.
Proof. open_state st. unfold enqueued; simpl. by rewrite app_nil_r. Qed.

Lemma enqueued_app (r1 r2 : list executor.TaskRequest) (st : executor.State) :
  enqueued r2 (enqueued r1 st) = enqueued (r1 ++ r2) st.
Proof. open_state st. unfold enqueued; simpl. by rewrite app_assoc. Qed.

(** Submissions that fit all succeed, and one more is dropped. *)
Lemma submitAll_fill_then_drop (front : list (TaskConfig.t * Logger * string))
      (task : TaskConfig.t) (logger : Logger) (triggerType : string)
      (st : executor.State) :
  executor.closed (executor.taskQueue (executor.exec st)) = false ->
  executor.capacity (executor.taskQueue (executor.exec st))
  = Z.of_nat (length (executor.buffer (executor.taskQueue (executor.exec st)))
              + length front) ->
  executor.submitAll (front ++ [(task, logger, triggerType)]) st
  = executor.Returned
      (replicate (length front) true ++ [false])
      (executor.emit logger WarnLevel [("task", StrField (TaskConfig.Name task))]
                     "⚠️ Task queue is full, dropping task"
                     (enqueued (requestsOf front) st)).
Proof.
  revert st. induction front as [|[[t l] g] front IH]; intros st Hopen Hcap.
  - simpl. rewrite SubmitTask_full by (try done; simpl in Hcap; lia).
    simpl. by rewrite enqueued_nil.
  - simpl. rewrite SubmitTask_room by (try done; simpl in Hcap; lia).
    rewrite IH.
    + by rewrite enqueued_app.
    + open_state st. exact Hopen.
    + open_state st. rewrite length_app. simpl. lia.
Qed.

(** C4, as the code has it. [SubmitTask] never waits, in whatever state
    the executor is. On an executor that has not been stopped (its queue is
    open) it returns at once, with [true] exactly when the queue has room.
    When the queue is full the answer is [false], the queue is left as it
    was and the only effect is one warning that carries the name of the
    dropped task. Starting from an empty queue of capacity C, of C+1
    submissions with nothing taken out in between exactly one, the last, is
    answered [false]. *)
Theorem SubmitTask_never_blocks (task : TaskConfig.t) (logger : Logger)
        (triggerType : string) (st : executor.State) :
  executor.closed (executor.taskQueue (executor.exec st)) = false ->
  (forall st0, executor.SubmitTask task logger triggerType st0 ≠ executor.Blocked)
  /\ (exists st',
        executor.SubmitTask task logger triggerType st
        = executor.Returned
            (bool_decide (executor.QueueLen (executor.exec st)
                          < executor.capacity (executor.taskQueue (executor.exec st))))
            st')
  /\ (executor.capacity (executor.taskQueue (executor.exec st))
      ≤ executor.QueueLen (executor.exec st) ->
      executor.SubmitTask task logger triggerType st
      = executor.Returned false
          (executor.mkState (executor.exec st)
             (executor.logged st ++ [queueFullWarning task logger])
             (executor.called st)))
  /\ (forall front : list (TaskConfig.t * Logger * string),
      executor.buffer (executor.taskQueue (executor.exec st)) = [] ->
      executor.capacity (executor.taskQueue (executor.exec st))
      = Z.of_nat (length front) ->
      exists st',
        executor.submitAll (front ++ [(task, logger, triggerType)]) st
        = executor.Returned (replicate (length front) true ++ [false]) st'
        /\ length (filter (fun b => b = false)
                          (replicate (length front) true ++ [false])) = 1%nat
        /\ executor.logged st'
           = executor.logged st ++ [queueFullWarning task logger]).
Proof.
  intros Hopen. split; [|split; [|split]].
  - intros st0 Hblocked. unfold executor.SubmitTask in Hblocked.
    cbv zeta in Hblocked.
    destruct (executor.closed (executor.taskQueue (executor.exec st0)));
      [discriminate Hblocked|].
    destruct (bool_decide _); discriminate Hblocked.
  - unfold executor.SubmitTask, executor.QueueLen. rewrite Hopen.
    case_bool_decide; eauto.
  - intros Hfull. by apply SubmitTask_full.
  - intros front Hempty Hcap. eexists. split; [|split].
    + apply submitAll_fill_then_drop; [done|]. rewrite Hempty. simpl. exact Hcap.
    + rewrite filter_app. 
      assert (Hnone : forall n, filter (fun b => b = false) (replicate n true) = [])
        by (induction n; [done | simpl; rewrite filter_cons_False by done; auto]).
      rewrite Hnone. reflexivity.
    + reflexivity.
Qed.

Lemma SubmitTask_never_blocks_witness :
  let st := executor.mkState
              (executor.NewTaskExecutor silentClient 1 2 mainLogger "" "" "acme")
              [] [] in
  let t1 := taskNamed "t1" in
  let t2 := taskNamed "t2" in
  let t3 := taskNamed "t3" in
  executor.closed (executor.taskQueue (executor.exec st)) = false
  /\ exists st',
      executor.submitAll [(t1, mainLogger, "scheduled"); (t2, mainLogger, "scheduled");
                          (t3, mainLogger, "scheduled")] st
      = executor.Returned [true; true; false] st'
      /\ executor.logged st' = [queueFullWarning t3 mainLogger].
Proof.
  intros st t1 t2 t3. split; [reflexivity |].
  destruct (SubmitTask_never_blocks t3 mainLogger "scheduled" st eq_refl)
    as (_ & _ & _ & Hfill).
  destruct (Hfill [(t1, mainLogger, "scheduled"); (t2, mainLogger, "scheduled")]
                  eq_refl eq_refl) as (st' & Hrun & _ & Hlog).
  exists st'. split; [exact Hrun | exact Hlog].
Defined.

(** C4 as stated fails on an executor that has been stopped. With its
    queue full ([Stop] came while a request was waiting in a queue of
    capacity 1, and the worker left on the cancellation) a submission is
    not answered [false] and logs no warning: it is a send on a closed
    channel, which panics; and of two submissions none is answered. *)
Lemma SubmitTask_on_stopped_executor_panics :
  let waiting := executor.mkRequest (taskNamed "t0") mainLogger "scheduled" 0 in
  let e := executor.NewTaskExecutor silentClient 1 1 mainLogger "" "" "acme" in
  let st := executor.mkState
              (executor.set_cancelled true
                 (executor.set_taskQueue (executor.mkChan [waiting] 1 true) e))
              [] [] in
  executor.QueueLen (executor.exec st)
  = executor.capacity (executor.taskQueue (executor.exec st))
  /\ executor.SubmitTask (taskNamed "t1") mainLogger "scheduled" st
     = executor.Panicked "send on closed channel"
  /\ executor.submitAll [(taskNamed "t1", mainLogger, "scheduled");
                         (taskNamed "t2", mainLogger, "scheduled")] st
     = executor.Panicked "send on closed channel".
Proof. repeat split; reflexivity. Qed.

(** For comparison, the blocking submission on an executor that has not
    been stopped: with a full queue and a context that is not done it has
    one outcome, to wait. *)
Lemma SubmitTaskBlocking_waits_on_full_queue (task : TaskConfig.t) (logger : Logger)
      (triggerType : string) (st : executor.State) (out : executor.Outcome bool) :
  executor.closed (executor.taskQueue (executor.exec st)) = false ->
  executor.capacity (executor.taskQueue (executor.exec st))
  ≤ executor.QueueLen (executor.exec st) ->
  executor.SubmitTaskBlocking false task logger triggerType st out ->
  out = executor.Blocked.
Proof.
  unfold executor.QueueLen. intros Hopen Hfull Hout.
  inversion Hout; subst; try done; try congruence. lia.
Qed.

(** Once [Stop] has closed the queue a submission does not return. *)
Example SubmitTask_after_Stop :
  let st := executor.Stop
              (executor.mkState
                 (executor.NewTaskExecutor silentClient 1 2 mainLogger "" "" "acme")
                 [] []) in
  executor.SubmitTask (taskNamed "t") mainLogger "scheduled" st
  = executor.Panicked "send on closed channel".
Proof. reflexivity. Qed.

(** *** The worker and a task of unknown method *)

Section Worker.
Variable fs : string -> string -> string -> string -> option error.

Lemma executeTaskWithLogger_unknown (task : TaskConfig.t) (taskLogger : Logger)
      (st : executor.State) :
  TaskConfig.Method task ≠ "message" ->
  TaskConfig.Method task ≠ "button" ->
  executor.executeTaskWithLogger task taskLogger st
  = (Some (UnknownMethod (TaskConfig.Method task)), st).
Proof.
  intros Hm Hb. unfold executor.executeTaskWithLogger.
  by rewrite !bool_decide_eq_false_2.
Qed.

(** [executeTask] never touches the executor. *)
Lemma executeTask_exec (req : executor.TaskRequest) (st : executor.State) :
  executor.exec (executor.executeTask fs req st) = executor.exec st.
Proof.
  unfold executor.executeTask.
  destruct (logger.CreateTaskLogger _ _ _ _ _ _);
    match goal with
    | |- context [executor.executeTaskWithLogger ?t ?l ?s] =>
        assert (Hx : executor.exec (snd (executor.executeTaskWithLogger t l s))
                     = executor.exec st)
          by (unfold executor.executeTaskWithLogger;
              repeat case_bool_decide; reflexivity);
        destruct (executor.executeTaskWithLogger t l s) as [[?|] ?]
    end; simpl in *; exact Hx.
Qed.

(** A request of unknown method: no call reaches the client, the log grows
    by events that end with the failure event of the account log, and none
    of them reports a success. *)
Lemma executeTask_unknown (req : executor.TaskRequest) (st : executor.State) :
  TaskConfig.Method (executor.Task req) ≠ "message" ->
  TaskConfig.Method (executor.Task req) ≠ "button" ->
  let st' := executor.executeTask fs req st in
  executor.called st' = executor.called st
  /\ exists events,
      executor.logged st'
      = executor.logged st ++ events
        ++ [taskFailedEvent req (UnknownMethod (TaskConfig.Method (executor.Task req)))]
      /\ Forall (fun ev => ev_msg ev ≠ "Task completed successfully") events.
Proof.
  intros Hm Hb. unfold executor.executeTask.
  fold (taskNameOf req).
  destruct (logger.CreateTaskLogger _ _ _ _ _ _) as [l|err];
    rewrite executeTaskWithLogger_unknown by done;
    cbn [executor.called executor.logged executor.emit executor.exec];
    (split; [reflexivity |]).
  - match goal with
    | |- exists events, (((?L ++ [?a]) ++ [?b]) ++ [?c]) ++ [?d] = _ /\ _ =>
        exists [a; b; c]
    end.
    split; [by rewrite <- !app_assoc |].
    repeat apply List.Forall_cons; try apply List.Forall_nil; cbn [ev_msg];
      unfold executor.startMsg, executor.failMsg;
      repeat case_bool_decide; discriminate.
  - match goal with
    | |- exists events,
          ((((?L ++ [?z]) ++ [?a]) ++ [?b]) ++ [?c]) ++ [?d] = _ /\ _ =>
        exists [z; a; b; c]
    end.
    split; [by rewrite <- !app_assoc |].
    repeat apply List.Forall_cons; try apply List.Forall_nil; cbn [ev_msg];
      unfold executor.startMsg, executor.failMsg;
      repeat case_bool_decide; discriminate.
Qed.

(** C8. A request whose method is neither "message" nor "button": the
    dispatch fails with the error that carries the method, without a call
    to the client; the worker's turn that takes the request ends back in
    the loop, with the executor as it was but for the request taken out, the
    failure in the log and no success reported; and the worker's next turn
    takes the next queued request: it can, and when neither the context nor
    the executor is cancelled it is the only turn there is. *)
Theorem unknown_method_fails_only_its_task (id : Z) (st : executor.State)
        (req : executor.TaskRequest) (rest : list executor.TaskRequest) :
  TaskConfig.Method (executor.Task req) ≠ "message" ->
  TaskConfig.Method (executor.Task req) ≠ "button" ->
  executor.buffer (executor.taskQueue (executor.exec st)) = req :: rest ->
  let failed := UnknownMethod (TaskConfig.Method (executor.Task req)) in
  let st' := executor.executeTask fs (executor.set_WorkerID id req) (received rest st) in
  (forall taskLogger s,
      executor.executeTaskWithLogger (executor.Task req) taskLogger s = (Some failed, s))
  /\ (forall ctxDone, executor.worker_turn fs ctxDone id st executor.Looping st')
  /\ executor.exec st' = executor.exec (received rest st)
  /\ executor.called st' = executor.called st
  /\ (exists events,
        executor.logged st'
        = executor.logged st ++ events
          ++ [taskFailedEvent (executor.set_WorkerID id req) failed]
        /\ Forall (fun ev => ev_msg ev ≠ "Task completed successfully") events)
  /\ (forall req2 rest2,
        rest = req2 :: rest2 ->
        let st2 := executor.executeTask fs (executor.set_WorkerID id req2)
                                        (received rest2 st') in
        (forall ctxDone, executor.worker_turn fs ctxDone id st' executor.Looping st2)
        /\ (forall status st'',
              executor.cancelled (executor.exec st) = false ->
              executor.worker_turn fs false id st' status st'' ->
              status = executor.Looping /\ st'' = st2)).
Proof.
  intros Hm Hb Hq failed st'.
  assert (Hexec : executor.exec st' = executor.exec (received rest st))
    by apply executeTask_exec.
  split; [|split; [|split; [|split; [|split]]]].
  - intros. by apply executeTaskWithLogger_unknown.
  - intros ctxDone. subst st'. unfold received.
    by apply executor.turn_receive.
  - exact Hexec.
  - destruct (executeTask_unknown (executor.set_WorkerID id req) (received rest st))
      as [Hc _]; [done | done |]. exact Hc.
  - destruct (executeTask_unknown (executor.set_WorkerID id req) (received rest st))
      as [_ He]; [done | done |]. exact He.
  - intros req2 rest2 -> st2.
    assert (Hq' : executor.buffer (executor.taskQueue (executor.exec st'))
                  = req2 :: rest2) by (rewrite Hexec; reflexivity).
    split.
    + intros ctxDone. subst st2. unfold received.
      by apply executor.turn_receive.
    + intros status st'' Hlive Hturn.
      inversion Hturn as [s Hd | s Hcan | s Hnil Hcl | s r rs Hbuf]; subst.
      * discriminate.
      * rewrite Hexec in Hcan. simpl in Hcan. congruence.
      * rewrite Hq' in Hnil. discriminate.
      * rewrite Hq' in Hbuf. injection Hbuf as <- <-. split; reflexivity.
Qed.
End Worker.

Lemma unknown_method_fails_only_its_task_witness :
  let bad := executor.mkRequest (taskWith "t1" "unknown" "" None true)
                                mainLogger "run_on_start" 0 in
  let next := executor.mkRequest (taskWith "t2" "message" "" None true)
                                 mainLogger "run_on_start" 0 in
  let st := executor.mkState
              (executor.set_taskQueue (executor.mkChan [bad; next] 2 false)
                 (executor.NewTaskExecutor silentClient 1 2 mainLogger "" "" "acme"))
              [] [] in
  let st' := executor.executeTask fsOk (executor.set_WorkerID 7 bad)
                                  (received [next] st) in
  let st2 := executor.executeTask fsOk (executor.set_WorkerID 7 next)
                                  (received [] st') in
  (TaskConfig.Method (executor.Task bad) ≠ "message"
   /\ TaskConfig.Method (executor.Task bad) ≠ "button"
   /\ executor.buffer (executor.taskQueue (executor.exec st)) = [bad; next])
  /\ executor.worker_turn fsOk false 7 st executor.Looping st'
  /\ executor.called st' = []
  /\ executor.worker_turn fsOk false 7 st' executor.Looping st2
  /\ executor.called st2
     = [executor.CheckInMessageInRunWithLogger "@bot" "/checkin"
          (mkLogger (TaskLogFile "./log" "acme" "t2" "run_on_start")
             [("account", StrField "acme"); ("task", StrField "t2");
              ("trigger", StrField "run_on_start"); ("thread_id", IntField 7);
              ("thread_name", StrField "t2"); ("task", StrField "t2");
              ("target", StrField "@bot")])].
Proof.
  intros bad next st st' st2.
  assert (Hm : TaskConfig.Method (executor.Task bad) ≠ "message") by discriminate.
  assert (Hb : TaskConfig.Method (executor.Task bad) ≠ "button") by discriminate.
  assert (Hq : executor.buffer (executor.taskQueue (executor.exec st)) = [bad; next])
    by reflexivity.
  destruct (unknown_method_fails_only_its_task fsOk 7 st bad [next] Hm Hb Hq)
    as (_ & Hturn & _ & Hcalled & _ & Hnext).
  destruct (Hnext next [] eq_refl) as [Hturn2 _].
  split; [repeat split; assumption |].
  split; [apply Hturn |].
  split; [exact Hcalled |].
  split; [apply Hturn2 |].
  vm_compute. reflexivity.
Defined.

(** ** Properties of the orchestration *)

Create HintDb enabled.

Section Orchestration.
Variable env : scheduler.Env.

(** *** What each step leaves of the submissions and the entries *)

Lemma ask_keeps (w : scheduler.World) :
  scheduler.submitted (snd (scheduler.ask w)) = scheduler.submitted w
  /\ scheduler.entries (snd (scheduler.ask w)) = scheduler.entries w
  /\ scheduler.executors (snd (scheduler.ask w)) = scheduler.executors w
  /\ scheduler.logged (snd (scheduler.ask w)) = scheduler.logged w.
Proof. unfold scheduler.ask. destruct (scheduler.tape w); simpl; auto. Qed.

Lemma onExecutor_keeps (e : nat) (f : executor.State -> executor.State)
      (w : scheduler.World) :
  scheduler.submitted (scheduler.onExecutor e f w) = scheduler.submitted w
  /\ scheduler.entries (scheduler.onExecutor e f w) = scheduler.entries w.
Proof.
  unfold scheduler.onExecutor. destruct (scheduler.executors w !! e); simpl; auto.
Qed.

Lemma SubmitTask_submitted (e : nat) (task : TaskConfig.t) (l : Logger)
      (trigger : string) (w : scheduler.World) :
  let w' := snd (scheduler.SubmitTask e task l trigger w) in
  (exists accepted,
      scheduler.submitted w'
      = scheduler.submitted w
        ++ [scheduler.mkSubmission e task l trigger false accepted])
  /\ scheduler.entries w' = scheduler.entries w
  /\ scheduler.executors w' = scheduler.executors w.
Proof.
  unfold scheduler.SubmitTask, scheduler.ask.
  destruct (scheduler.tape w) as [|[] ?]; simpl; eauto.
Qed.

Lemma SubmitTaskBlocking_submitted (e : nat) (task : TaskConfig.t) (l : Logger)
      (trigger : string) (w : scheduler.World) :
  let w' := snd (scheduler.SubmitTaskBlocking e task l trigger w) in
  (exists accepted,
      scheduler.submitted w'
      = scheduler.submitted w
        ++ [scheduler.mkSubmission e task l trigger true accepted])
  /\ scheduler.entries w' = scheduler.entries w.
Proof.
  unfold scheduler.SubmitTaskBlocking, scheduler.ask.
  destruct (scheduler.tape w) as [|[] ?]; simpl; eauto.
Qed.

Lemma enabledOnly_same (w w' : scheduler.World) :
  scheduler.submitted w' = scheduler.submitted w ->
  scheduler.entries w' = scheduler.entries w ->
  enabledOnly w -> enabledOnly w'.
Proof. unfold enabledOnly. intros -> ->. done. Qed.

Lemma enabledOnly_emit (l : Logger) (lv : Level) (fields : list (string * FieldValue))
      (msg : string) (w : scheduler.World) :
  enabledOnly w -> enabledOnly (scheduler.emit l lv fields msg w).
Proof. apply enabledOnly_same; reflexivity. Qed.

Lemma enabledOnly_ask (w : scheduler.World) :
  enabledOnly w -> enabledOnly (snd (scheduler.ask w)).
Proof. apply enabledOnly_same; apply ask_keeps. Qed.

Lemma enabledOnly_onExecutor (e : nat) (f : executor.State -> executor.State)
      (w : scheduler.World) :
  enabledOnly w -> enabledOnly (scheduler.onExecutor e f w).
Proof. apply enabledOnly_same; apply onExecutor_keeps. Qed.

Lemma enabledOnly_SubmitTask (e : nat) (task : TaskConfig.t) (l : Logger)
      (trigger : string) (w : scheduler.World) :
  scheduler.isTaskEnabled task = true ->
  enabledOnly w -> enabledOnly (snd (scheduler.SubmitTask e task l trigger w)).
Proof.
  intros Hen [Hs He].
  destruct (SubmitTask_submitted e task l trigger w) as ([a Hsub] & Hent & _).
  unfold enabledOnly. rewrite Hsub, Hent. split; [|done].
  apply Forall_app. split; [done|]. by repeat constructor.
Qed.

Lemma enabledOnly_SubmitTaskBlocking (e : nat) (task : TaskConfig.t) (l : Logger)
      (trigger : string) (w : scheduler.World) :
  scheduler.isTaskEnabled task = true ->
  enabledOnly w ->
  enabledOnly (snd (scheduler.SubmitTaskBlocking e task l trigger w)).
Proof.
  intros Hen [Hs He].
  destruct (SubmitTaskBlocking_submitted e task l trigger w) as ([a Hsub] & Hent).
  unfold enabledOnly. rewrite Hsub, Hent. split; [|done].
  apply Forall_app. split; [done|]. by repeat constructor.
Qed.

#[local] Hint Resolve enabledOnly_emit enabledOnly_ask enabledOnly_onExecutor
  enabledOnly_SubmitTask enabledOnly_SubmitTaskBlocking : enabled.

Lemma enabledOnly_fire (en : scheduler.ScheduleEntry) (w w' : scheduler.World) :
  scheduler.fire en w = Some w' ->
  scheduler.isTaskEnabled (scheduler.entry_task en) = true ->
  enabledOnly w -> enabledOnly w'.
Proof.
  unfold scheduler.fire. intros Hfire Hen Hw.
  pose proof (enabledOnly_ask w Hw) as Hask.
  destruct (scheduler.ask w) as [[] w1]; simpl in Hask; [by injection Hfire as <- |].
  destruct (scheduler.executors w1 !! scheduler.entry_exec en) as [ex|];
    [|discriminate].
  destruct (executor.closed (executor.taskQueue ex)); [discriminate|].
  injection Hfire as <-. by apply enabledOnly_SubmitTask.
Qed.

Lemma enabledOnly_submitRunOnStart (e : nat) (accLog : Logger)
      (tasks : list TaskConfig.t) (w : scheduler.World) :
  enabledOnly w -> enabledOnly (scheduler.submitRunOnStart e accLog tasks w).
Proof.
  unfold scheduler.submitRunOnStart. revert w.
  induction tasks as [|t tasks IH]; intros w Hw; simpl; [done|].
  apply IH. destruct (scheduler.isTaskEnabled t) eqn:Hen; simpl; [|done].
  destruct (TaskConfig.RunOnStart t); [|done].
  by apply enabledOnly_SubmitTask.
Qed.

Lemma enabledOnly_addScheduledTasks (e : nat) (accLog : Logger)
      (tasks : list TaskConfig.t) (w : scheduler.World) :
  enabledOnly w ->
  enabledOnly (snd (scheduler.addScheduledTasks env e accLog tasks w)).
Proof.
  revert w. induction tasks as [|t tasks IH]; intros w Hw; simpl; [done|].
  destruct (scheduler.isTaskEnabled t) eqn:Hen; simpl; [|by apply IH].
  case_bool_decide; [by apply IH|].
  unfold scheduler.AddTask.
  destruct (scheduler.cronParse env (TaskConfig.Schedule t)); simpl.
  - by apply enabledOnly_emit.
  - apply IH. apply enabledOnly_emit. destruct Hw as [Hs He].
    split; [done|]. simpl. apply Forall_app. split; [done|].
    by repeat constructor.
Qed.

Lemma enabledOnly_createExecutor (cfg : Config.t) (acc : AccountConfig.t)
      (sessionFile : string) (accLog : Logger) (accountLabel : string)
      (w : scheduler.World) :
  enabledOnly w ->
  enabledOnly (snd (scheduler.createExecutor env cfg acc sessionFile accLog
                                             accountLabel w)).
Proof.
  intros Hw. unfold scheduler.createExecutor, scheduler.newExecutor. simpl.
  by apply enabledOnly_onExecutor.
Qed.

Lemma enabledOnly_daemonSession (cfg : Config.t) (acc : AccountConfig.t)
      (sessionFile : string) (accLog : Logger) (accountLabel : string)
      (hasImmediateTasks hasScheduledTasks : bool) (w : scheduler.World) :
  enabledOnly w ->
  enabledOnly (snd (scheduler.daemonSession env cfg acc sessionFile accLog
                      accountLabel hasImmediateTasks hasScheduledTasks w)).
Proof.
  intros Hw. unfold scheduler.daemonSession.
  destruct (scheduler.AuthInRun env _ _); [by apply enabledOnly_emit|].
  pose proof (enabledOnly_createExecutor cfg acc sessionFile accLog accountLabel w Hw)
    as Hc.
  destruct (scheduler.createExecutor _ _ _ _ _ _ _) as [exec w1]. simpl in Hc.
  assert (Hi : enabledOnly
                 (if hasImmediateTasks
                  then scheduler.submitRunOnStart exec accLog (AccountConfig.Tasks acc) w1
                  else w1))
    by (destruct hasImmediateTasks; [by apply enabledOnly_submitRunOnStart | done]).
  destruct hasScheduledTasks; [|exact Hi].
  pose proof (enabledOnly_addScheduledTasks exec accLog (AccountConfig.Tasks acc) _ Hi)
    as Ha.
  destruct (scheduler.addScheduledTasks _ _ _ _ _) as [[err|] w2]; simpl in Ha;
    [by apply enabledOnly_onExecutor | done].
Qed.

Lemma enabledOnly_runAccount (cfg : Config.t) (log : Logger) (acc : AccountConfig.t)
      (hasAnyScheduled : bool) (w : scheduler.World) :
  enabledOnly w ->
  enabledOnly (snd (scheduler.runAccount env cfg log acc hasAnyScheduled w)).
Proof.
  intros Hw. unfold scheduler.runAccount.
  destruct (scheduler.scanTasks _) as [hi hs].
  destruct (negb hi && negb hs); [auto with enabled|].
  destruct (scheduler.resolveAppConfig cfg acc) as [[appID appHash]|err];
    [|auto with enabled].
  destruct (scheduler.resolveReplyConfig _ _ _) as [rw rh].
  destruct (scheduler.factory env _ _ _ _ _); [auto with enabled|].
  destruct (scheduler.clientRun env _); [done|].
  by apply enabledOnly_daemonSession.
Qed.

Lemma enabledOnly_RunTasks (cfg : Config.t) (log : Logger) (w : scheduler.World) :
  enabledOnly w -> enabledOnly (snd (scheduler.RunTasks env cfg log w)).
Proof.
  intros Hw. unfold scheduler.RunTasks.
  assert (Hloop : forall accounts any w0,
             enabledOnly w0 ->
             enabledOnly
               (snd (foldl (fun '(hasAnyScheduled, w) acc =>
                              scheduler.runAccount env cfg log acc hasAnyScheduled w)
                           (any, w0) accounts))).
  { induction accounts as [|acc accounts IH]; intros any w0 Hw0; simpl; [done|].
    pose proof (enabledOnly_runAccount cfg log acc any w0 Hw0) as Hr.
    destruct (scheduler.runAccount _ _ _ _ _ _) as [any' w1]. by apply IH. }
  specialize (Hloop (Config.Accounts cfg) false w Hw).
  destruct (foldl _ _ _) as [any w1]. simpl in Hloop.
  destruct (negb any); simpl; by apply enabledOnly_emit.
Qed.

Lemma enabledOnly_submitAllBlocking (e : nat) (accLog : Logger)
      (tasks : list TaskConfig.t) (w : scheduler.World) :
  enabledOnly w ->
  enabledOnly (snd (scheduler.submitAllBlocking e accLog tasks w)).
Proof.
  unfold scheduler.submitAllBlocking. generalize (@nil error) at 2. revert w.
  induction tasks as [|t tasks IH]; intros w errs Hw; simpl; [done|].
  destruct (scheduler.isTaskEnabled t) eqn:Hen; simpl; [|by apply IH].
  pose proof (enabledOnly_SubmitTaskBlocking e t accLog "once" w Hen Hw) as Hs.
  destruct (scheduler.SubmitTaskBlocking e t accLog "once" w) as [[] w1];
    by apply IH.
Qed.

Lemma enabledOnly_onceSession (cfg : Config.t) (acc : AccountConfig.t)
      (sessionFile : string) (accLog : Logger) (accountLabel : string)
      (enabledTaskCount : Z) (w : scheduler.World) :
  enabledOnly w ->
  enabledOnly (snd (scheduler.onceSession env cfg acc sessionFile accLog
                      accountLabel enabledTaskCount w)).
Proof.
  intros Hw. unfold scheduler.onceSession.
  destruct (scheduler.AuthInRun env _ _); [by apply enabledOnly_emit|].
  pose proof (enabledOnly_createExecutor cfg acc sessionFile accLog accountLabel w Hw)
    as Hc.
  destruct (scheduler.createExecutor _ _ _ _ _ _ _) as [exec w1]. simpl in Hc.
  pose proof (enabledOnly_submitAllBlocking exec accLog (AccountConfig.Tasks acc) w1 Hc)
    as Hs.
  destruct (scheduler.submitAllBlocking _ _ _ _) as [taskErrors w2]. simpl in Hs.
  apply enabledOnly_onExecutor.
  case_bool_decide; by apply enabledOnly_emit.
Qed.

Lemma enabledOnly_runTasksOnceLoop (cfg : Config.t) (log : Logger)
      (accounts : list AccountConfig.t) (allErrs : list error) (w : scheduler.World) :
  enabledOnly w ->
  enabledOnly (snd (scheduler.runTasksOnceLoop env cfg log accounts allErrs w)).
Proof.
  revert allErrs w.
  induction accounts as [|acc accounts IH]; intros allErrs w Hw; simpl; [done|].
  pose proof (enabledOnly_ask w Hw) as Hask.
  destruct (scheduler.ask w) as [[] w1]; simpl in Hask; [done|].
  case_bool_decide; [auto with enabled|].
  destruct (scheduler.resolveAppConfig cfg acc) as [[appID appHash]|err];
    [|auto with enabled].
  destruct (scheduler.factory env _ _ _ _ _); [auto with enabled|].
  destruct (scheduler.clientRun env _); [auto with enabled|].
  match goal with
  | |- context [scheduler.onceSession env cfg acc ?f ?l ?a ?n ?w0] =>
      pose proof (enabledOnly_onceSession cfg acc f l a n w0
                    (enabledOnly_emit _ _ _ _ _ Hask)) as Ho;
      destruct (scheduler.onceSession env cfg acc f l a n w0) as [[err errs] w2]
  end.
  by apply IH.
Qed.

Lemma fire_entries (en : scheduler.ScheduleEntry) (w w' : scheduler.World) :
  scheduler.fire en w = Some w' ->
  scheduler.entries w' = scheduler.entries w.
Proof.
  unfold scheduler.fire. intros Hfire.
  destruct (ask_keeps w) as (_ & He & _).
  destruct (scheduler.ask w) as [[] w1]; simpl in He; [by injection Hfire as <- |].
  destruct (scheduler.executors w1 !! scheduler.entry_exec en) as [ex|];
    [|discriminate].
  destruct (executor.closed (executor.taskQueue ex)); [discriminate|].
  injection Hfire as <-.
  destruct (SubmitTask_submitted (scheduler.entry_exec en) (scheduler.entry_task en)
              (scheduler.entry_log en) "scheduled" w1) as (_ & He' & _).
  by rewrite He'.
Qed.

Lemma enabledOnly_fireAll (fired : list scheduler.ScheduleEntry)
      (w w' : scheduler.World) :
  fired ⊆ scheduler.entries w ->
  fireAll fired w = Some w' ->
  enabledOnly w -> enabledOnly w'.
Proof.
  revert w.
  induction fired as [|en fired IH]; intros w Hsub Hrun Hw; simpl in Hrun.
  - by injection Hrun as <-.
  - destruct (scheduler.fire en w) as [w1|] eqn:Hfire; [|discriminate].
    apply (IH w1); [|done|].
    + rewrite (fire_entries en w w1 Hfire). intros x Hx. apply Hsub. by right.
    + apply (enabledOnly_fire en w w1 Hfire); [|done].
      destruct Hw as [_ He]. rewrite Forall_forall in He. apply He, Hsub. by left.
Qed.

Lemma enabledOnly_initWorld (tape : list bool) : enabledOnly (scheduler.initWorld tape).
Proof. split; constructor. Qed.

Lemma enabledOnly_excludes (w : scheduler.World) (task : TaskConfig.t) :
  TaskConfig.Enabled task = Some false ->
  enabledOnly w ->
  (forall en, en ∈ scheduler.entries w -> scheduler.entry_task en ≠ task)
  /\ (forall s, s ∈ scheduler.submitted w -> scheduler.sub_task s ≠ task).
Proof.
  intros Hoff [Hs He]. rewrite Forall_forall in Hs. rewrite Forall_forall in He.
  assert (Hdis : scheduler.isTaskEnabled task = false)
    by (unfold scheduler.isTaskEnabled; by rewrite Hoff).
  split.
  - intros en Hin Heq. specialize (He en Hin). rewrite Heq in He. congruence.
  - intros s Hin Heq. specialize (Hs s Hin). rewrite Heq in Hs. congruence.
Qed.

(** C6. A task whose enabled flag is false never runs, whatever the
    collaborators answer. In daemon mode ([RunTasks]) no schedule entry
    holds it, no submission (a run-on-start submission in particular) is of
    it, and none is when the cron engine then fires registered entries; in
    run-once mode ([runTasksOnce]) no entry holds it and no submission is
    of it. *)
Theorem disabled_task_never_scheduled_nor_submitted
        (cfg : Config.t) (log : Logger) (tape : list bool) (task : TaskConfig.t) :
  TaskConfig.Enabled task = Some false ->
  let daemon := snd (scheduler.RunTasks env cfg log (scheduler.initWorld tape)) in
  let once := snd (scheduler.runTasksOnce env cfg log (scheduler.initWorld tape)) in
  (forall en, en ∈ scheduler.entries daemon -> scheduler.entry_task en ≠ task)
  /\ (forall s, s ∈ scheduler.submitted daemon -> scheduler.sub_task s ≠ task)
  /\ (forall fired w' s,
        fired ⊆ scheduler.entries daemon ->
        fireAll fired daemon = Some w' ->
        s ∈ scheduler.submitted w' ->
        scheduler.sub_task s ≠ task)
  /\ (forall en, en ∈ scheduler.entries once -> scheduler.entry_task en ≠ task)
  /\ (forall s, s ∈ scheduler.submitted once -> scheduler.sub_task s ≠ task).
Proof.
  intros Hoff daemon once.
  assert (Hd : enabledOnly daemon)
    by apply enabledOnly_RunTasks, enabledOnly_initWorld.
  assert (Ho : enabledOnly once)
    by apply enabledOnly_runTasksOnceLoop, enabledOnly_initWorld.
  destruct (enabledOnly_excludes daemon task Hoff Hd) as [Hde Hds].
  destruct (enabledOnly_excludes once task Hoff Ho) as [Hoe Hos].
  repeat split; try assumption.
  intros fired w' s Hsub Hrun Hin.
  by apply (enabledOnly_excludes w' task Hoff
              (enabledOnly_fireAll fired daemon w' Hsub Hrun Hd)).
Qed.

(** *** A malformed schedule expression *)

Lemma addScheduledTasks_skip (e : nat) (accLog : Logger) (t : TaskConfig.t)
      (tasks : list TaskConfig.t) (w : scheduler.World) :
  ~ (scheduler.isTaskEnabled t = true /\ TaskConfig.Schedule t ≠ "") ->
  scheduler.addScheduledTasks env e accLog (t :: tasks) w
  = scheduler.addScheduledTasks env e accLog tasks w.
Proof.
  intros Hskip. simpl.
  destruct (scheduler.isTaskEnabled t); simpl; [|done].
  case_bool_decide; [done|]. destruct Hskip. done.
Qed.

(** The registration loop on [before ++ bad :: after], where [bad] is the
    first task whose expression the parser refuses. *)
Lemma addScheduledTasks_stops (e : nat) (accLog : Logger)
      (before after : list TaskConfig.t) (bad : TaskConfig.t) (err : error)
      (w : scheduler.World) :
  scheduler.isTaskEnabled bad = true ->
  TaskConfig.Schedule bad ≠ "" ->
  scheduler.cronParse env (TaskConfig.Schedule bad) = Some err ->
  (forall t, t ∈ scheduledTasks before ->
             scheduler.cronParse env (TaskConfig.Schedule t) = None) ->
  exists w',
    scheduler.addScheduledTasks env e accLog (before ++ bad :: after) w
    = (Some err, w')
    /\ scheduler.entries w' = scheduler.entries w ++ entriesFor e accLog before
    /\ scheduler.executors w' = scheduler.executors w
    /\ scheduler.submitted w' = scheduler.submitted w
    /\ last (scheduler.logged w')
       = Some (scheduleFailedEvent accLog err (TaskConfig.Schedule bad)).
Proof.
  intros Hen Hsched Hbad. revert w.
  induction before as [|t before IH]; intros w Hgood.
  - simpl. rewrite Hen. simpl. rewrite bool_decide_eq_false_2 by done.
    unfold scheduler.AddTask. rewrite Hbad. eexists. split; [reflexivity|].
    simpl. rewrite app_nil_r. repeat split; try reflexivity.
    apply last_snoc.
  - rewrite <- app_comm_cons.
    destruct (decide (scheduler.isTaskEnabled t = true /\ TaskConfig.Schedule t ≠ ""))
      as [Hreg|Hskip].
    + assert (Hparse : scheduler.cronParse env (TaskConfig.Schedule t) = None).
      { apply Hgood. unfold scheduledTasks. rewrite filter_cons_True by done. by left. }
      destruct Hreg as [Ht Hs].
      simpl. rewrite Ht. simpl. rewrite bool_decide_eq_false_2 by done.
      unfold scheduler.AddTask. rewrite Hparse.
      match goal with
      | |- context [scheduler.addScheduledTasks env e accLog _ ?w0] =>
          destruct (IH w0) as (w' & Hrun & Hent & Hex & Hsub & Hlog)
      end.
      { intros t' Ht'. apply Hgood. unfold scheduledTasks in *.
        rewrite filter_cons_True by done. by right. }
      exists w'. split; [exact Hrun|]. rewrite Hent, Hex, Hsub. simpl.
      repeat split; try done.
      unfold entriesFor, scheduledTasks. rewrite filter_cons_True by done.
      rewrite fmap_cons. by rewrite <- app_assoc.
    + rewrite addScheduledTasks_skip by done.
      destruct (IH w) as (w' & Hrun & Hent & Hex & Hsub & Hlog).
      { intros t' Ht'. apply Hgood. unfold scheduledTasks in *.
        by rewrite filter_cons_False. }
      exists w'. split; [exact Hrun|]. repeat split; try done.
      rewrite Hent. unfold entriesFor, scheduledTasks.
      by rewrite filter_cons_False.
Qed.

Lemma submitRunOnStart_keeps (e : nat) (accLog : Logger)
      (tasks : list TaskConfig.t) (w : scheduler.World) :
  scheduler.entries (scheduler.submitRunOnStart e accLog tasks w)
  = scheduler.entries w
  /\ scheduler.executors (scheduler.submitRunOnStart e accLog tasks w)
     = scheduler.executors w.
Proof.
  unfold scheduler.submitRunOnStart. revert w.
  induction tasks as [|t tasks IH]; intros w; simpl; [done|].
  destruct (IH (if scheduler.isTaskEnabled t && TaskConfig.RunOnStart t
                then (scheduler.SubmitTask e t accLog "run_on_start" w).2
                else w)) as [He Hx].
  rewrite He, Hx.
  destruct (scheduler.isTaskEnabled t && TaskConfig.RunOnStart t); [|done].
  destruct (SubmitTask_submitted e t accLog "run_on_start" w) as (_ & He' & Hx').
  done.
Qed.

Lemma createExecutor_fresh (cfg : Config.t) (acc : AccountConfig.t)
      (sessionFile : string) (accLog : Logger) (accountLabel : string)
      (w : scheduler.World) :
  let r := scheduler.createExecutor env cfg acc sessionFile accLog accountLabel w in
  fst r = length (scheduler.executors w)
  /\ scheduler.entries (snd r) = scheduler.entries w
  /\ exists ex, scheduler.executors (snd r) = scheduler.executors w ++ [ex].
Proof.
  unfold scheduler.createExecutor, scheduler.newExecutor, scheduler.onExecutor.
  simpl. rewrite lookup_app_r by done. rewrite Nat.sub_diag. simpl.
  repeat split. eexists.
  rewrite insert_app_r_alt by done. rewrite Nat.sub_diag. reflexivity.
Qed.

Lemma onExecutor_Stop (e : nat) (ex : executor.TaskExecutor) (w : scheduler.World) :
  scheduler.executors w !! e = Some ex ->
  let w' := scheduler.onExecutor e executor.Stop w in
  (exists ex', scheduler.executors w' !! e = Some ex'
               /\ executor.closed (executor.taskQueue ex') = true
               /\ executor.cancelled ex' = true)
  /\ forall ev, ev ∈ scheduler.logged w -> ev ∈ scheduler.logged w'.
Proof.
  intros Hex. unfold scheduler.onExecutor. rewrite Hex. simpl. split.
  - eexists. split.
    + apply list_lookup_insert_eq. by apply lookup_lt_Some in Hex.
    + split; reflexivity.
  - intros ev Hev. apply elem_of_app. by left.
Qed.

(** The session function on an account whose task [bad] carries the first
    malformed expression. *)
Lemma daemonSession_malformed_schedule
        (cfg : Config.t) (acc : AccountConfig.t) (sessionFile : string)
        (accLog : Logger) (accountLabel : string) (hasImmediateTasks : bool)
        (before after : list TaskConfig.t) (bad : TaskConfig.t) (err : error)
        (w : scheduler.World) :
  scheduler.AuthInRun env (AccountConfig.Phone acc) (AccountConfig.Password acc) = None ->
  AccountConfig.Tasks acc = before ++ bad :: after ->
  scheduler.isTaskEnabled bad = true ->
  TaskConfig.Schedule bad ≠ "" ->
  scheduler.cronParse env (TaskConfig.Schedule bad) = Some err ->
  (forall t, t ∈ scheduledTasks before ->
             scheduler.cronParse env (TaskConfig.Schedule t) = None) ->
  let exec := length (scheduler.executors w) in
  exists w',
    scheduler.daemonSession env cfg acc sessionFile accLog accountLabel
                            hasImmediateTasks true w
    = (scheduler.SessionFailed err, w')
    /\ scheduler.entries w' = scheduler.entries w ++ entriesFor exec accLog before
    /\ scheduleFailedEvent accLog err (TaskConfig.Schedule bad) ∈ scheduler.logged w'
    /\ exists ex, scheduler.executors w' !! exec = Some ex
                  /\ executor.closed (executor.taskQueue ex) = true
                  /\ executor.cancelled ex = true.
Proof.
  intros Hauth Htasks Hen Hsched Hbad Hgood exec.
  unfold scheduler.daemonSession. rewrite Hauth.
  destruct (createExecutor_fresh cfg acc sessionFile accLog accountLabel w)
    as (Hfst & Hent1 & ex & Hex1).
  destruct (scheduler.createExecutor _ _ _ _ _ _ _) as [exec' w1].
  simpl in Hfst, Hent1, Hex1. subst exec'. fold exec.
  set (w2 := if hasImmediateTasks
             then scheduler.submitRunOnStart exec accLog (AccountConfig.Tasks acc) w1
             else w1).
  assert (Hkeep : scheduler.entries w2 = scheduler.entries w1
                  /\ scheduler.executors w2 = scheduler.executors w1).
  { subst w2. destruct hasImmediateTasks; [apply submitRunOnStart_keeps | done]. }
  destruct Hkeep as [Hent2 Hex2].
  rewrite Htasks.
  destruct (addScheduledTasks_stops exec accLog before after bad err w2
              Hen Hsched Hbad Hgood) as (w3 & Hrun & Hent3 & Hex3 & _ & Hlog).
  rewrite Hrun.
  assert (Hlook : scheduler.executors w3 !! exec = Some ex).
  { rewrite Hex3, Hex2, Hex1. subst exec.
    rewrite lookup_app_r by done. by rewrite Nat.sub_diag. }
  destruct (onExecutor_Stop exec ex w3 Hlook) as [Hstop Hevs].
  eexists. split; [reflexivity|]. split; [|split].
  - destruct (onExecutor_keeps exec executor.Stop w3) as [_ He]. rewrite He.
    by rewrite Hent3, Hent2, Hent1.
  - apply Hevs. by apply last_Some_elem_of.
  - exact Hstop.
Qed.

(** The first loop over the tasks sees a scheduled task wherever it is. *)
Lemma scanTasks_scheduled (tasks : list TaskConfig.t) (t : TaskConfig.t) :
  t ∈ tasks ->
  scheduler.isTaskEnabled t = true ->
  TaskConfig.Schedule t ≠ "" ->
  snd (scheduler.scanTasks tasks) = true.
Proof.
  intros Hin Hen Hs. unfold scheduler.scanTasks.
  assert (Hmono : forall l hi,
             snd (foldl (fun '(hasImmediateTasks, hasScheduledTasks) task =>
                           if negb (scheduler.isTaskEnabled task)
                           then (hasImmediateTasks, hasScheduledTasks)
                           else
                             (if TaskConfig.RunOnStart task then true
                              else hasImmediateTasks,
                              if nonEmpty (TaskConfig.Schedule task) then true
                              else hasScheduledTasks))
                        (hi, true) l) = true).
  { induction l as [|x l IH]; intros hi; simpl; [done|].
    destruct (negb (scheduler.isTaskEnabled x)); [apply IH|].
    destruct (nonEmpty (TaskConfig.Schedule x)); apply IH. }
  generalize false at 1. generalize false.
  induction tasks as [|x tasks IH]; intros hs hi; [by apply elem_of_nil in Hin|].
  apply elem_of_cons in Hin as [<-|Hin]; simpl.
  - rewrite Hen. simpl. unfold nonEmpty. rewrite bool_decide_eq_true_2 by done.
    apply Hmono.
  - destruct (negb (scheduler.isTaskEnabled x)); by apply IH.
Qed.

(** What the registration loop does at a malformed schedule expression,
    for every account: at the task k that carries it the failure is logged
    and the registration of the account ends; the entries of the tasks
    before k are in the scheduler, none of the tasks k+1..N is, and the
    executor of the account is stopped. [RunTasks] goes on to the next
    account. *)
Theorem malformed_schedule_ends_registration
        (cfg : Config.t) (log : Logger) (acc : AccountConfig.t)
        (before after : list TaskConfig.t) (bad : TaskConfig.t) (err : error)
        (appID : Z) (appHash : string) (hasAnyScheduled : bool)
        (w : scheduler.World) :
  let sessionName := scheduler.sessionName_of acc in
  let sessionFile := sessionName +:+ ".session" in
  let accLog := scheduler.accLog_of log (scheduler.formatAccountLabel acc sessionName)
                                    sessionName in
  let exec := length (scheduler.executors w) in
  AccountConfig.Tasks acc = before ++ bad :: after ->
  scheduler.isTaskEnabled bad = true ->
  TaskConfig.Schedule bad ≠ "" ->
  scheduler.cronParse env (TaskConfig.Schedule bad) = Some err ->
  (forall t, t ∈ scheduledTasks before ->
             scheduler.cronParse env (TaskConfig.Schedule t) = None) ->
  scheduler.resolveAppConfig cfg acc = Ok (appID, appHash) ->
  scheduler.factory env appID appHash sessionFile
    (fst (scheduler.resolveReplyConfig cfg acc TaskConfig.zero))
    (snd (scheduler.resolveReplyConfig cfg acc TaskConfig.zero)) = None ->
  scheduler.clientRun env sessionFile = None ->
  scheduler.AuthInRun env (AccountConfig.Phone acc) (AccountConfig.Password acc) = None ->
  exists w',
    scheduler.runAccount env cfg log acc hasAnyScheduled w = (true, w')
    /\ scheduler.entries w' = scheduler.entries w ++ entriesFor exec accLog before
    /\ scheduleFailedEvent accLog err (TaskConfig.Schedule bad) ∈ scheduler.logged w'
    /\ exists ex, scheduler.executors w' !! exec = Some ex
                  /\ executor.closed (executor.taskQueue ex) = true
                  /\ executor.cancelled ex = true.
Proof.
  intros sessionName sessionFile accLog exec
         Htasks Hen Hsched Hbad Hgood Happ Hfac Hrun Hauth.
  unfold scheduler.runAccount.
  fold sessionName. fold sessionFile. fold accLog.
  assert (Hscan : snd (scheduler.scanTasks (AccountConfig.Tasks acc)) = true).
  { apply (scanTasks_scheduled _ bad); [|done|done].
    rewrite Htasks. apply elem_of_app. right. by left. }
  destruct (scheduler.scanTasks (AccountConfig.Tasks acc)) as [hi hs].
  simpl in Hscan. subst hs.
  rewrite andb_false_r. rewrite Happ.
  destruct (scheduler.resolveReplyConfig cfg acc TaskConfig.zero) as [rw rh].
  simpl in Hfac. rewrite Hfac, Hrun.
  destruct (daemonSession_malformed_schedule cfg acc sessionFile accLog
              (scheduler.formatAccountLabel acc sessionName) hi
              before after bad err w Hauth Htasks Hen Hsched Hbad Hgood)
    as (w' & Hsess & Hrest).
  exists w'. rewrite Hsess. split; [reflexivity | exact Hrest].
Qed.
(** An entry whose executor has been stopped cannot fire: unless the
    context is done, the submission of its closure is a send on a closed
    channel. After a failed registration this is the state of the entries
    of the account that were registered before the malformed one. *)
Lemma fire_into_stopped_executor (en : scheduler.ScheduleEntry)
      (ex : executor.TaskExecutor) (w : scheduler.World) :
  scheduler.executors w !! scheduler.entry_exec en = Some ex ->
  executor.closed (executor.taskQueue ex) = true ->
  fst (scheduler.ask w) = false ->
  scheduler.fire en w = None.
Proof.
  intros Hex Hclosed Hask. unfold scheduler.fire.
  destruct (ask_keeps w) as (_ & _ & Hx & _).
  destruct (scheduler.ask w) as [done w1]. simpl in *. subst done.
  by rewrite Hx, Hex, Hclosed.
Qed.
End Orchestration.

Lemma disabled_task_never_scheduled_nor_submitted_witness :
  let on := taskWith "t1" "message" "0 8 * * *" None true in
  let off := taskWith "t2" "message" "@every 1h" (Some false) true in
  let cfg := Config.mk [AccountConfig.mk "acme" "+100" "" 0 "" 0 0 0 0 [on; off]]
                       "" 12345 "hash" 0 0 LogConfig.zero "" in
  let daemon := snd (scheduler.RunTasks sampleEnv cfg mainLogger
                                        (scheduler.initWorld [true])) in
  let once := snd (scheduler.runTasksOnce sampleEnv cfg mainLogger
                                          (scheduler.initWorld [false; true])) in
  TaskConfig.Enabled off = Some false
  /\ scheduler.entry_task <$> scheduler.entries daemon = [on]
  /\ scheduler.sub_task <$> scheduler.submitted daemon = [on]
  /\ scheduler.sub_task <$> scheduler.submitted once = [on]
  /\ (forall en, en ∈ scheduler.entries daemon -> scheduler.entry_task en ≠ off)
  /\ (forall s, s ∈ scheduler.submitted daemon -> scheduler.sub_task s ≠ off)
  /\ (forall s, s ∈ scheduler.submitted once -> scheduler.sub_task s ≠ off).
Proof.
  intros on off cfg daemon once.
  assert (Hoff : TaskConfig.Enabled off = Some false) by reflexivity.
  destruct (disabled_task_never_scheduled_nor_submitted
              sampleEnv cfg mainLogger [true] off Hoff) as (Hde & Hds & _).
  destruct (disabled_task_never_scheduled_nor_submitted
              sampleEnv cfg mainLogger [false; true] off Hoff) as (_ & _ & _ & _ & Hos).
  split; [exact Hoff |].
  split; [vm_compute; reflexivity |].
  split; [vm_compute; reflexivity |].
  split; [vm_compute; reflexivity |].
  split; [exact Hde |]. split; [exact Hds | exact Hos].
Defined.

Lemma malformed_schedule_ends_registration_witness :
  let t0 := taskWith "t0" "message" "@every 12h" None false in
  let t1 := taskWith "t1" "message" "not-a-cron" (Some true) false in
  let t2 := taskWith "t2" "message" "0 8 * * *" (Some true) false in
  let acc := AccountConfig.mk "acme" "+100" "" 0 "" 0 0 0 0 [t0; t1; t2] in
  let cfg := Config.mk [acc] "" 12345 "hash" 0 0 LogConfig.zero "" in
  let accLog := scheduler.accLog_of mainLogger "acme(+100)" "+100" in
  scheduler.isTaskEnabled t1 = true
  /\ sampleParse (TaskConfig.Schedule t1) = Some (External "expected exactly 5 fields")
  /\ scheduler.isTaskEnabled t2 = true
  /\ sampleParse (TaskConfig.Schedule t2) = None
  /\ exists w',
      scheduler.runAccount sampleEnv cfg mainLogger acc false (scheduler.initWorld [])
      = (true, w')
      /\ scheduler.entries w' = [scheduler.mkEntry "@every 12h" t0 0 accLog].
Proof.
  intros t0 t1 t2 acc cfg accLog.
  split; [reflexivity |]. split; [reflexivity |].
  split; [reflexivity |]. split; [reflexivity |].
  assert (Hgood : forall t, t ∈ scheduledTasks [t0] ->
                            scheduler.cronParse sampleEnv (TaskConfig.Schedule t) = None).
  { intros t Ht. change (scheduledTasks [t0]) with [t0] in Ht.
    apply list_elem_of_singleton in Ht. subst t. reflexivity. }
  destruct (malformed_schedule_ends_registration sampleEnv cfg mainLogger acc
              [t0] [t2] t1 (External "expected exactly 5 fields") 12345 "hash" false
              (scheduler.initWorld [])
              eq_refl eq_refl ltac:(discriminate) eq_refl Hgood
              eq_refl eq_refl eq_refl eq_refl)
    as (w' & Hrun & Hent & _).
  exists w'. split; [exact Hrun | exact Hent].
Defined.

(** The account [acme] with two enabled scheduled tasks, where the
    expression of the first is malformed and that of the second is valid.
    After [RunTasks] the second task has no schedule entry: the scheduler
    holds none at all. *)
Lemma malformed_schedule_drops_later_tasks :
  let t1 := taskWith "t1" "message" "not-a-cron" (Some true) false in
  let t2 := taskWith "t2" "message" "0 8 * * *" (Some true) false in
  let cfg := Config.mk [AccountConfig.mk "acme" "+100" "" 0 "" 0 0 0 0 [t1; t2]]
                       "" 12345 "hash" 0 0 LogConfig.zero "" in
  let w := snd (scheduler.RunTasks sampleEnv cfg mainLogger (scheduler.initWorld [])) in
  scheduler.isTaskEnabled t2 = true
  /\ TaskConfig.Schedule t2 ≠ ""
  /\ scheduler.cronParse sampleEnv (TaskConfig.Schedule t2) = None
  /\ scheduler.entries w = []
  /\ (scheduleFailedEvent
        (scheduler.accLog_of mainLogger "acme(+100)" "+100")
        (External "expected exactly 5 fields") "not-a-cron") ∈ scheduler.logged w.
Proof.
  intros t1 t2 cfg w.
  split; [reflexivity |]. split; [discriminate |]. split; [reflexivity |].
  split; [vm_compute; reflexivity |].
  assert (Hlog : scheduler.logged w !! 1%nat
                 = Some (scheduleFailedEvent
                           (scheduler.accLog_of mainLogger "acme(+100)" "+100")
                           (External "expected exactly 5 fields") "not-a-cron"))
    by (vm_compute; reflexivity).
  eapply list_elem_of_lookup_2. exact Hlog.
Qed.

(** C2. The code at the failing input: the account [acme] with three
    enabled scheduled tasks, the second of which has a malformed
    expression. [RunTasks] logs the failure of the second task and leaves
    the loop: the third task, whose expression is valid, gets no schedule
    entry. The executor of the account is stopped by the deferred [Stop]
    while the entry of the first task stays in the scheduler, which is
    started; when that entry fires, its submission is a send on a closed
    channel. *)
Theorem malformed_schedule_aborts_registration :
  let t1 := taskWith "t1" "message" "0 8 * * *" (Some true) false in
  let t2 := taskWith "t2" "message" "not-a-cron" (Some true) false in
  let t3 := taskWith "t3" "message" "@every 12h" (Some true) false in
  let acc := AccountConfig.mk "acme" "+100" "" 0 "" 0 0 0 0 [t1; t2; t3] in
  let cfg := Config.mk [acc] "" 12345 "hash" 0 0 LogConfig.zero "" in
  let accLog := scheduler.accLog_of mainLogger "acme(+100)" "+100" in
  let r := scheduler.RunTasks sampleEnv cfg mainLogger (scheduler.initWorld []) in
  (scheduler.isTaskEnabled t3 = true
   /\ scheduler.cronParse sampleEnv (TaskConfig.Schedule t3) = None)
  /\ fst r = None
  /\ scheduler.entries (snd r) = [scheduler.mkEntry "0 8 * * *" t1 0 accLog]
  /\ scheduleFailedEvent accLog (External "expected exactly 5 fields") "not-a-cron"
     ∈ scheduler.logged (snd r)
  /\ scheduler.started (snd r) = true
  /\ (fun ex => executor.closed (executor.taskQueue ex))
       <$> scheduler.executors (snd r) = [true]
  /\ scheduler.fire (scheduler.mkEntry "0 8 * * *" t1 0 accLog) (snd r) = None.
Proof.
  intros t1 t2 t3 acc cfg accLog r.
  split; [split; reflexivity|]. split; [reflexivity|].
  split; [vm_compute; reflexivity|]. split.
  { assert (Hlog : scheduler.logged (snd r) !! 2%nat
                   = Some (scheduleFailedEvent accLog
                             (External "expected exactly 5 fields") "not-a-cron"))
      by (vm_compute; reflexivity).
    eapply list_elem_of_lookup_2. exact Hlog. }
  split; [vm_compute; reflexivity|]. split; vm_compute; reflexivity.
Qed.

(** With a valid task before the malformed one, the entry of the valid
    task stays in the scheduler, the scheduler is started, and the entry
    fires into the stopped executor. *)
Example fire_after_failed_registration :
  let t0 := taskWith "t0" "message" "@every 12h" None false in
  let t1 := taskWith "t1" "message" "not-a-cron" (Some true) false in
  let acc := AccountConfig.mk "acme" "+100" "" 0 "" 0 0 0 0 [t0; t1] in
  let cfg := Config.mk [acc] "" 12345 "hash" 0 0 LogConfig.zero "" in
  let w := snd (scheduler.RunTasks sampleEnv cfg mainLogger (scheduler.initWorld [])) in
  scheduler.entry_task <$> scheduler.entries w = [t0]
  /\ scheduler.started w = true
  /\ fireAll (scheduler.entries w) w = None.
Proof. vm_compute. repeat split; reflexivity. Qed.

(** ** More properties of the merge of configurations *)

(** *** The positional merges *)

Lemma padMerge_length {A : Type} (f : A -> A -> A) (base override : list A) :
  length (padMerge f base override) = Nat.max (length base) (length override).
Proof.
  revert override. induction base as [|b base IH]; intros [|o override]; simpl; auto.
Qed.

Lemma padMerge_by_index {A : Type} (f : A -> A -> A) (zero : A) (base override : list A) :
  (fun i => match base !! i, override !! i with
            | Some b, Some o => f b o
            | Some b, None => b
            | None, Some o => o
            | None, None => zero
            end) <$> seq 0 (Nat.max (length base) (length override))
  = padMerge f base override.
Proof.
  revert override. induction base as [|b base IH]; intros override.
  - simpl. induction override as [|o override IHo]; [done|].
    simpl. f_equal. rewrite <- fmap_S_seq, <- list_fmap_compose. exact IHo.
  - destruct override as [|o override].
    + simpl. f_equal. rewrite <- fmap_S_seq, <- list_fmap_compose.
      specialize (IH []). rewrite Nat.max_0_r in IH.
      destruct base; [done|]. etrans; [|exact IH]. done.
    + simpl. f_equal. rewrite <- fmap_S_seq, <- list_fmap_compose. apply IH.
Qed.

Lemma padMerge_lookup_both {A : Type} (f : A -> A -> A) (base override : list A)
      (i : nat) (b o : A) :
  base !! i = Some b -> override !! i = Some o ->
  padMerge f base override !! i = Some (f b o).
Proof.
  revert override i. induction base as [|x base IH]; intros override i Hb Ho.
  - by rewrite lookup_nil in Hb.
  - destruct override as [|y override]; [by rewrite lookup_nil in Ho|].
    destruct i as [|i]; simpl in *; [congruence|]. by apply IH.
Qed.

Lemma padMerge_lookup_base {A : Type} (f : A -> A -> A) (base override : list A)
      (i : nat) :
  (length override <= i)%nat -> padMerge f base override !! i = base !! i.
Proof.
  revert override i. induction base as [|x base IH]; intros override i Hi.
  - simpl. rewrite lookup_nil. by apply lookup_ge_None_2.
  - destruct override as [|y override]; [done|].
    destruct i as [|i]; simpl in *; [lia|]. apply IH. lia.
Qed.

Lemma padMerge_lookup_override {A : Type} (f : A -> A -> A) (base override : list A)
      (i : nat) :
  (length base <= i)%nat -> padMerge f base override !! i = override !! i.
Proof.
  revert override i. induction base as [|x base IH]; intros override i Hi.
  - done.
  - destruct override as [|y override].
    + simpl. rewrite lookup_nil. by apply lookup_ge_None_2.
    + destruct i as [|i]; simpl in *; [lia|]. apply IH. lia.
Qed.

Lemma padMerge_self {A : Type} (f : A -> A -> A) (l : list A) :
  (forall x, f x x = x) -> padMerge f l l = l.
Proof. intros Hf. induction l as [|x l IH]; simpl; [done|]. by rewrite Hf, IH. Qed.

(** The loop of [mergeTasks], from any intermediate state. *)
Lemma mergeTasks_from (base override merged : list TaskConfig.t) (l : list nat) :
  foldl (fun merged i =>
           let hasBase := bool_decide (i < length base)%nat in
           let hasOverride := bool_decide (i < length override)%nat in
           let b := if hasBase then default TaskConfig.zero (base !! i)
                    else TaskConfig.zero in
           let o := if hasOverride then default TaskConfig.zero (override !! i)
                    else TaskConfig.zero in
           if hasBase && hasOverride then merged ++ [config.mergeTask b o]
           else if hasBase then merged ++ [b]
           else merged ++ [o]) merged l
  = merged ++ ((fun i => match base !! i, override !! i with
                         | Some b, Some o => config.mergeTask b o
                         | Some b, None => b
                         | None, Some o => o
                         | None, None => TaskConfig.zero
                         end) <$> l).
Proof.
  revert merged. induction l as [|i l IH]; intros merged; simpl.
  - by rewrite app_nil_r.
  - rewrite IH.
    destruct (base !! i) as [b|] eqn:Hb; destruct (override !! i) as [o|] eqn:Ho.
    all: try apply lookup_lt_Some in Hb as Hb';
         try apply lookup_lt_Some in Ho as Ho';
         try apply lookup_ge_None in Hb as Hb';
         try apply lookup_ge_None in Ho as Ho'.
    all: repeat case_bool_decide; try lia; simpl; by rewrite <- app_assoc.
Qed.

Lemma mergeTasks_padMerge (base override : list TaskConfig.t) :
  config.mergeTasks base override = padMerge config.mergeTask base override.
Proof.
  unfold config.mergeTasks. rewrite mergeTasks_from. simpl. apply padMerge_by_index.
Qed.

Lemma mergeAccountsByIndex_padMerge (base override : list AccountConfig.t) :
  config.mergeAccountsByIndex base override
  = padMerge config.mergeAccount base override.
Proof.
  unfold config.mergeAccountsByIndex. rewrite mergeAccountsByIndex_from. simpl.
  apply padMerge_by_index.
Qed.

(** X1. [mergeTasks] merges by position and pads with the longer list:
    the result is as long as the longer of the two lists; at a position
    both lists have, it holds the merge of the two tasks; beyond the end of
    the override it holds the base task, beyond the end of the base the
    override task, unchanged. *)
Theorem mergeTasks_positional_padding (base override : list TaskConfig.t) :
  config.mergeTasks base override = padMerge config.mergeTask base override
  /\ length (config.mergeTasks base override)
     = Nat.max (length base) (length override)
  /\ (forall i b o, base !! i = Some b -> override !! i = Some o ->
        config.mergeTasks base override !! i = Some (config.mergeTask b o))
  /\ (forall i, (length override <= i)%nat ->
        config.mergeTasks base override !! i = base !! i)
  /\ (forall i, (length base <= i)%nat ->
        config.mergeTasks base override !! i = override !! i).
Proof.
  rewrite mergeTasks_padMerge. split; [done|]. split; [apply padMerge_length|].
  split; [|split].
  - intros i b o. apply padMerge_lookup_both.
  - intros i. apply padMerge_lookup_base.
  - intros i. apply padMerge_lookup_override.
Qed.

(** X2. [mergeAccountsByIndex], taken by itself, pads in the same way: it
    accepts lists of different lengths and keeps the accounts the shorter
    list has no partner for. (Its only caller, [mergeAccounts], hands it
    lists of the same length.) *)
Theorem mergeAccountsByIndex_positional_padding (base override : list AccountConfig.t) :
  config.mergeAccountsByIndex base override
  = padMerge config.mergeAccount base override
  /\ length (config.mergeAccountsByIndex base override)
     = Nat.max (length base) (length override)
  /\ (forall i b o, base !! i = Some b -> override !! i = Some o ->
        config.mergeAccountsByIndex base override !! i
        = Some (config.mergeAccount b o))
  /\ (forall i, (length override <= i)%nat ->
        config.mergeAccountsByIndex base override !! i = base !! i)
  /\ (forall i, (length base <= i)%nat ->
        config.mergeAccountsByIndex base override !! i = override !! i).
Proof.
  rewrite mergeAccountsByIndex_padMerge. split; [done|].
  split; [apply padMerge_length|]. split; [|split].
  - intros i b o. apply padMerge_lookup_both.
  - intros i. apply padMerge_lookup_base.
  - intros i. apply padMerge_lookup_override.
Qed.

(** *** Merging a configuration with itself *)

Lemma mergeTask_self (t : TaskConfig.t) : config.mergeTask t t = t.
Proof.
  rewrite mergeTask_fields. destruct t as [n tg m p s e r w h].
  unfold sparse, isSet, id; simpl.
  destruct (nonEmpty tg), (nonEmpty m), (nonEmpty p), (nonEmpty s), e, r; reflexivity.
Qed.

Lemma zip_with_self {A : Type} (f : A -> A -> A) (l : list A) :
  (forall x, f x x = x) -> zip_with f l l = l.
Proof. intros Hf. induction l as [|x l IH]; simpl; [done|]. by rewrite Hf, IH. Qed.

Lemma mergeAccount_self (a : AccountConfig.t) : config.mergeAccount a a = a.
Proof.
  rewrite mergeAccount_fields.
  rewrite mergeTasks_padMerge, padMerge_self by apply mergeTask_self.
  destruct a as [n ph pw id h wc q rw rh ts]. unfold sparse; simpl.
  destruct (nonEmpty n), (nonEmpty ph), (nonEmpty pw), (nonZero id), (nonEmpty h);
    case_bool_decide; reflexivity.
Qed.

Section MergeKeys.
Variable TrimSpace : string -> string.
Abbreviation key := (byName.key TrimSpace).

Lemma lastWithKey_NoDup (l : list AccountConfig.t) (a : AccountConfig.t) :
  NoDup (key <$> l) -> a ∈ l ->
  byName.lastWithKey TrimSpace (key a) l = Some a.
Proof.
  unfold byName.lastWithKey.
  induction l as [|x l IH]; intros Hnd Hin; [by apply elem_of_nil in Hin|].
  rewrite fmap_cons in Hnd. apply NoDup_cons in Hnd as [Hx Hnd].
  rewrite filter_cons. apply elem_of_cons in Hin as [->|Hin].
  - rewrite decide_True by done.
    assert (Hnone : filter (fun o => key o = key x) l = []).
    { destruct (filter (fun o => key o = key x) l) as [|y ys] eqn:Hf; [done|].
      assert (Hy : y ∈ filter (fun o => key o = key x) l) by (rewrite Hf; by left).
      apply list_elem_of_filter in Hy as [Hk Hy]. destruct Hx.
      rewrite <- Hk. apply list_elem_of_fmap. eauto. }
    by rewrite Hnone.
  - rewrite decide_False.
    + by apply IH.
    + intros Heq. apply Hx. rewrite Heq. apply list_elem_of_fmap. eauto.
Qed.

Lemma mergeAccounts_self (accounts : list AccountConfig.t) :
  (Forall (byName.nonBlank TrimSpace) accounts -> NoDup (key <$> accounts)) ->
  config.mergeAccounts TrimSpace accounts accounts = Ok accounts.
Proof.
  intros Hnd. unfold config.mergeAccounts.
  case_bool_decide as Hlen; [done|].
  destruct (config.allAccountsNamed TrimSpace accounts) eqn:Hnamed; simpl.
  - apply allAccountsNamed_true in Hnamed as [_ Hall]. specialize (Hnd Hall).
    rewrite mergeAccountsByName_spec. f_equal.
    unfold byName.merge, byName.mergedBase, byName.overrideOnly.
    assert (Hov : filter (fun o => key o ∉ key <$> accounts) accounts = []).
    { destruct (filter _ accounts) as [|y ys] eqn:Hf; [done|].
      assert (Hy : y ∈ filter (fun o => key o ∉ key <$> accounts) accounts)
        by (rewrite Hf; by left).
      apply list_elem_of_filter in Hy as [Hk Hy]. destruct Hk.
      apply list_elem_of_fmap. eauto. }
    rewrite Hov, app_nil_r.
    etrans; [|apply list_fmap_id].
    apply list_fmap_ext. intros i a Ha. simpl.
    rewrite (lastWithKey_NoDup accounts a Hnd) by (eapply list_elem_of_lookup_2; eauto).
    apply mergeAccount_self.
  - rewrite bool_decide_eq_false_2 by (intros H; by apply H).
    rewrite mergeAccountsByIndex_same_length by done.
    f_equal. apply zip_with_self, mergeAccount_self.
Qed.

(** X3. Merging a configuration with itself gives it back, also for its
    list of accounts, when the names of the accounts (for the merge by name,
    i.e. when every account has a non-blank name) differ from each other. *)
Theorem MergeConfig_self (c : Config.t) :
  (Forall (byName.nonBlank TrimSpace) (Config.Accounts c) ->
   NoDup (key <$> Config.Accounts c)) ->
  config.MergeConfig TrimSpace (Some c) (Some c) = Ok (Some c)
  /\ config.mergeAccounts TrimSpace (Config.Accounts c) (Config.Accounts c)
     = Ok (Config.Accounts c).
Proof.
  intros Hnd. pose proof (mergeAccounts_self (Config.Accounts c) Hnd) as Hacc.
  split; [|exact Hacc]. unfold config.MergeConfig. rewrite Hacc.
  destruct c as [accounts proxy appID appHash rw rh lg lang]. simpl.
  destruct (nonEmpty proxy), (nonZero appID), (nonEmpty appHash);
    case_bool_decide; reflexivity.
Qed.

Lemma mergeAccount_key (b o : AccountConfig.t) :
  key o = key b -> key (config.mergeAccount b o) = key b.
Proof.
  intros Hk. unfold byName.key in *. rewrite mergeAccount_fields. simpl.
  unfold sparse. destruct (nonEmpty (AccountConfig.Name o)); done.
Qed.

Lemma lastWithKey_key (k : string) (l : list AccountConfig.t) (o : AccountConfig.t) :
  byName.lastWithKey TrimSpace k l = Some o -> key o = k /\ o ∈ l.
Proof.
  unfold byName.lastWithKey. intros Hl. apply last_Some_elem_of in Hl.
  by apply list_elem_of_filter in Hl.
Qed.

(** X4. The names in the result of [mergeAccountsByName] are the names of
    the base, in the order of the base, followed by the names that only the
    override has: no name of either list is lost, and when neither list
    repeats a name the result repeats none. *)
Theorem mergeAccountsByName_keys (base override : list AccountConfig.t) :
  let merged := config.mergeAccountsByName TrimSpace base override in
  key <$> merged
  = (key <$> base) ++ (key <$> byName.overrideOnly TrimSpace base override)
  /\ (forall a, a ∈ base -> key a ∈ key <$> merged)
  /\ (forall o, o ∈ override -> key o ∈ key <$> merged)
  /\ (NoDup (key <$> base) -> NoDup (key <$> override) -> NoDup (key <$> merged)).
Proof.
  intros merged.
  assert (Hkeys : key <$> merged
                  = (key <$> base) ++ (key <$> byName.overrideOnly TrimSpace base override)).
  { subst merged. rewrite mergeAccountsByName_spec. unfold byName.merge.
    rewrite fmap_app. f_equal. unfold byName.mergedBase.
    rewrite <- list_fmap_compose. apply list_fmap_ext. intros i b _. simpl.
    destruct (byName.lastWithKey TrimSpace (key b) override) as [o|] eqn:Ho; [|done].
    apply mergeAccount_key. by apply lastWithKey_key in Ho as [? _]. }
  split; [exact Hkeys|]. rewrite Hkeys. split; [|split].
  - intros a Ha. apply elem_of_app. left. apply list_elem_of_fmap. eauto.
  - intros o Ho. apply elem_of_app.
    destruct (decide (key o ∈ key <$> base)) as [Hin|Hout]; [by left|].
    right. apply list_elem_of_fmap. exists o. split; [done|].
    unfold byName.overrideOnly. by apply list_elem_of_filter.
  - intros Hb Ho. apply NoDup_app. split; [done|]. split.
    + intros k Hk Hk'. apply list_elem_of_fmap in Hk' as (o & -> & Hin).
      unfold byName.overrideOnly in Hin. apply list_elem_of_filter in Hin as [Hn _].
      by apply Hn.
    + apply (sublist_NoDup _ (key <$> override)); [exact Ho|].
      apply fmap_sublist. unfold byName.overrideOnly. apply sublist_filter.
Qed.
End MergeKeys.

Lemma MergeConfig_self_witness :
  let c := configOf [accountNamed "a"; accountNamed "b"] "socks5://127.0.0.1:1080" in
  NoDup (byName.key config.TrimSpaceASCII <$> Config.Accounts c)
  /\ config.MergeConfig config.TrimSpaceASCII (Some c) (Some c) = Ok (Some c).
Proof.
  intros c.
  assert (Hnd : NoDup (byName.key config.TrimSpaceASCII <$> Config.Accounts c)).
  { change (NoDup ["a"; "b"]). apply NoDup_cons. split.
    - intros Hin. apply list_elem_of_singleton in Hin. discriminate.
    - apply NoDup_singleton. }
  split; [exact Hnd|].
  exact (proj1 (MergeConfig_self config.TrimSpaceASCII c (fun _ => Hnd))).
Defined.

(** Two accounts of the same name: each base account is merged with the
    last override account of its name, so the first takes the phone number
    of the second and the merge of the list with itself changes it. *)
Example mergeAccounts_self_repeated_name :
  let a1 := AccountConfig.set_Phone "+100" (accountNamed "a") in
  let a2 := AccountConfig.set_Phone "+200" (accountNamed "a") in
  config.mergeAccounts config.TrimSpaceASCII [a1; a2] [a1; a2] = Ok [a2; a2].
Proof. vm_compute. reflexivity. Qed.

(** X5. [MergeConfig] fails in one case only: both configurations are
    given, the override has accounts, the merge is not by name, and the
    two lists of accounts differ in length; the error then names the two
    lengths. *)
Theorem MergeConfig_fails_only_on_length_mismatch (TrimSpace : string -> string)
        (base override : option Config.t) (e : error) :
  config.MergeConfig TrimSpace base override = Err e
  <-> exists b o,
      base = Some b /\ override = Some o
      /\ Config.Accounts o ≠ []
      /\ ~ (Config.Accounts b ≠ []
            /\ Forall (byName.nonBlank TrimSpace) (Config.Accounts b)
            /\ Forall (byName.nonBlank TrimSpace) (Config.Accounts o))
      /\ length (Config.Accounts b) ≠ length (Config.Accounts o)
      /\ e = AccountsLengthMismatch (length (Config.Accounts b))
                                    (length (Config.Accounts o)).
Proof.
  split.
  - destruct base as [b|], override as [o|]; simpl; try discriminate.
    intros H. exists b, o.
    case_bool_decide as Hlen; [|discriminate].
    assert (Hne : Config.Accounts o ≠ [])
      by (intros Heq; rewrite Heq in Hlen; simpl in Hlen; lia).
    unfold config.mergeAccounts in H.
    rewrite bool_decide_eq_false_2 in H
      by (intros Hl; apply length_zero_iff_nil in Hl; done).
    destruct (config.allAccountsNamed TrimSpace (Config.Accounts b)
              && config.allAccountsNamed TrimSpace (Config.Accounts o)) eqn:Hn;
      [discriminate|].
    case_bool_decide as Hmis; [|discriminate].
    injection H as <-. repeat split; try done.
    intros (Hb & Hfb & Hfo).
    assert (config.allAccountsNamed TrimSpace (Config.Accounts b)
            && config.allAccountsNamed TrimSpace (Config.Accounts o) = true).
    { rewrite andb_true_iff, !allAccountsNamed_true. tauto. }
    congruence.
  - intros (b & o & -> & -> & Hne & Hnot & Hlen & ->). simpl.
    rewrite bool_decide_eq_true_2
      by (destruct (Config.Accounts o); [done | simpl; lia]).
    unfold config.mergeAccounts.
    rewrite bool_decide_eq_false_2
      by (intros Hl; apply length_zero_iff_nil in Hl; done).
    destruct (config.allAccountsNamed TrimSpace (Config.Accounts b)
              && config.allAccountsNamed TrimSpace (Config.Accounts o)) eqn:Hn.
    + apply andb_true_iff in Hn as [Hnb Hno].
      apply allAccountsNamed_true in Hnb, Hno. tauto.
    + by rewrite bool_decide_eq_true_2.
Qed.

(** ** More properties of the account settings *)

(** X6. [resolveAppConfig] takes each of the two values from the account
    and, where the account has none, from the configuration; it fails, with
    the one error it has, exactly when one of the two values is missing at
    both levels, and what it returns without error is never zero or empty. *)
Theorem resolveAppConfig_account_over_global (cfg : Config.t) (acc : AccountConfig.t) :
  (forall appID appHash,
      scheduler.resolveAppConfig cfg acc = Ok (appID, appHash) ->
      appID ≠ 0 /\ appHash ≠ ""
      /\ appID = sparse nonZero (Config.AppID cfg) (AccountConfig.AppID acc)
      /\ appHash = sparse nonEmpty (Config.AppHash cfg) (AccountConfig.AppHash acc))
  /\ (forall e, scheduler.resolveAppConfig cfg acc = Err e -> e = MissingAppConfig)
  /\ (scheduler.resolveAppConfig cfg acc = Err MissingAppConfig
      <-> (AccountConfig.AppID acc = 0 /\ Config.AppID cfg = 0)
          \/ (AccountConfig.AppHash acc = "" /\ Config.AppHash cfg = "")).
Proof.
  unfold scheduler.resolveAppConfig, sparse, nonZero, nonEmpty.
  split; [|split].
  - intros appID appHash.
    repeat case_bool_decide; simpl; intros Hr; try discriminate;
      injection Hr as <- <-; repeat split; congruence.
  - intros e. repeat case_bool_decide; simpl; intros Hr; congruence.
  - repeat case_bool_decide; simpl; split; intros Hr;
      try discriminate; try reflexivity; try tauto;
      try (destruct Hr as [[? ?]|[? ?]]; congruence).
Qed.

Lemma app_nonempty_l (a b : string) : a ≠ "" -> a +:+ b ≠ "".
Proof. destruct a; [done | discriminate]. Qed.

(** X7. The label of an account is never empty. With the session name the
    two callers compute (the phone number, or "session_" and the
    application id when there is none) the label is the name with the
    phone number in brackets, the name alone, or the session name: the
    fallback "unknown_account" is not reached. *)
Theorem formatAccountLabel_never_empty (acc : AccountConfig.t) :
  (forall sessionName, scheduler.formatAccountLabel acc sessionName ≠ "")
  /\ scheduler.sessionName_of acc ≠ ""
  /\ scheduler.formatAccountLabel acc (scheduler.sessionName_of acc)
     = if nonEmpty (AccountConfig.Name acc) && nonEmpty (AccountConfig.Phone acc)
       then AccountConfig.Name acc +:+ "(" +:+ AccountConfig.Phone acc +:+ ")"
       else if nonEmpty (AccountConfig.Name acc) then AccountConfig.Name acc
       else scheduler.sessionName_of acc.
Proof.
  unfold scheduler.formatAccountLabel, scheduler.sessionName_of, nonEmpty.
  split; [|split].
  - intros sessionName.
    repeat case_bool_decide; simpl; try done. by apply app_nonempty_l.
  - case_bool_decide; [done | discriminate].
  - repeat case_bool_decide; simpl; try done.
Qed.

(** ** More properties of the executor *)

Lemma executeTaskWithLogger_known (task : TaskConfig.t) (taskLogger : Logger)
      (st : executor.State) :
  TaskConfig.Method task = "message" \/ TaskConfig.Method task = "button" ->
  exists call,
    executor.executeTaskWithLogger task taskLogger st
    = (executor.client (executor.exec st) (executor.called st) call,
       executor.mkState (executor.exec st) (executor.logged st)
                        (executor.called st ++ [call]))
    /\ callSummary call
       = (TaskConfig.Method task, TaskConfig.Target task, TaskConfig.Payload task)
    /\ callLogger call = taskLogger.
Proof.
  unfold executor.executeTaskWithLogger.
  intros [Hm|Hm]; rewrite Hm; simpl; eexists; repeat split; reflexivity.
Qed.

Section WorkerRuns.
Variable fs : string -> string -> string -> string -> option error.

Lemma executeTask_known (req : executor.TaskRequest) (st : executor.State) :
  knownMethod req ->
  let st' := executor.executeTask fs req st in
  exists call,
    executor.called st' = executor.called st ++ [call]
    /\ callSummary call = dispatchOf req
    /\ executor.exec st' = executor.exec st
    /\ last (executor.logged st')
       = Some match executor.client (executor.exec st) (executor.called st) call with
              | None => taskCompletedEvent req
              | Some err => taskFailedEvent req err
              end.
Proof.
  intros Hknown st'. subst st'. unfold executor.executeTask.
  fold (taskNameOf req).
  destruct (logger.CreateTaskLogger _ _ _ _ _ _) as [l|err]; cbv beta iota zeta.
  all: match goal with
       | |- context [executor.executeTaskWithLogger ?t ?lg ?s] =>
           destruct (executeTaskWithLogger_known t lg s Hknown)
             as (call & -> & Hsum & _)
       end.
  all: exists call; cbn [executor.called executor.exec executor.logged executor.emit].
  all: destruct (executor.client _ _ call);
       cbn [executor.called executor.exec executor.logged executor.emit];
       (split; [reflexivity|]); (split; [exact Hsum|]); (split; [reflexivity|]);
       by rewrite last_snoc.
Qed.

(** X8. A request whose method is "message" or "button" makes exactly one
    call on the client, the operation of that name with the target and the
    payload of the task; the executor is left as it was, and the last
    event, on the logger of the request, reports the success or the error
    the client answered. *)
Theorem executeTask_known_method (req : executor.TaskRequest) (st : executor.State) :
  knownMethod req ->
  let st' := executor.executeTask fs req st in
  exists call,
    executor.called st' = executor.called st ++ [call]
    /\ callSummary call = dispatchOf req
    /\ executor.exec st' = executor.exec st
    /\ last (executor.logged st')
       = Some match executor.client (executor.exec st) (executor.called st) call with
              | None => taskCompletedEvent req
              | Some err => taskFailedEvent req err
              end.
Proof. exact (executeTask_known req st). Qed.

(** X9. When the log file of the task cannot be created, [executeTask]
    reports it on the log of the executor and goes on with the logger of the
    request in the place of the file logger: the start event and the call on
    the client carry the logger derived from it. *)
Theorem executeTask_log_file_failure (req : executor.TaskRequest)
        (st : executor.State) (err : error) :
  let e := executor.exec st in
  logger.CreateTaskLogger fs (executor.logDir e) (executor.accountName e)
                          (taskNameOf req) (executor.TriggerType req)
                          (executor.logFormat e) = Err err ->
  let st' := executor.executeTask fs req st in
  let taskLog := taskLogOf req (executor.Logger_ req) in
  (exists rest,
      executor.logged st'
      = executor.logged st
        ++ logFileFailedEvent e req err
           :: mkEvent taskLog InfoLevel []
                      (executor.startMsg (executor.TriggerType req))
           :: rest)
  /\ (knownMethod req ->
      exists call, executor.called st' = executor.called st ++ [call]
                   /\ callSummary call = dispatchOf req
                   /\ callLogger call = taskLog).
Proof.
  intros e Hfail st' taskLog. subst st'. unfold executor.executeTask.
  fold (taskNameOf req). fold e. rewrite Hfail. cbv beta iota zeta.
  fold (taskLogOf req (executor.Logger_ req)). fold taskLog. split.
  - destruct (executor.executeTaskWithLogger _ _ _) as [[err'|] st1] eqn:Hrun.
    all: assert (Hlog : executor.logged st1
                        = executor.logged
                            (executor.emit (executor.Logger_ req) DebugLevel
                               [("thread_id", IntField (executor.WorkerID req));
                                ("thread_name", StrField (taskNameOf req));
                                ("task", StrField (taskNameOf req))]
                               (executor.startMsg (executor.TriggerType req))
                               (executor.emit taskLog InfoLevel []
                                  (executor.startMsg (executor.TriggerType req))
                                  (executor.emit (executor.log e) ErrorLevel
                                     [("error", ErrField err);
                                      ("task", StrField (taskNameOf req))]
                                     "Failed to create task log file, using main log"
                                     st))))
         by (revert Hrun; unfold executor.executeTaskWithLogger;
             repeat case_bool_decide; intros Hrun; injection Hrun as _ <-;
             reflexivity).
    all: cbn [executor.logged executor.emit] in *; rewrite Hlog.
    all: eexists; rewrite <- !app_assoc; simpl; reflexivity.
  - intros Hknown.
    match goal with
    | |- context [executor.executeTaskWithLogger ?t ?lg ?s] =>
        destruct (executeTaskWithLogger_known t lg s Hknown)
          as (call & -> & Hsum & Hlg)
    end.
    exists call. destruct (executor.client _ _ call);
      cbn [executor.called executor.exec executor.logged executor.emit];
      repeat split; done.
Qed.

Lemma worker_turn_looping (ctxDone : bool) (id : Z) (st st1 : executor.State) :
  executor.worker_turn fs ctxDone id st executor.Looping st1 ->
  exists req rest,
    executor.buffer (executor.taskQueue (executor.exec st)) = req :: rest
    /\ st1 = executor.executeTask fs (executor.set_WorkerID id req) (received rest st).
Proof. intros Hturn. inversion Hturn; subst. eauto. Qed.

Lemma executeTask_calls (req : executor.TaskRequest) (st : executor.State) :
  callSummary <$> executor.called (executor.executeTask fs req st)
  = (callSummary <$> executor.called st)
    ++ (dispatchOf <$> filter knownMethod [req]).
Proof.
  destruct (decide (knownMethod req)) as [Hk|Hk].
  - destruct (executeTask_known req st Hk) as (call & Hc & Hs & _).
    rewrite Hc, fmap_app. simpl. rewrite Hs.
    by rewrite filter_cons_True.
  - rewrite filter_cons_False by done. simpl. rewrite app_nil_r. f_equal.
    unfold knownMethod in Hk.
    destruct (executeTask_unknown fs req st) as [Hc _]; [tauto | tauto | exact Hc].
Qed.

(** A worker that is alone at the queue takes the requests oldest
    first: after [n] turns that each received a request, the first [n]
    requests are gone from the queue, the rest is still there in order, and
    the client was called once for each of the [n] requests with a known
    method, in the order of the queue. *)
Lemma worker_run_queue (id : Z) (n : nat) (st st' : executor.State) :
  worker_run fs id st n st' ->
  let queue := executor.buffer (executor.taskQueue (executor.exec st)) in
  (n <= length queue)%nat
  /\ executor.buffer (executor.taskQueue (executor.exec st')) = drop n queue
  /\ callSummary <$> executor.called st'
     = (callSummary <$> executor.called st)
       ++ (dispatchOf <$> filter knownMethod (take n queue))
  /\ executor.capacity (executor.taskQueue (executor.exec st'))
     = executor.capacity (executor.taskQueue (executor.exec st))
  /\ executor.closed (executor.taskQueue (executor.exec st'))
     = executor.closed (executor.taskQueue (executor.exec st)).
Proof.
  induction 1 as [st | st ctxDone st1 n st2 Hturn Hrun IH]; intros queue.
  - subst queue. simpl. rewrite app_nil_r. repeat split; lia.
  - apply worker_turn_looping in Hturn as (req & rest & Hq & ->).
    pose proof (executeTask_exec fs (executor.set_WorkerID id req) (received rest st))
      as Hexec.
    pose proof (executeTask_calls (executor.set_WorkerID id req) (received rest st))
      as Hcalls.
    simpl in IH. rewrite Hexec in IH. simpl in IH.
    destruct IH as (Hn & Hbuf & Hc & Hcap & Hcl).
    subst queue. rewrite Hq. simpl.
    repeat split; try done; [lia|].
    rewrite Hc, Hcalls. simpl. rewrite <- app_assoc. f_equal.
    change (req :: take n rest) with ([req] ++ take n rest).
    rewrite filter_app, fmap_app. f_equal.
    destruct (decide (knownMethod req)) as [Hk|Hk].
    + rewrite !filter_cons_True by exact Hk. reflexivity.
    + rewrite !filter_cons_False by exact Hk. reflexivity.
Qed.

(** X10. A worker that is alone at the queue takes the requests oldest
    first: after [n] turns that each received a request, the first [n]
    requests are gone from the queue, the rest is still there in order, and
    the client was called once for each of the [n] requests with a known
    method, in the order of the queue. *)
Theorem worker_run_fifo (id : Z) (n : nat) (st st' : executor.State) :
  worker_run fs id st n st' ->
  let queue := executor.buffer (executor.taskQueue (executor.exec st)) in
  (n <= length queue)%nat
  /\ executor.buffer (executor.taskQueue (executor.exec st')) = drop n queue
  /\ callSummary <$> executor.called st'
     = (callSummary <$> executor.called st)
       ++ (dispatchOf <$> filter knownMethod (take n queue))
  /\ executor.capacity (executor.taskQueue (executor.exec st'))
     = executor.capacity (executor.taskQueue (executor.exec st))
  /\ executor.closed (executor.taskQueue (executor.exec st'))
     = executor.closed (executor.taskQueue (executor.exec st)).
Proof. exact (worker_run_queue id n st st'). Qed.

(** X11. The queue never holds more than its capacity: a new executor
    starts within it, and a submission, a turn of a worker and [Stop] keep
    it so. *)
Theorem queue_stays_within_capacity :
  (forall client workerCount queueSize log logDir logFormat accountName events calls,
      withinCapacity
        (executor.mkState
           (executor.NewTaskExecutor client workerCount queueSize log
                                     logDir logFormat accountName)
           events calls))
  /\ (forall task logger triggerType st b st',
        withinCapacity st ->
        executor.SubmitTask task logger triggerType st = executor.Returned b st' ->
        withinCapacity st')
  /\ (forall ctxDone id st status st',
        withinCapacity st ->
        executor.worker_turn fs ctxDone id st status st' ->
        withinCapacity st')
  /\ (forall st, withinCapacity st -> withinCapacity (executor.Stop st)).
Proof.
  unfold withinCapacity, executor.QueueLen. split; [|split; [|split]].
  - intros. unfold executor.NewTaskExecutor. simpl. case_bool_decide; lia.
  - intros task logger triggerType st b st' Hin. unfold executor.SubmitTask.
    destruct (executor.closed _); [discriminate|].
    case_bool_decide as Hroom; intros Heq; injection Heq as <- <-; simpl.
    + rewrite length_app. simpl. lia.
    + exact Hin.
  - intros ctxDone id st status st' Hin Hturn.
    inversion Hturn as [s Hd | s Hcan | s Hnil Hcl | s r rs Hbuf]; subst;
      try exact Hin.
    rewrite executeTask_exec. simpl. rewrite Hbuf in Hin. simpl in Hin. lia.
  - intros st Hin. exact Hin.
Qed.

(** X12. Once [Stop] has run, the executor is cancelled and its queue is
    closed, with the capacity it had, and every later [SubmitTask] is a
    send on a closed channel: it panics, whatever the task and however
    much room the queue has. *)
Theorem Stop_makes_SubmitTask_panic (st : executor.State) :
  let st' := executor.Stop st in
  executor.closed (executor.taskQueue (executor.exec st')) = true
  /\ executor.cancelled (executor.exec st') = true
  /\ executor.capacity (executor.taskQueue (executor.exec st'))
     = executor.capacity (executor.taskQueue (executor.exec st))
  /\ (forall task logger triggerType,
        executor.SubmitTask task logger triggerType st'
        = executor.Panicked "send on closed channel")
  /\ (forall subs, subs ≠ [] ->
        executor.submitAll subs st' = executor.Panicked "send on closed channel").
Proof.
  intros st'. split; [done|]. split; [done|]. split; [done|]. split; [done|].
  intros [|[[task logger] triggerType] subs] Hsubs; [done|]. reflexivity.
Qed.
(** Submissions that all fit are all accepted and queued in order. *)
Lemma submitAll_room (subs : list (TaskConfig.t * Logger * string))
      (st : executor.State) :
  executor.closed (executor.taskQueue (executor.exec st)) = false ->
  executor.QueueLen (executor.exec st) + Z.of_nat (length subs)
  ≤ executor.capacity (executor.taskQueue (executor.exec st)) ->
  executor.submitAll subs st
  = executor.Returned (replicate (length subs) true) (enqueued (requestsOf subs) st).
Proof.
  unfold executor.QueueLen.
  revert st. induction subs as [|[[t l] g] subs IH]; intros st Hopen Hcap.
  - simpl. by rewrite enqueued_nil.
  - simpl. rewrite SubmitTask_room by (try done; simpl in Hcap; lia).
    rewrite IH.
    + by rewrite enqueued_app.
    + open_state st. exact Hopen.
    + open_state st. rewrite length_app. simpl. lia.
Qed.

(** A worker can take as many turns as the queue has requests. *)
Lemma worker_run_exists (id : Z) (n : nat) (st : executor.State) :
  (n <= length (executor.buffer (executor.taskQueue (executor.exec st))))%nat ->
  exists st', worker_run fs id st n st'.
Proof.
  revert st. induction n as [|n IH]; intros st Hn.
  - exists st. apply run_done.
  - destruct (executor.buffer (executor.taskQueue (executor.exec st)))
      as [|req rest] eqn:Hq; [simpl in Hn; lia|].
    destruct (IH (executor.executeTask fs (executor.set_WorkerID id req)
                                       (received rest st))) as [st' Hrun].
    { rewrite executeTask_exec. simpl. simpl in Hn. lia. }
    exists st'. eapply (run_turn fs id st false); [|exact Hrun].
    by apply executor.turn_receive.
Qed.

(** X20. Requests submitted to an open executor with an empty queue that
    has room for all of them are all accepted, without a warning; a worker
    alone at the queue can then take one turn for each, and whenever it has
    done so the queue is empty and the client was called once for each
    request with a known method, in the order of the submissions. *)
Theorem submitted_requests_run_in_order (id : Z)
        (subs : list (TaskConfig.t * Logger * string)) (st : executor.State) :
  executor.closed (executor.taskQueue (executor.exec st)) = false ->
  executor.buffer (executor.taskQueue (executor.exec st)) = [] ->
  Z.of_nat (length subs) ≤ executor.capacity (executor.taskQueue (executor.exec st)) ->
  exists st1,
    executor.submitAll subs st
    = executor.Returned (replicate (length subs) true) st1
    /\ executor.logged st1 = executor.logged st
    /\ (exists st2, worker_run fs id st1 (length subs) st2)
    /\ forall st2, worker_run fs id st1 (length subs) st2 ->
         executor.buffer (executor.taskQueue (executor.exec st2)) = []
         /\ callSummary <$> executor.called st2
            = (callSummary <$> executor.called st)
              ++ (dispatchOf <$> filter knownMethod (requestsOf subs)).
Proof.
  intros Hopen Hempty Hcap.
  exists (enqueued (requestsOf subs) st).
  assert (Hq : executor.buffer (executor.taskQueue
                                  (executor.exec (enqueued (requestsOf subs) st)))
               = requestsOf subs).
  { unfold enqueued. simpl. by rewrite Hempty. }
  assert (Hlen : length (requestsOf subs) = length subs)
    by (unfold requestsOf; apply length_fmap).
  split.
  { apply submitAll_room; [done|]. unfold executor.QueueLen. rewrite Hempty.
    simpl. lia. }
  split; [done|]. split.
  { apply worker_run_exists. rewrite Hq, Hlen. done. }
  intros st2 Hrun.
  destruct (worker_run_queue id (length subs) _ st2 Hrun)
    as (_ & Hbuf & Hcalls & _).
  rewrite Hq in Hbuf, Hcalls. rewrite <- Hlen in Hbuf, Hcalls.
  rewrite drop_all in Hbuf. rewrite firstn_all in Hcalls.
  split; [exact Hbuf | exact Hcalls].
Qed.
End WorkerRuns.

Lemma executeTask_known_method_witness :
  let req := executor.mkRequest (taskWith "t1" "button" "" None true)
                                mainLogger "scheduled" 3 in
  let st := executor.mkState
              (executor.NewTaskExecutor silentClient 1 2 mainLogger "" "" "acme")
              [] [] in
  knownMethod req
  /\ exists call,
      executor.called (executor.executeTask fsOk req st) = [call]
      /\ callSummary call = ("button", "@bot", "/checkin").
Proof.
  intros req st.
  assert (Hknown : knownMethod req) by (right; reflexivity).
  split; [exact Hknown|].
  destruct (executeTask_known_method fsOk req st Hknown) as (call & Hc & Hs & _).
  exists call. split; [exact Hc | exact Hs].
Defined.

Lemma executeTask_log_file_failure_witness :
  let req := executor.mkRequest (taskWith "t1" "message" "" None true)
                                mainLogger "once" 3 in
  let st := executor.mkState
              (executor.NewTaskExecutor silentClient 1 2 mainLogger "" "" "acme")
              [] [] in
  logger.CreateTaskLogger fsFull "" "acme" "t1" "once" "text"
  = Err (External "no space left on device")
  /\ executor.logged (executor.executeTask fsFull req st) !! 0%nat
     = Some (logFileFailedEvent (executor.exec st) req
                                (External "no space left on device"))
  /\ exists call,
      executor.called (executor.executeTask fsFull req st) = [call]
      /\ callLogger call = taskLogOf req mainLogger.
Proof.
  intros req st.
  assert (Hfail : logger.CreateTaskLogger fsFull
                    (executor.logDir (executor.exec st))
                    (executor.accountName (executor.exec st))
                    (taskNameOf req) (executor.TriggerType req)
                    (executor.logFormat (executor.exec st))
                  = Err (External "no space left on device")) by reflexivity.
  split; [exact Hfail|].
  destruct (executeTask_log_file_failure fsFull req st _ Hfail) as [[rest Hlog] Hcall].
  split; [rewrite Hlog; reflexivity|].
  destruct (Hcall (or_introl eq_refl)) as (call & Hc & _ & Hlg).
  exists call. split; [exact Hc | exact Hlg].
Defined.

Lemma worker_run_fifo_witness :
  let r1 := executor.mkRequest (taskWith "t1" "message" "" None true)
                               mainLogger "run_on_start" 0 in
  let r2 := executor.mkRequest (taskWith "t2" "dance" "" None true)
                               mainLogger "run_on_start" 0 in
  let r3 := executor.mkRequest (taskWith "t3" "button" "" None true)
                               mainLogger "run_on_start" 0 in
  let st := executor.mkState
              (executor.set_taskQueue (executor.mkChan [r1; r2; r3] 3 false)
                 (executor.NewTaskExecutor silentClient 1 3 mainLogger "" "" "acme"))
              [] [] in
  let st1 := executor.executeTask fsOk (executor.set_WorkerID 7 r1)
                                  (received [r2; r3] st) in
  let st2 := executor.executeTask fsOk (executor.set_WorkerID 7 r2)
                                  (received [r3] st1) in
  worker_run fsOk 7 st 2 st2
  /\ executor.buffer (executor.taskQueue (executor.exec st2)) = [r3]
  /\ callSummary <$> executor.called st2 = [("message", "@bot", "/checkin")].
Proof.
  intros r1 r2 r3 st st1 st2.
  assert (Hrun : worker_run fsOk 7 st 2 st2).
  { apply (run_turn fsOk 7 st false st1 1 st2).
    - apply (executor.turn_receive fsOk false 7 st r1 [r2; r3]). reflexivity.
    - apply (run_turn fsOk 7 st1 false st2 0 st2).
      + apply (executor.turn_receive fsOk false 7 st1 r2 [r3]). reflexivity.
      + apply run_done. }
  split; [exact Hrun|].
  destruct (worker_run_fifo fsOk 7 2 st st2 Hrun) as (_ & Hbuf & Hcalls & _).
  split; [exact Hbuf | exact Hcalls].
Defined.

Lemma submitted_requests_run_in_order_witness :
  let t1 := taskWith "t1" "message" "" None true in
  let t2 := taskWith "t2" "dance" "" None true in
  let t3 := taskWith "t3" "button" "" None true in
  let subs := [(t1, mainLogger, "once"); (t2, mainLogger, "once");
               (t3, mainLogger, "once")] in
  let st := executor.mkState
              (executor.NewTaskExecutor silentClient 1 3 mainLogger "" "" "acme")
              [] [] in
  exists st1 st2,
    executor.submitAll subs st = executor.Returned [true; true; true] st1
    /\ worker_run fsOk 7 st1 3 st2
    /\ callSummary <$> executor.called st2
       = [("message", "@bot", "/checkin"); ("button", "@bot", "/checkin")].
Proof.
  intros t1 t2 t3 subs st.
  destruct (submitted_requests_run_in_order fsOk 7 subs st eq_refl eq_refl
              ltac:(simpl; lia))
    as (st1 & Hsub & _ & [st2 Hrun] & Hall).
  exists st1, st2. split; [exact Hsub|]. split; [exact Hrun|].
  exact (proj2 (Hall st2 Hrun)).
Defined.


(** ** Properties of [sanitizeFilename] *)

Lemma sanitizeFilename_app (a b : string) :
  logger.sanitizeFilename (a +:+ b)
  = logger.sanitizeFilename a +:+ logger.sanitizeFilename b.
Proof.
  induction a as [|c a IH]; simpl; [done|].
  rewrite IH. unfold logger.replaceByte.
  destruct (logger.toUnderscore c); [done|]. destruct (logger.dropped c); done.
Qed.

Lemma replaceByte_kept (c : Ascii.ascii) :
  Forall keptByte (String.list_ascii_of_string (logger.replaceByte c))
  /\ logger.sanitizeFilename (logger.replaceByte c) = logger.replaceByte c.
Proof.
  unfold logger.replaceByte.
  destruct (logger.toUnderscore c) eqn:Hu.
  - split; [repeat constructor | reflexivity].
  - destruct (logger.dropped c) eqn:Hd.
    + split; [constructor | reflexivity].
    + split; [by repeat constructor|]. simpl. unfold logger.replaceByte.
      by rewrite Hu, Hd.
Qed.

Lemma list_ascii_app (a b : string) :
  String.list_ascii_of_string (a +:+ b)
  = String.list_ascii_of_string a ++ String.list_ascii_of_string b.
Proof. induction a as [|c a IH]; simpl; [done|]. by rewrite IH. Qed.

Lemma length_app_string (a b : string) :
  String.length (a +:+ b) = (String.length a + String.length b)%nat.
Proof. induction a as [|c a IH]; simpl; [done|]. by rewrite IH. Qed.

(** X13. The result of [sanitizeFilename] holds none of the twelve bytes
    it replaces or drops (so no path separator), sanitising it again
    changes nothing, it is never longer than the name, and a name without
    these bytes is returned as it is. *)
Theorem sanitizeFilename_safe (name : string) :
  Forall keptByte (String.list_ascii_of_string (logger.sanitizeFilename name))
  /\ logger.sanitizeFilename (logger.sanitizeFilename name)
     = logger.sanitizeFilename name
  /\ (String.length (logger.sanitizeFilename name) <= String.length name)%nat
  /\ (Forall keptByte (String.list_ascii_of_string name) ->
      logger.sanitizeFilename name = name).
Proof.
  induction name as [|c name (IHf & IHi & IHl & IHk)]; simpl.
  - repeat split; [constructor | lia].
  - destruct (replaceByte_kept c) as [Hf Hi].
    rewrite list_ascii_app, sanitizeFilename_app, Hi, IHi, length_app_string.
    split; [by apply Forall_app|]. split; [done|]. split.
    + assert (String.length (logger.replaceByte c) <= 1)%nat.
      { unfold logger.replaceByte.
        destruct (logger.toUnderscore c); [simpl; lia|].
        destruct (logger.dropped c); simpl; lia. }
      lia.
    + intros Hall. apply Forall_cons in Hall as [[Hu Hd] Hall].
      rewrite (IHk Hall). unfold logger.replaceByte. by rewrite Hu, Hd.
Qed.

Example sanitizeFilename_sample :
  logger.sanitizeFilename "my bot/+1 (555): a@b" = "my_bot_1_(555)__ab".
Proof. vm_compute. reflexivity. Qed.

(** ** More properties of the orchestration *)


Section Sessions.
Variable env : scheduler.Env.

Lemma scanTasks_flags (tasks : list TaskConfig.t) :
  scheduler.scanTasks tasks
  = (bool_decide (runOnStartTasks tasks ≠ []), bool_decide (scheduledTasks tasks ≠ [])).
Proof.
  unfold scheduler.scanTasks.
  assert (Hgen : forall l hi hs,
    foldl (fun '(hasImmediateTasks, hasScheduledTasks) task =>
             if negb (scheduler.isTaskEnabled task)
             then (hasImmediateTasks, hasScheduledTasks)
             else
               (if TaskConfig.RunOnStart task then true else hasImmediateTasks,
                if nonEmpty (TaskConfig.Schedule task) then true
                else hasScheduledTasks))
          (hi, hs) l
    = (hi || bool_decide (runOnStartTasks l ≠ []),
       hs || bool_decide (scheduledTasks l ≠ []))).
  { induction l as [|t l IH]; intros hi hs; simpl.
    - by rewrite !orb_false_r.
    - unfold runOnStartTasks, scheduledTasks in *. rewrite !filter_cons.
      destruct (scheduler.isTaskEnabled t) eqn:Hen; simpl.
      + rewrite IH. clear IH.
        assert (Hcons : forall (x : TaskConfig.t) k, bool_decide (x :: k ≠ []) = true)
          by (intros; by apply bool_decide_eq_true_2).
        destruct (TaskConfig.RunOnStart t) eqn:Hr;
          destruct (nonEmpty (TaskConfig.Schedule t)) eqn:Hs;
          unfold nonEmpty in Hs;
          [apply bool_decide_eq_true in Hs | apply bool_decide_eq_false in Hs
          |apply bool_decide_eq_true in Hs | apply bool_decide_eq_false in Hs].
        all: repeat case_decide; try tauto; try (exfalso; intuition congruence).
        all: rewrite ?Hcons, ?orb_true_r; reflexivity.
      + repeat case_decide; try (exfalso; intuition congruence). apply IH. }
  apply Hgen.
Qed.

Lemma submissionsOf_nil (e : nat) (trigger : string) (blocking : bool) :
  submissionsOf e trigger blocking [] [].
Proof. split; [done | constructor]. Qed.

Lemma submissionsOf_cons (e : nat) (trigger : string) (blocking accepted : bool)
      (t : TaskConfig.t) (l : Logger) (tasks : list TaskConfig.t)
      (news : list scheduler.Submission) :
  submissionsOf e trigger blocking tasks news ->
  submissionsOf e trigger blocking (t :: tasks)
    (scheduler.mkSubmission e t l trigger blocking accepted :: news).
Proof.
  intros [Ht Hf]. split; [rewrite fmap_cons; simpl; by rewrite Ht | by constructor].
Qed.


Lemma submitRunOnStart_submitted_only (e : nat) (accLog : Logger)
      (tasks : list TaskConfig.t) (w : scheduler.World) :
  scheduler.entries (scheduler.submitRunOnStart e accLog tasks w) = scheduler.entries w
  /\ scheduler.executors (scheduler.submitRunOnStart e accLog tasks w)
     = scheduler.executors w.
Proof. apply submitRunOnStart_keeps. Qed.


Lemma createExecutor_open (cfg : Config.t) (acc : AccountConfig.t)
      (sessionFile : string) (accLog : Logger) (accountLabel : string)
      (w : scheduler.World) :
  let r := scheduler.createExecutor env cfg acc sessionFile accLog accountLabel w in
  fst r = length (scheduler.executors w)
  /\ scheduler.entries (snd r) = scheduler.entries w
  /\ scheduler.submitted (snd r) = scheduler.submitted w
  /\ exists ex, scheduler.executors (snd r) = scheduler.executors w ++ [ex]
               /\ executor.closed (executor.taskQueue ex) = false
               /\ executor.buffer (executor.taskQueue ex) = []
               /\ 1 ≤ executor.workerCount ex
               /\ 1 ≤ executor.capacity (executor.taskQueue ex).
Proof.
  unfold scheduler.createExecutor, scheduler.newExecutor, scheduler.onExecutor.
  simpl. rewrite lookup_app_r by done. rewrite Nat.sub_diag. simpl.
  repeat split. eexists. split.
  - rewrite insert_app_r_alt by done. rewrite Nat.sub_diag. reflexivity.
  - simpl. repeat split; repeat case_bool_decide; lia.
Qed.



(** X15. An account of which no enabled task runs on start or has a schedule is
    skipped: one information event, and no client, executor, entry or
    submission. *)
Theorem runAccount_skips_account_without_runnable_task
        (cfg : Config.t) (log : Logger) (acc : AccountConfig.t)
        (hasAnyScheduled : bool) (w : scheduler.World) :
  (forall t, t ∈ AccountConfig.Tasks acc ->
             scheduler.isTaskEnabled t = true ->
             TaskConfig.RunOnStart t = false /\ TaskConfig.Schedule t = "") ->
  let sessionName := scheduler.sessionName_of acc in
  scheduler.runAccount env cfg log acc hasAnyScheduled w
  = (hasAnyScheduled,
     scheduler.emit
       (scheduler.accLog_of log (scheduler.formatAccountLabel acc sessionName)
                            sessionName)
       InfoLevel [] "No runnable tasks configured, skipping account" w).
Proof.
  intros Hnone sessionName. unfold scheduler.runAccount. rewrite scanTasks_flags.
  assert (Hr : runOnStartTasks (AccountConfig.Tasks acc) = []).
  { destruct (runOnStartTasks (AccountConfig.Tasks acc)) as [|t l] eqn:Hf; [done|].
    assert (Ht : t ∈ runOnStartTasks (AccountConfig.Tasks acc)) by (rewrite Hf; by left).
    apply list_elem_of_filter in Ht as [[Hen Hro] Hin].
    destruct (Hnone t Hin Hen). congruence. }
  assert (Hs : scheduledTasks (AccountConfig.Tasks acc) = []).
  { destruct (scheduledTasks (AccountConfig.Tasks acc)) as [|t l] eqn:Hf; [done|].
    assert (Ht : t ∈ scheduledTasks (AccountConfig.Tasks acc)) by (rewrite Hf; by left).
    apply list_elem_of_filter in Ht as [[Hen Hsc] Hin].
    destruct (Hnone t Hin Hen). congruence. }
  rewrite Hr, Hs. reflexivity.
Qed.

Lemma SubmitTaskBlocking_result (e : nat) (task : TaskConfig.t) (l : Logger)
      (trigger : string) (w : scheduler.World) :
  exists accepted w1,
    scheduler.SubmitTaskBlocking e task l trigger w = (accepted, w1)
    /\ scheduler.submitted w1
       = scheduler.submitted w ++ [scheduler.mkSubmission e task l trigger true accepted]
    /\ scheduler.entries w1 = scheduler.entries w
    /\ scheduler.executors w1 = scheduler.executors w.
Proof.
  unfold scheduler.SubmitTaskBlocking, scheduler.ask.
  destruct (scheduler.tape w) as [|b ?]; simpl; eauto 10.
Qed.

Lemma submitAllBlocking_from (e : nat) (accLog : Logger) (tasks : list TaskConfig.t)
      (errs : list error) (w : scheduler.World) :
  exists news w',
    foldl (fun '(taskErrors, w) task =>
             if negb (scheduler.isTaskEnabled task) then (taskErrors, w)
             else
               match scheduler.SubmitTaskBlocking e task accLog "once" w with
               | (true, w) => (taskErrors, w)
               | (false, w) =>
                   (taskErrors ++ [FailedToSubmit (TaskConfig.Name task)], w)
               end)
          (errs, w) tasks
    = (errs ++ submitErrors news, w')
    /\ scheduler.submitted w' = scheduler.submitted w ++ news
    /\ submissionsOf e "once" true (enabledTasks tasks) news
    /\ scheduler.entries w' = scheduler.entries w
    /\ scheduler.executors w' = scheduler.executors w.
Proof.
  revert errs w. induction tasks as [|t tasks IH]; intros errs w.
  - exists [], w. simpl. rewrite !app_nil_r.
    split; [done|]. split; [done|]. split; [apply submissionsOf_nil | done].
  - cbn [foldl]. unfold enabledTasks. destruct (scheduler.isTaskEnabled t) eqn:Hen.
    + cbn [negb]. rewrite filter_cons_True by done.
      destruct (SubmitTaskBlocking_result e t accLog "once" w)
        as (accepted & w1 & Heq & Hs & He & Hx).
      rewrite Heq.
      set (s := scheduler.mkSubmission e t accLog "once" true accepted) in *.
      destruct accepted.
      * destruct (IH errs w1) as (news & w' & Hrun & Hsub & Hof & Hent & Hexs).
        exists (s :: news), w'. rewrite Hrun.
        split.
        { unfold submitErrors. rewrite filter_cons_False by (simpl; congruence). done. }
        split; [rewrite Hsub, Hs, <- app_assoc; done|].
        split; [apply submissionsOf_cons; done|].
        split; [rewrite Hent; done | rewrite Hexs; done].
      * destruct (IH (errs ++ [FailedToSubmit (TaskConfig.Name t)]) w1)
          as (news & w' & Hrun & Hsub & Hof & Hent & Hexs).
        exists (s :: news), w'. rewrite Hrun.
        split.
        { unfold submitErrors. rewrite filter_cons_True by done.
          rewrite fmap_cons, <- app_assoc. done. }
        split; [rewrite Hsub, Hs, <- app_assoc; done|].
        split; [apply submissionsOf_cons; done|].
        split; [rewrite Hent; done | rewrite Hexs; done].
    + cbn [negb]. rewrite filter_cons_False by congruence. apply IH.
Qed.

(** The counter of [runTasksOnce] counts the enabled tasks. *)
Lemma enabledTaskCount_length (tasks : list TaskConfig.t) :
  foldl (fun n task => if scheduler.isTaskEnabled task then n + 1 else n) 0 tasks
  = Z.of_nat (length (enabledTasks tasks)).
Proof.
  assert (Hgen : forall l n,
    foldl (fun n task => if scheduler.isTaskEnabled task then n + 1 else n) n l
    = n + Z.of_nat (length (enabledTasks l))).
  { induction l as [|t l IH]; intros n; simpl; [lia|].
    rewrite IH. unfold enabledTasks. destruct (scheduler.isTaskEnabled t) eqn:Hen.
    - rewrite filter_cons_True by done. simpl length. lia.
    - rewrite filter_cons_False by congruence. done. }
  rewrite Hgen. lia.
Qed.

Lemma onceSession_result (cfg : Config.t) (acc : AccountConfig.t)
        (sessionFile : string) (accLog : Logger) (accountLabel : string)
        (enabledTaskCount : Z) (w : scheduler.World) :
  let exec := length (scheduler.executors w) in
  scheduler.AuthInRun env (AccountConfig.Phone acc) (AccountConfig.Password acc) = None ->
  exists news w',
    scheduler.onceSession env cfg acc sessionFile accLog accountLabel
                          enabledTaskCount w
    = (None, submitErrors news, w')
    /\ scheduler.submitted w' = scheduler.submitted w ++ news
    /\ submissionsOf exec "once" true (enabledTasks (AccountConfig.Tasks acc)) news
    /\ scheduler.entries w' = scheduler.entries w
    /\ exists ex, scheduler.executors w' = scheduler.executors w ++ [ex]
                  /\ executor.closed (executor.taskQueue ex) = true.
Proof.
  intros exec Hauth. unfold scheduler.onceSession. rewrite Hauth.
  destruct (createExecutor_open cfg acc sessionFile accLog accountLabel w)
    as (Hfst & Hent1 & Hsub1 & ex & Hex1 & _).
  destruct (scheduler.createExecutor _ _ _ _ _ _ _) as [exec' w1].
  simpl in Hfst, Hent1, Hsub1, Hex1. subst exec'. fold exec.
  unfold scheduler.submitAllBlocking.
  destruct (submitAllBlocking_from exec accLog (AccountConfig.Tasks acc) [] w1)
    as (news & w2 & Hrun & Hsub2 & Hof & Hent2 & Hex2).
  rewrite Hrun. simpl app.
  set (w3 := if bool_decide (0 < length (submitErrors news))%nat then _ else _).
  assert (Hw3 : scheduler.submitted w3 = scheduler.submitted w2
                /\ scheduler.entries w3 = scheduler.entries w2
                /\ scheduler.executors w3 = scheduler.executors w2).
  { subst w3. case_bool_decide; done. }
  destruct Hw3 as (Hsub3 & Hent3 & Hex3).
  destruct (onExecutor_keeps exec executor.Stop w3) as [Hsub4 Hent4].
  exists news, (scheduler.onExecutor exec executor.Stop w3).
  split; [done|].
  split; [by rewrite Hsub4, Hsub3, Hsub2, Hsub1|].
  split; [done|].
  split; [by rewrite Hent4, Hent3, Hent2, Hent1|].
  assert (Hlk : scheduler.executors w3 !! exec = Some ex).
  { rewrite Hex3, Hex2, Hex1. unfold exec. rewrite lookup_app_r by done.
    by rewrite Nat.sub_diag. }
  unfold scheduler.onExecutor. rewrite Hlk. simpl.
  eexists. split.
  - rewrite Hex3, Hex2, Hex1. unfold exec.
    rewrite insert_app_r_alt by done. rewrite Nat.sub_diag. reflexivity.
  - reflexivity.
Qed.




Lemma submitRunOnStart_started (e : nat) (accLog : Logger)
      (tasks : list TaskConfig.t) (w : scheduler.World) :
  scheduler.started (scheduler.submitRunOnStart e accLog tasks w)
  = scheduler.started w.
Proof.
  unfold scheduler.submitRunOnStart. revert w.
  induction tasks as [|t tasks IH]; intros w; simpl; [done|].
  rewrite IH. destruct (scheduler.isTaskEnabled t && TaskConfig.RunOnStart t); [|done].
  unfold scheduler.SubmitTask, scheduler.ask.
  destruct (scheduler.tape w) as [|[] ?]; done.
Qed.

Lemma createExecutor_started (cfg : Config.t) (acc : AccountConfig.t)
      (sessionFile : string) (accLog : Logger) (accountLabel : string)
      (w : scheduler.World) :
  scheduler.started
    (snd (scheduler.createExecutor env cfg acc sessionFile accLog accountLabel w))
  = scheduler.started w.
Proof.
  unfold scheduler.createExecutor, scheduler.newExecutor, scheduler.onExecutor.
  simpl. rewrite lookup_app_r by done. rewrite Nat.sub_diag. done.
Qed.

(** An account without an enabled scheduled task leaves the cron engine as
    it was and does not ask for its start. *)
Lemma runAccount_no_schedule (cfg : Config.t) (log : Logger) (acc : AccountConfig.t)
      (hasAnyScheduled : bool) (w : scheduler.World) :
  scheduledTasks (AccountConfig.Tasks acc) = [] ->
  let r := scheduler.runAccount env cfg log acc hasAnyScheduled w in
  fst r = hasAnyScheduled
  /\ scheduler.entries (snd r) = scheduler.entries w
  /\ scheduler.started (snd r) = scheduler.started w.
Proof.
  intros Hs. unfold scheduler.runAccount. rewrite scanTasks_flags, Hs.
  rewrite (bool_decide_eq_false_2 ([] ≠ [])) by (intros H; by apply H).
  destruct (bool_decide _); cbn [negb andb]; [|done].
  destruct (scheduler.resolveAppConfig cfg acc) as [[appID appHash]|err]; [|done].
  destruct (scheduler.resolveReplyConfig cfg acc TaskConfig.zero) as [rw rh].
  destruct (scheduler.factory env _ _ _ _ _); [done|].
  destruct (scheduler.clientRun env _); [done|].
  unfold scheduler.daemonSession.
  destruct (scheduler.AuthInRun env _ _); [done|].
  pose proof (createExecutor_started cfg acc
                (scheduler.sessionName_of acc +:+ ".session")
                (scheduler.accLog_of log
                   (scheduler.formatAccountLabel acc (scheduler.sessionName_of acc))
                   (scheduler.sessionName_of acc))
                (scheduler.formatAccountLabel acc (scheduler.sessionName_of acc)) w)
    as Hst.
  destruct (createExecutor_open cfg acc
                (scheduler.sessionName_of acc +:+ ".session")
                (scheduler.accLog_of log
                   (scheduler.formatAccountLabel acc (scheduler.sessionName_of acc))
                   (scheduler.sessionName_of acc))
                (scheduler.formatAccountLabel acc (scheduler.sessionName_of acc)) w)
    as (_ & Hent & _).
  destruct (scheduler.createExecutor _ _ _ _ _ _ _) as [exec w1].
  simpl in Hst, Hent. simpl.
  destruct (submitRunOnStart_keeps exec
              (scheduler.accLog_of log
                 (scheduler.formatAccountLabel acc (scheduler.sessionName_of acc))
                 (scheduler.sessionName_of acc)) (AccountConfig.Tasks acc) w1)
    as [He _].
  rewrite He, submitRunOnStart_started. done.
Qed.

(** X17. When no account has an enabled task with a schedule, [RunTasks]
    returns nil, the cron engine gets no entry and is not started, and
    [RunTasks] says so in the log. *)
Theorem RunTasks_without_schedule_does_not_start
        (cfg : Config.t) (log : Logger) (w : scheduler.World) :
  Forall (fun acc => scheduledTasks (AccountConfig.Tasks acc) = [])
         (Config.Accounts cfg) ->
  let r := scheduler.RunTasks env cfg log w in
  fst r = None
  /\ scheduler.entries (snd r) = scheduler.entries w
  /\ scheduler.started (snd r) = scheduler.started w
  /\ mkEvent log InfoLevel [] "No scheduled tasks, scheduler not started"
     ∈ scheduler.logged (snd r).
Proof.
  intros Hall. unfold scheduler.RunTasks.
  assert (Hgen : forall accounts any w0,
    Forall (fun acc => scheduledTasks (AccountConfig.Tasks acc) = []) accounts ->
    let r := foldl (fun '(hasAnyScheduled, w) acc =>
                      scheduler.runAccount env cfg log acc hasAnyScheduled w)
                   (any, w0) accounts in
    fst r = any /\ scheduler.entries (snd r) = scheduler.entries w0
    /\ scheduler.started (snd r) = scheduler.started w0).
  { induction accounts as [|acc accounts IH]; intros any w0 Hf; [done|].
    apply Forall_cons in Hf as [Hacc Hf]. cbn [foldl].
    destruct (runAccount_no_schedule cfg log acc any w0 Hacc) as (H1 & H2 & H3).
    destruct (scheduler.runAccount env cfg log acc any w0) as [any' w1].
    simpl in H1, H2, H3. subst any'.
    destruct (IH any w1 Hf) as (I1 & I2 & I3).
    split; [done|]. split; congruence. }
  destruct (Hgen (Config.Accounts cfg) false w Hall) as (H1 & H2 & H3).
  destruct (foldl _ _ _) as [any w1]. simpl in H1, H2, H3. subst any.
  cbn [negb]. simpl. split; [done|]. split; [done|]. split; [done|].
  apply elem_of_app. right. by left.
Qed.

(** [RunTasks] never returns an error. *)
Lemma RunTasks_returns_nil (cfg : Config.t) (log : Logger) (w : scheduler.World) :
  fst (scheduler.RunTasks env cfg log w) = None.
Proof.
  unfold scheduler.RunTasks. destruct (foldl _ _ _) as [[] w1]; done.
Qed.



Lemma submitErrors_nil (news : list scheduler.Submission) :
  submitErrors news = [] ->
  Forall (fun s => scheduler.sub_accepted s = true) news.
Proof.
  unfold submitErrors. intros Hnil. apply fmap_nil_inv in Hnil.
  apply Forall_forall. intros s Hs.
  destruct (scheduler.sub_accepted s) eqn:Hacc; [done|].
  assert (Hin : s ∈ filter (fun s => scheduler.sub_accepted s = false) news)
    by (by apply list_elem_of_filter).
  rewrite Hnil in Hin. by apply elem_of_nil in Hin.
Qed.

(** The loop of [runTasksOnce], from any account on: what it submits, and
    what a nil result says about it. *)
Lemma runTasksOnceLoop_nil (cfg : Config.t) (log : Logger)
      (accounts : list AccountConfig.t) (allErrs : list error) (w : scheduler.World) :
  let r := scheduler.runTasksOnceLoop env cfg log accounts allErrs w in
  exists news,
    scheduler.submitted (snd r) = scheduler.submitted w ++ news
    /\ scheduler.entries (snd r) = scheduler.entries w
    /\ (fst r = None ->
        allErrs = []
        /\ scheduler.sub_task <$> news = enabledTasksOf accounts
        /\ Forall (fun s => scheduler.sub_accepted s = true
                            /\ scheduler.sub_blocking s = true
                            /\ scheduler.sub_trigger s = "once") news).
Proof.
  revert allErrs w. induction accounts as [|acc rest IH]; intros allErrs w.
  - exists []. simpl. rewrite app_nil_r. split; [done|]. split; [done|].
    intros Hnil. destruct allErrs; [|discriminate]. repeat split; constructor.
  - cbn [scheduler.runTasksOnceLoop].
    destruct (ask_keeps w) as (Hs0 & He0 & _).
    destruct (scheduler.ask w) as [done w0]. simpl in Hs0, He0.
    destruct done.
    { exists []. simpl. rewrite app_nil_r. split; [done|]. split; [done|]. discriminate. }
    rewrite enabledTaskCount_length.
    unfold enabledTasksOf. rewrite fmap_cons. cbn [concat].
    fold (enabledTasksOf rest).
    set (sessionName := scheduler.sessionName_of acc).
    set (accLog := scheduler.accLog_of log _ _).
    case_bool_decide as Hcount.
    { assert (Hen : enabledTasks (AccountConfig.Tasks acc) = [])
        by (apply length_zero_iff_nil; lia).
      rewrite Hen. cbn [app].
      destruct (IH allErrs
                  (scheduler.emit accLog InfoLevel [] "No enabled tasks, skipping" w0))
        as (news & Hsub & Hent & Hnil).
      exists news. split; [by rewrite Hsub; simpl; rewrite Hs0|].
      split; [by rewrite Hent; simpl; rewrite He0|]. exact Hnil. }
    set (w1 := scheduler.emit accLog InfoLevel _ "Starting tasks" w0).
    assert (Hs1 : scheduler.submitted w1 = scheduler.submitted w) by exact Hs0.
    assert (He1 : scheduler.entries w1 = scheduler.entries w) by exact He0.
    clearbody w1.
    assert (Hfail : forall err w2,
               scheduler.submitted w2 = scheduler.submitted w ->
               scheduler.entries w2 = scheduler.entries w ->
               let r := scheduler.runTasksOnceLoop env cfg log rest
                          (allErrs ++ [err]) w2 in
               exists news,
                 scheduler.submitted (snd r) = scheduler.submitted w ++ news
                 /\ scheduler.entries (snd r) = scheduler.entries w
                 /\ (fst r = None ->
                     allErrs = []
                     /\ scheduler.sub_task <$> news
                        = enabledTasks (AccountConfig.Tasks acc) ++ enabledTasksOf rest
                     /\ Forall (fun s => scheduler.sub_accepted s = true
                                         /\ scheduler.sub_blocking s = true
                                         /\ scheduler.sub_trigger s = "once") news)).
    { intros err w2 Hs2 He2 r. subst r.
      destruct (IH (allErrs ++ [err]) w2) as (news & Hsub & Hent & Hnil).
      exists news. split; [by rewrite Hsub, Hs2|]. split; [by rewrite Hent, He2|].
      intros Hr. destruct (Hnil Hr) as [Habs _].
      by apply app_eq_nil in Habs as [_ ?]. }
    destruct (scheduler.resolveAppConfig cfg acc) as [[appID appHash]|err];
      [|by apply Hfail].
    destruct (scheduler.resolveReplyConfig cfg acc TaskConfig.zero) as [rw rh].
    destruct (scheduler.factory env _ _ _ _ _) as [err|]; [by apply Hfail|].
    destruct (scheduler.clientRun env _) as [err|]; [by apply Hfail|].
    destruct (scheduler.AuthInRun env (AccountConfig.Phone acc)
                                  (AccountConfig.Password acc)) as [err|] eqn:Hauth.
    { unfold scheduler.onceSession. rewrite Hauth. rewrite app_nil_r.
      by apply Hfail. }
    destruct (onceSession_result cfg acc (sessionName +:+ ".session") accLog
                (scheduler.formatAccountLabel acc sessionName)
                (Z.of_nat (length (enabledTasks (AccountConfig.Tasks acc)))) w1 Hauth)
      as (news1 & w2 & Hrun & Hsub2 & [Htasks Hkind] & Hent2 & _).
    rewrite Hrun.
    destruct (IH (allErrs ++ submitErrors news1) w2) as (news2 & Hsub & Hent & Hnil).
    exists (news1 ++ news2).
    split; [by rewrite Hsub, Hsub2, Hs1, app_assoc|].
    split; [by rewrite Hent, Hent2, He1|].
    intros Hr. destruct (Hnil Hr) as (Hno & Htasks2 & Hall2).
    apply app_eq_nil in Hno as [-> Hno]. split; [done|].
    split; [by rewrite fmap_app, Htasks, Htasks2|].
    apply Forall_app. split; [|exact Hall2].
    apply submitErrors_nil in Hno.
    apply Forall_forall. intros s Hs.
    rewrite Forall_forall in Hno. rewrite Forall_forall in Hkind.
    destruct (Hkind s Hs) as (_ & Htr & Hbl). auto.
Qed.

(** X18. When the run-once mode returns nil, it has queued every enabled
    task of every account: its submissions are the enabled tasks, account
    after account and in the order of the configuration, each one accepted,
    made with the blocking call and the trigger "once"; and it registers no
    schedule entry in any case. *)
Theorem runTasksOnce_nil_means_all_queued
        (cfg : Config.t) (log : Logger) (w : scheduler.World) :
  fst (scheduler.runTasksOnce env cfg log w) = None ->
  exists news,
    scheduler.submitted (snd (scheduler.runTasksOnce env cfg log w))
    = scheduler.submitted w ++ news
    /\ scheduler.sub_task <$> news = enabledTasksOf (Config.Accounts cfg)
    /\ Forall (fun s => scheduler.sub_accepted s = true
                        /\ scheduler.sub_blocking s = true
                        /\ scheduler.sub_trigger s = "once") news
    /\ scheduler.entries (snd (scheduler.runTasksOnce env cfg log w))
       = scheduler.entries w.
Proof.
  intros Hnil. unfold scheduler.runTasksOnce in *.
  destruct (runTasksOnceLoop_nil cfg log (Config.Accounts cfg) [] w)
    as (news & Hsub & Hent & Hall).
  destruct (Hall Hnil) as (_ & Htasks & Hkind).
  exists news. done.
Qed.

(** X19. The closure of a schedule entry, fired while the executor it
    captured is open: when the context is done it does nothing; otherwise
    it makes one submission, of the task of the entry, to that executor,
    with the non-blocking call and the trigger "scheduled". The entries
    stay as they are. *)
Theorem fire_submits_scheduled_task (en : scheduler.ScheduleEntry)
        (ex : executor.TaskExecutor) (w : scheduler.World) :
  scheduler.executors w !! scheduler.entry_exec en = Some ex ->
  executor.closed (executor.taskQueue ex) = false ->
  exists w',
    scheduler.fire en w = Some w'
    /\ scheduler.entries w' = scheduler.entries w
    /\ scheduler.executors w' = scheduler.executors w
    /\ if fst (scheduler.ask w) then scheduler.submitted w' = scheduler.submitted w
       else exists accepted,
           scheduler.submitted w'
           = scheduler.submitted w
             ++ [scheduler.mkSubmission (scheduler.entry_exec en)
                   (scheduler.entry_task en) (scheduler.entry_log en)
                   "scheduled" false accepted].
Proof.
  intros Hex Hopen. unfold scheduler.fire.
  destruct (ask_keeps w) as (Hs0 & He0 & Hx0 & _).
  destruct (scheduler.ask w) as [done w0]. simpl in Hs0, He0, Hx0. simpl fst.
  destruct done.
  - exists w0. done.
  - rewrite Hx0, Hex, Hopen.
    destruct (SubmitTask_submitted (scheduler.entry_exec en) (scheduler.entry_task en)
                (scheduler.entry_log en) "scheduled" w0)
      as ([accepted Hsub] & Hent & Hexs).
    eexists. split; [reflexivity|].
    split; [by rewrite Hent|]. split; [by rewrite Hexs|].
    exists accepted. by rewrite Hsub, Hs0.
Qed.

End Sessions.


Lemma runAccount_skips_account_without_runnable_task_witness :
  let t0 := taskWith "t0" "message" "@every 12h" (Some false) true in
  let t1 := taskWith "t1" "message" "" None false in
  let acc := AccountConfig.mk "acme" "+100" "" 0 "" 0 0 0 0 [t0; t1] in
  let cfg := Config.mk [acc] "" 12345 "hash" 0 0 LogConfig.zero "" in
  let r := scheduler.runAccount sampleEnv cfg mainLogger acc false
                                (scheduler.initWorld []) in
  fst r = false
  /\ scheduler.executors (snd r) = []
  /\ scheduler.logged (snd r)
     = [mkEvent (scheduler.accLog_of mainLogger "acme(+100)" "+100") InfoLevel []
                "No runnable tasks configured, skipping account"].
Proof.
  intros t0 t1 acc cfg r.
  assert (Hnone : forall t, t ∈ AccountConfig.Tasks acc ->
                            scheduler.isTaskEnabled t = true ->
                            TaskConfig.RunOnStart t = false /\ TaskConfig.Schedule t = "").
  { intros t Ht Hen. change (AccountConfig.Tasks acc) with [t0; t1] in Ht.
    apply elem_of_cons in Ht as [->|Ht]; [discriminate Hen|].
    apply list_elem_of_singleton in Ht. subst t. split; reflexivity. }
  subst r.
  rewrite (runAccount_skips_account_without_runnable_task sampleEnv cfg mainLogger
             acc false (scheduler.initWorld []) Hnone).
  repeat split; reflexivity.
Defined.


Lemma RunTasks_without_schedule_does_not_start_witness :
  let t0 := taskWith "t0" "message" "" None true in
  let t1 := taskWith "t1" "message" "0 8 * * *" (Some false) false in
  let acc := AccountConfig.mk "acme" "+100" "" 0 "" 0 0 0 0 [t0; t1] in
  let cfg := Config.mk [acc] "" 12345 "hash" 0 0 LogConfig.zero "" in
  let r := scheduler.RunTasks sampleEnv cfg mainLogger (scheduler.initWorld [true]) in
  scheduledTasks (AccountConfig.Tasks acc) = []
  /\ fst r = None
  /\ scheduler.entries (snd r) = []
  /\ scheduler.started (snd r) = false.
Proof.
  intros t0 t1 acc cfg r.
  assert (Hnone : scheduledTasks (AccountConfig.Tasks acc) = []) by reflexivity.
  assert (Hall : Forall (fun acc => scheduledTasks (AccountConfig.Tasks acc) = [])
                        (Config.Accounts cfg)).
  { change (Config.Accounts cfg) with [acc]. apply List.Forall_cons; [exact Hnone|].
    apply List.Forall_nil. }
  destruct (RunTasks_without_schedule_does_not_start sampleEnv cfg mainLogger
              (scheduler.initWorld [true]) Hall) as (Hnil & Hent & Hst & _).
  split; [exact Hnone|]. split; [exact Hnil|]. split; [exact Hent | exact Hst].
Defined.

Lemma runTasksOnce_nil_means_all_queued_witness :
  let on1 := taskWith "t1" "message" "0 8 * * *" None false in
  let off := taskWith "t2" "message" "" (Some false) true in
  let on2 := taskWith "t3" "button" "" (Some true) false in
  let on3 := taskWith "t4" "message" "" None true in
  let acme := AccountConfig.mk "acme" "+100" "" 0 "" 0 0 0 0 [on1; off] in
  let idle := AccountConfig.mk "idle" "+200" "" 0 "" 0 0 0 0 [off] in
  let corp := AccountConfig.mk "corp" "+300" "" 0 "" 0 0 0 0 [on2; on3] in
  let cfg := Config.mk [acme; idle; corp] "" 12345 "hash" 0 0 LogConfig.zero "" in
  let r := scheduler.runTasksOnce sampleEnv cfg mainLogger
             (scheduler.initWorld [false; true; false; false; true; true]) in
  fst r = None
  /\ scheduler.sub_task <$> scheduler.submitted (snd r) = [on1; on2; on3]
  /\ Forall (fun s => scheduler.sub_accepted s = true) (scheduler.submitted (snd r)).
Proof.
  intros on1 off on2 on3 acme idle corp cfg r.
  assert (Hnil : fst r = None) by (vm_compute; reflexivity).
  destruct (runTasksOnce_nil_means_all_queued sampleEnv cfg mainLogger
              (scheduler.initWorld [false; true; false; false; true; true]) Hnil)
    as (news & Hsub & Htasks & Hkind & _).
  split; [exact Hnil|]. fold r in Hsub. rewrite Hsub.
  split; [exact Htasks|].
  eapply Forall_impl; [exact Hkind|]. intros s (Hacc & _). exact Hacc.
Defined.

Lemma fire_submits_scheduled_task_witness :
  let t := taskWith "t1" "message" "0 8 * * *" None false in
  let en := scheduler.mkEntry "0 8 * * *" t 0 mainLogger in
  let ex := executor.NewTaskExecutor silentClient 1 2 mainLogger "" "" "acme" in
  let w := scheduler.mkWorld [] [ex] [] [en] true [false; true] in
  executor.closed (executor.taskQueue ex) = false
  /\ exists w' accepted,
      scheduler.fire en w = Some w'
      /\ scheduler.submitted w'
         = [scheduler.mkSubmission 0 t mainLogger "scheduled" false accepted]
      /\ scheduler.entries w' = [en].
Proof.
  intros t en ex w.
  split; [reflexivity|].
  destruct (fire_submits_scheduled_task en ex w eq_refl eq_refl)
    as (w' & Hfire & Hent & _ & accepted & Hsub).
  exists w', accepted. split; [exact Hfire|]. split; [exact Hsub | exact Hent].
Defined.

(** X21. The defaults that [RunTasks] and [runTasksOnce] apply to the
    worker count and the queue size before they call [NewTaskExecutor]
    change nothing: on every runtime the call with the defaults applied
    does what the call with the values of the account as they are does (it
    returns the same executor, or panics on the same refusal), and the
    executor the two functions add, where the call returns, is the one the
    call returns for the values as they are. *)
Theorem createExecutor_defaults_redundant (env : scheduler.Env) (cfg : Config.t)
        (acc : AccountConfig.t) (sessionFile : string) (accLog : Logger)
        (accountLabel : string) (w : scheduler.World) :
  let r := scheduler.createExecutor env cfg acc sessionFile accLog accountLabel w in
  let workerCount := AccountConfig.WorkerCount acc in
  let queueSize := AccountConfig.TaskQueueSize acc in
  (forall chanLimit,
      executor.NewTaskExecutor_call chanLimit (scheduler.clientOf env sessionFile)
        (if bool_decide (workerCount ≤ 0) then 4 else workerCount)
        (if bool_decide (queueSize ≤ 0) then 100 else queueSize)
        accLog (LogConfig.Dir (Config.Log cfg))
        (LogConfig.Format (Config.Log cfg)) accountLabel
      = executor.NewTaskExecutor_call chanLimit (scheduler.clientOf env sessionFile)
          workerCount queueSize
          accLog (LogConfig.Dir (Config.Log cfg))
          (LogConfig.Format (Config.Log cfg)) accountLabel)
  /\ (forall chanLimit ex,
        executor.NewTaskExecutor_call chanLimit (scheduler.clientOf env sessionFile)
          workerCount queueSize
          accLog (LogConfig.Dir (Config.Log cfg))
          (LogConfig.Format (Config.Log cfg)) accountLabel = Some ex ->
        scheduler.executors (snd r) = scheduler.executors w ++ [ex]).
Proof.
  intros r workerCount queueSize. subst r. split.
  - intros chanLimit. rewrite !NewTaskExecutor_call_returns.
    unfold executor.NewTaskExecutor.
    repeat case_bool_decide; try lia; reflexivity.
  - intros chanLimit ex Hcall. rewrite NewTaskExecutor_call_returns in Hcall.
    case_bool_decide; [|discriminate]. injection Hcall as Hex.
    assert (Hsame : executor.NewTaskExecutor (scheduler.clientOf env sessionFile)
                      (if bool_decide (workerCount ≤ 0) then 4 else workerCount)
                      (if bool_decide (queueSize ≤ 0) then 100 else queueSize)
                      accLog (LogConfig.Dir (Config.Log cfg))
                      (LogConfig.Format (Config.Log cfg)) accountLabel
                    = ex).
    { subst ex. unfold executor.NewTaskExecutor.
      repeat case_bool_decide; try lia; reflexivity. }
    unfold scheduler.createExecutor, scheduler.newExecutor, scheduler.onExecutor.
    cbv zeta. fold workerCount. fold queueSize. rewrite Hsame. simpl.
    rewrite lookup_app_r by done. rewrite Nat.sub_diag. simpl.
    rewrite insert_app_r_alt by done. by rewrite Nat.sub_diag.
Qed.
